(** * Spotify playlist to YouTube downloader: model and properties

    A shallow embedding of [spotify_to_youtube.py].  Python strings are
    [string]s (one [ascii] per character), Python lists are [list]s, the
    effects of the script (printing, the working directory, the file system,
    subprocesses, exceptions) are threaded through a state-and-exception
    monad over a [World], and the answers of the remote services are read
    from an [Env] of oracles. *)

From Stdlib Require Import List String Ascii Bool Arith Lia DecimalString.
Import ListNotations.
Open Scope string_scope.

(* ===================================================================== *)
(** * Python strings *)
(* ===================================================================== *)

Module Py.

Definition dquote : ascii := "034"%char.
Definition backslash : ascii := "092"%char.
Definition newline : ascii := "010"%char.
Definition carriage_return : ascii := "013"%char.

Definition NL : string := String newline "".

(** [c in chars] for a one-character [c]. *)
Fixpoint char_in (c : ascii) (chars : string) : bool :=
  match chars with
  | "" => false
  | String d rest => Ascii.eqb c d || char_in c rest
  end.

(** [s.replace(old, new)] where [old] and [new] are single characters. *)
Fixpoint replace (old new : ascii) (s : string) : string :=
  match s with
  | "" => ""
  | String c rest =>
      String (if Ascii.eqb c old then new else c) (replace old new rest)
  end.

(** [s.lstrip(chars)]. *)
Fixpoint lstrip (chars : string) (s : string) : string :=
  match s with
  | "" => ""
  | String c rest => if char_in c chars then lstrip chars rest else s
  end.

(** [s.rstrip(chars)]: a character goes when it is in [chars] and all that
    follows it goes too. *)
Fixpoint rstrip (chars : string) (s : string) : string :=
  match s with
  | "" => ""
  | String c rest =>
      match rstrip chars rest with
      | "" => if char_in c chars then "" else String c ""
      | kept => String c kept
      end
  end.

(** [s.strip(chars)]. *)
Definition strip (chars : string) (s : string) : string :=
  rstrip chars (lstrip chars s).

(** [s[:n]]. *)
Fixpoint slice_to (n : nat) (s : string) : string :=
  match n, s with
  | S k, String c rest => String c (slice_to k rest)
  | _, _ => ""
  end.

(** [s[n:]]. *)
Fixpoint slice_from (n : nat) (s : string) : string :=
  match n, s with
  | S k, String _ rest => slice_from k rest
  | _, _ => s
  end.

(** [s.startswith(p)]. *)
Fixpoint startswith (p s : string) : bool :=
  match p, s with
  | "", _ => true
  | String a p', String b s' => Ascii.eqb a b && startswith p' s'
  | String _ _, "" => false
  end.

(** [s.endswith(p)]. *)
Definition endswith (p s : string) : bool :=
  Nat.leb (String.length p) (String.length s)
  && String.eqb (slice_from (String.length s - String.length p) s) p.

(** [s.find(sub)]: the index of the leftmost occurrence, [None] for -1. *)
Fixpoint find (sub s : string) : option nat :=
  if startswith sub s then Some 0
  else match s with
       | "" => None
       | String _ rest => option_map S (find sub rest)
       end.

(** [sub in s]. *)
Definition contains (sub s : string) : bool :=
  match find sub s with Some _ => true | None => false end.

(** [sep.join(parts)]. *)
Fixpoint join (sep : string) (parts : list string) : string :=
  match parts with
  | [] => ""
  | [p] => p
  | p :: rest => p ++ sep ++ join sep rest
  end.

(** [str(n)] for a non-negative integer [n]. *)
Definition str_of_nat (n : nat) : string :=
  NilZero.string_of_uint (Nat.to_uint n).

(** Truthiness of a string: the empty string is false. *)
Definition truthy (s : string) : bool :=
  match s with "" => false | _ => true end.

(** [s.split(sep)] for a non-empty separator (Python raises [ValueError] on
    an empty one): cut at the leftmost occurrence and go on behind it.  Each
    cut consumes at least one character, so [S (len s)] rounds are enough. *)
Fixpoint split_rounds (rounds : nat) (sep s : string) : list string :=
  match rounds with
  | O => [s]
  | S rounds' =>
      match find sep s with
      | Some i =>
          slice_to i s
            :: split_rounds rounds' sep (slice_from (i + String.length sep) s)
      | None => [s]
      end
  end.

Definition split (sep s : string) : list string :=
  split_rounds (S (String.length s)) sep s.

End Py.

(* ===================================================================== *)
(** * Exceptions, the world and the monad of the script *)
(* ===================================================================== *)

(** The exception classes the script meets.  All but [KeyboardInterrupt]
    derive from Python's [Exception]; [OSError] stands for itself and its
    subclasses ([FileNotFoundError], [PermissionError], ...; [IOError] is an
    alias), [OtherException] for library errors such as googleapiclient's
    [HttpError] and spotipy's [SpotifyException]. *)
Inductive ExcClass : Type :=
  | CalledProcessError
  | KeyboardInterrupt
  | OSError
  | ValueError
  | KeyError
  | IndexError
  | ZeroDivisionError
  | OtherException.

(** An exception: its class and its [str()]. *)
Record PyExc : Type := mkExc { exc_class : ExcClass; exc_str : string }.

(** [isinstance(e, Exception)]. *)
Definition is_Exception (e : PyExc) : bool :=
  match exc_class e with
  | KeyboardInterrupt => false
  | _ => true
  end.

(** What the script can observe and change: the working directory, the
    directories and files on disk (absolute paths), what it has printed
    (oldest first) and the command lines it has run. *)
Record World : Type := mkWorld {
  cwd : string;
  dirs : list string;
  files : list (string * string);
  stdout : list string;
  spawned : list (list string)
}.

(** How a call ends: with a value, with an exception, or not at all (only
    the pagination loop can fail to end). *)
Inductive Outcome (A : Type) : Type :=
  | Return (a : A)
  | Raise (e : PyExc)
  | Diverge.

Arguments Return {A} a.
Arguments Raise {A} e.
Arguments Diverge {A}.

Definition M (A : Type) : Type := World -> Outcome A * World.

Definition ret {A : Type} (a : A) : M A := fun w => (Return a, w).

Definition raise {A : Type} (e : PyExc) : M A := fun w => (Raise e, w).

Definition diverge {A : Type} : M A := fun w => (Diverge, w).

Definition bind {A B : Type} (m : M A) (k : A -> M B) : M B :=
  fun w =>
    match m w with
    | (Return a, w') => k a w'
    | (Raise e, w') => (Raise e, w')
    | (Diverge, w') => (Diverge, w')
    end.

Declare Scope py_scope.
Delimit Scope py_scope with py.

Notation "x <- m ;; k" := (bind m (fun x => k))
  (at level 61, m at next level, right associativity) : py_scope.
Notation "m ;; k" := (bind m (fun _ => k))
  (at level 61, right associativity) : py_scope.

Open Scope py_scope.

(** [try: body  except ...: handler].  [handler e] is [None] when no
    [except] clause matches [e], which then propagates. *)
Definition try_except {A : Type} (body : M A)
    (handler : PyExc -> option (M A)) : M A :=
  fun w =>
    match body w with
    | (Raise e, w') =>
        match handler e with
        | Some h => h w'
        | None => (Raise e, w')
        end
    | other => other
    end.

(** [try: body  finally: cleanup].  The cleanup runs however the body ends;
    an exception of the cleanup replaces the body's outcome. *)
Definition try_finally {A : Type} (body : M A) (cleanup : M unit) : M A :=
  fun w =>
    match body w with
    | (Diverge, w') => (Diverge, w')
    | (r, w') =>
        match cleanup w' with
        | (Return _, w'') => (r, w'')
        | (Raise e, w'') => (Raise e, w'')
        | (Diverge, w'') => (Diverge, w'')
        end
    end.

(** [for x in xs: body x]. *)
Fixpoint for_each {A : Type} (xs : list A) (body : A -> M unit) : M unit :=
  match xs with
  | [] => ret tt
  | x :: rest => body x ;; for_each rest body
  end.

(** [[f x for x in xs]] for an effectful [f], in list order. *)
Fixpoint map_M {A B : Type} (f : A -> M B) (xs : list A) : M (list B) :=
  match xs with
  | [] => ret []
  | x :: rest => y <- f x ;; ys <- map_M f rest ;; ret (y :: ys)
  end.

(** [print(s)]. *)
Definition print (s : string) : M unit :=
  fun w =>
    (Return tt,
     mkWorld (cwd w) (dirs w) (files w) (stdout w ++ [s])%list (spawned w)).

(** [xs[i]] on a Python list. *)
Definition list_index {A : Type} (xs : list A) (i : nat) : M A :=
  match nth_error xs i with
  | Some x => ret x
  | None => raise (mkExc IndexError "list index out of range")
  end.

(** [s * n]. *)
Fixpoint str_repeat (s : string) (n : nat) : string :=
  match n with
  | O => ""
  | S k => s ++ str_repeat s k
  end.

(* ===================================================================== *)
(** * pandas frames *)
(* ===================================================================== *)

Module pd.

(** A cell holds a string or is missing ([None]/NaN). *)
Definition Cell : Type := option string.

(** A frame: its column labels and its rows, each row with one cell per
    column.  The row index is the default one (position). *)
Record DataFrame : Type := mkFrame {
  columns : list string;
  rows : list (list Cell)
}.

(** A Python dict with string keys and values, in insertion order. *)
Definition Dict : Type := list (string * string).

Fixpoint dict_get (key : string) (d : Dict) : Cell :=
  match d with
  | [] => None
  | (k, v) :: rest => if String.eqb k key then Some v else dict_get key rest
  end.

Definition add_label (labels : list string) (key : string) : list string :=
  if existsb (String.eqb key) labels then labels else (labels ++ [key])%list.

(** [pd.DataFrame(records)] for a list of dicts: the columns are the keys in
    order of first appearance, so an empty list gives a frame without
    columns; a key a record lacks gives a missing cell. *)
Definition from_records (records : list Dict) : DataFrame :=
  let labels :=
    fold_left (fun acc d => fold_left add_label (map fst d) acc) records [] in
  mkFrame labels (map (fun d => map (fun key => dict_get key d) labels) records).

(** [len(df)]. *)
Definition len (df : DataFrame) : nat := List.length (rows df).

Fixpoint position (key : string) (labels : list string) : option nat :=
  match labels with
  | [] => None
  | k :: rest =>
      if String.eqb k key then Some 0 else option_map S (position key rest)
  end.

(** [row[key]] for a row of [df] handed out by [apply(axis=1)]. *)
Definition row_get (df : DataFrame) (row : list Cell) (key : string) : M Cell :=
  match position key (columns df) with
  | Some i => ret (nth i row None)
  | None => raise (mkExc KeyError key)
  end.

(** [df[key]]: the cells of one column, top to bottom. *)
Definition column (df : DataFrame) (key : string) : M (list Cell) :=
  match position key (columns df) with
  | Some i => ret (map (fun row => nth i row None) (rows df))
  | None => raise (mkExc KeyError key)
  end.

(** [df[keys]]: the frame restricted to the listed columns, in that order. *)
Definition select (df : DataFrame) (keys : list string) : M DataFrame :=
  cols <- map_M (column df) keys ;;
  ret (mkFrame keys
         (map (fun i => map (fun col => nth i col None) cols)
              (seq 0 (len df)))).

(** [df.head()]: the first five rows. *)
Definition head (df : DataFrame) : DataFrame :=
  mkFrame (columns df) (firstn 5 (rows df)).

(** [df.apply(f, axis=1)] where [f] returns a two-element [pd.Series]: [f]
    is called on the rows from top to bottom and the result has one row per
    call, under the columns 0 and 1.  On a frame without rows [f] is not
    called on any row and pandas hands back a copy of the frame. *)
Definition apply_rows (df : DataFrame) (f : list Cell -> M (Cell * Cell))
    : M DataFrame :=
  match rows df with
  | [] => ret df
  | _ =>
      pairs <- map_M f (rows df) ;;
      ret (mkFrame ["0"; "1"] (map (fun p => [fst p; snd p]) pairs))
  end.

(** [df.progress_apply(f, axis=1)] after [tqdm.pandas()]: the wrapper first
    computes the total of its progress bar as [df.size // df.shape[1]],
    which divides by zero on a frame without columns, then applies [f] row
    by row.  (Were the division to pass, [setitem2] below would reject the
    result of applying [f] to no rows.) *)
Definition progress_apply (df : DataFrame) (f : list Cell -> M (Cell * Cell))
    : M DataFrame :=
  match columns df with
  | [] => raise (mkExc ZeroDivisionError "integer division or modulo by zero")
  | _ => apply_rows df f
  end.

(** Put [cells] under the label [key]: replace that column if the frame has
    it, else add it as the last one. *)
Definition set_column (df : DataFrame) (key : string) (cells : list Cell)
    : DataFrame :=
  match position key (columns df) with
  | Some i =>
      mkFrame (columns df)
        (map (fun rc => (firstn i (fst rc) ++ [snd rc] ++ skipn (S i) (fst rc))%list)
             (combine (rows df) cells))
  | None =>
      mkFrame (columns df ++ [key])%list
        (map (fun rc => (fst rc ++ [snd rc])%list) (combine (rows df) cells))
  end.

(** [df[[key1, key2]] = value] for a frame [value] on the same index: the
    value must have two columns, which go under the two labels in order. *)
Definition setitem2 (df : DataFrame) (key1 key2 : string) (value : DataFrame)
    : M DataFrame :=
  match columns value with
  | [c1; c2] =>
      cells1 <- column value c1 ;;
      cells2 <- column value c2 ;;
      ret (set_column (set_column df key1 cells1) key2 cells2)
  | _ => raise (mkExc ValueError "Columns must be same length as key")
  end.

(** [series.notna()] / [series.notnull()] on one cell. *)
Definition notna (c : Cell) : bool :=
  match c with Some _ => true | None => false end.

(** [df[df[key].notna()][key].tolist()]: the present cells of a column. *)
Definition present (cells : list Cell) : list string :=
  flat_map (fun c => match c with Some s => [s] | None => [] end) cells.

(** ** Writing a frame as CSV

    [to_csv] hands the header and the rows to Python's [csv.writer] with
    its defaults but for the line terminator, which is the newline of the
    platform: a field is put in quotes, its quotes doubled, when it holds
    the delimiter, the quote character or a character of the line
    terminator.  A carriage return is none of these: it is written as it
    is.  A missing cell is written as the empty field ([na_rep] is the
    empty string); a record of one empty field is written as a pair of
    quotes. *)
Definition needs_quotes (field : string) : bool :=
  Py.char_in ","%char field || Py.char_in Py.dquote field
  || Py.char_in Py.newline field.

Fixpoint double_quotes (field : string) : string :=
  match field with
  | EmptyString => EmptyString
  | String c rest =>
      if Ascii.eqb c Py.dquote
      then String c (String c (double_quotes rest))
      else String c (double_quotes rest)
  end.

Definition csv_field (field : string) : string :=
  if needs_quotes field
  then String Py.dquote (double_quotes field ++ String Py.dquote EmptyString)
  else field.

Definition csv_cell (c : Cell) : string :=
  match c with Some s => s | None => EmptyString end.

(** The record has one field, and that field is empty. *)
Definition lone_empty (fields : list string) : bool :=
  match fields with
  | [field] => negb (Py.truthy field)
  | _ => false
  end.

Definition csv_line (fields : list string) : string :=
  if lone_empty fields
  then String Py.dquote (String Py.dquote Py.NL)
  else Py.join "," (map csv_field fields) ++ Py.NL.

(** The records of [df.to_csv(index=False)]: the header, then the rows. *)
Definition csv_records (df : DataFrame) : list (list string) :=
  columns df :: map (map csv_cell) (rows df).

(** The text of [df.to_csv(index=False)]. *)
Definition csv_text (df : DataFrame) : string :=
  String.concat EmptyString (map csv_line (csv_records df)).

End pd.

(* ===================================================================== *)
(** * The services and the operating system *)
(* ===================================================================== *)

(** The parts of the Spotify Web API objects the script reads. *)
Record Artist : Type := mkArtist { artist_name : string }.

Record Track : Type := mkTrack {
  track_name : string;
  track_artists : list Artist
}.

(** A playlist entry; [item_track] is [None] for a removed track. *)
Record PlaylistItem : Type := mkItem { item_track : option Track }.

(** One page of playlist entries with the cursor to the next page. *)
Record Page : Type := mkPage {
  page_items : list PlaylistItem;
  page_next : option string
}.

Record Playlist : Type := mkPlaylist {
  playlist_name : string;
  playlist_total : nat
}.

Record Album : Type := mkAlbum {
  album_name : string;
  album_total_tracks : nat;
  album_items : list Track
}.

(** A hit of the YouTube search: [item['id']['videoId']] and
    [item['snippet']['title']]. *)
Record SearchItem : Type := mkHit { videoId : string; title : string }.

(** How a subprocess ends. *)
Inductive ProcResult : Type :=
  | Exit (status : nat)
  | UserInterrupt
  | SpawnError (msg : string).

(** What cuts the writing of a file short once the file is open: the user's
    interrupt, or a fault of the OS (a full disk, an I/O error).  Either
    way [reached] characters of the text have reached the disk; how many
    depends on the buffers between the script and the disk, so every
    number stands for a possible run. *)
Inductive WriteStop : Type :=
  | Interrupted (reached : nat)
  | WriteFault (reached : nat) (msg : string).

Definition reached_disk (stop : WriteStop) : nat :=
  match stop with
  | Interrupted reached => reached
  | WriteFault reached _ => reached
  end.

Definition stop_exception (stop : WriteStop) : PyExc :=
  match stop with
  | Interrupted _ => mkExc KeyboardInterrupt EmptyString
  | WriteFault _ msg => mkExc OSError msg
  end.

(** The answers of everything outside the script.  A service call either
    raises or returns; the download utility ends in some way and leaves some
    directories and files behind; the OS may refuse to create or open a
    path; the writing of a file may be cut short after some characters
    have reached the disk. *)
Record Env : Type := mkEnv {
  sp_album : string -> PyExc + Album;
  sp_playlist : string -> PyExc + Playlist;
  sp_playlist_tracks : string -> PyExc + Page;
  sp_get : string -> PyExc + Page;
  youtube_search : string -> PyExc + list SearchItem;
  sys_executable : string;
  run_process :
    list string -> World -> ProcResult * (list string * list (string * string));
  fs_fault : string -> option string;
  write_interrupt : string -> option WriteStop;
  repr_frame : pd.DataFrame -> string;
  format_percent : nat -> nat -> string
}.

(** The result of a service call as a step of the script. *)
Definition call {A : Type} (answer : PyExc + A) : M A :=
  match answer with
  | inl e => raise e
  | inr a => ret a
  end.

Module os.

(** [os.path.join(a, b)] on POSIX. *)
Definition path_join (a b : string) : string :=
  if Py.startswith "/" b then b
  else if negb (Py.truthy a) || Py.endswith "/" a then a ++ b
  else a ++ "/" ++ b.

(** The absolute path a process in [w] means by [p]; the sanitized names
    the script uses hold no slash, so no further normalisation is needed. *)
Definition resolve (w : World) (p : string) : string :=
  if String.eqb p "." then cwd w else path_join (cwd w) p.

Definition is_dir (w : World) (p : string) : bool :=
  existsb (String.eqb p) (dirs w).

Definition is_file (w : World) (p : string) : bool :=
  existsb (fun f => String.eqb p (fst f)) (files w).

Definition read_file (w : World) (p : string) : option string :=
  option_map snd (List.find (fun f => String.eqb p (fst f)) (files w)).

Definition write_file (p text : string) (w : World) : World :=
  mkWorld (cwd w) (dirs w)
    ((p, text) :: filter (fun f => negb (String.eqb p (fst f))) (files w))
    (stdout w) (spawned w).

(** [os.getcwd()]. *)
Definition getcwd : M string := fun w => (Return (cwd w), w).

(** [os.path.abspath(p)]. *)
Definition path_abspath (p : string) : M string :=
  fun w => (Return (resolve w p), w).

(** [os.chdir(p)]: fails unless [p] names a directory. *)
Definition chdir (p : string) : M unit :=
  fun w =>
    let target := resolve w p in
    if Py.truthy p && is_dir w target
    then (Return tt,
          mkWorld target (dirs w) (files w) (stdout w) (spawned w))
    else (Raise (mkExc OSError ("No such file or directory: " ++ p)), w).

(** [os.makedirs(name, exist_ok=True)] for a name of one path component. *)
Definition makedirs (env : Env) (name : string) : M unit :=
  fun w =>
    let target := resolve w name in
    if negb (Py.truthy name)
    then (Raise (mkExc OSError "No such file or directory: ''"), w)
    else if is_dir w target then (Return tt, w)
    else if is_file w target
    then (Raise (mkExc OSError ("File exists: " ++ name)), w)
    else match fs_fault env target with
         | Some msg => (Raise (mkExc OSError msg), w)
         | None =>
             (Return tt,
              mkWorld (cwd w) (target :: dirs w) (files w) (stdout w)
                (spawned w))
         end.

(** The name of [p] inside the directory [d], when [p] lies directly in it. *)
Definition child_of (d p : string) : option string :=
  let prefix := if Py.endswith "/" d then d else d ++ "/" in
  if Py.startswith prefix p
  then let name := Py.slice_from (String.length prefix) p in
       if Py.truthy name && negb (Py.contains "/" name)
       then Some name else None
  else None.

(** [os.listdir(p)]. *)
Definition listdir (p : string) : M (list string) :=
  fun w =>
    let d := resolve w p in
    if is_dir w d
    then (Return
            (flat_map
               (fun q => match child_of d q with
                         | Some name => [name]
                         | None => []
                         end)
               (map fst (files w) ++ dirs w)%list), w)
    else (Raise (mkExc OSError ("No such file or directory: " ++ p)), w).

(** The part of a path up to and with its last slash. *)
Fixpoint upto_last_slash (p : string) : string :=
  match p with
  | EmptyString => EmptyString
  | String c rest =>
      if Py.contains "/" p then String c (upto_last_slash rest)
      else EmptyString
  end.

(** [os.path.dirname(p)] on POSIX. *)
Definition path_dirname (p : string) : string :=
  let head := upto_last_slash p in
  match Py.rstrip "/" head with
  | EmptyString => head
  | stripped => stripped
  end.

End os.

(** [repr(argv)] as it appears in the message of [CalledProcessError]. *)
Definition repr_argv (argv : list string) : string :=
  "[" ++ Py.join ", " (map (fun a => "'" ++ a ++ "'") argv) ++ "]".

(** [subprocess.run(cmd, check=True)]: the child works in the caller's
    directory and cannot change it; a non-zero exit status raises
    [CalledProcessError], an interrupt of the user arrives as
    [KeyboardInterrupt]. *)
Definition subprocess_run (env : Env) (cmd : list string) : M unit :=
  fun w =>
    let '(result, (dirs', files')) := run_process env cmd w in
    let w' := mkWorld (cwd w) dirs' files' (stdout w) (spawned w ++ [cmd]) in
    match result with
    | Exit 0 => (Return tt, w')
    | Exit status =>
        (Raise (mkExc CalledProcessError
                  ("Command '" ++ repr_argv cmd
                   ++ "' returned non-zero exit status "
                   ++ Py.str_of_nat status ++ ".")), w')
    | UserInterrupt => (Raise (mkExc KeyboardInterrupt EmptyString), w')
    | SpawnError msg => (Raise (mkExc OSError msg), w)
    end.

(** [df.to_csv(path, index=False)]: pandas refuses a path whose directory
    is missing, then opens [path] for writing, which creates or empties the
    file, and writes the text into it.  When the OS refuses to open the
    file nothing has changed.  Once the file is open, the user's interrupt
    or a fault of the OS ends the call with the exception and leaves in
    the file what had reached the disk, possibly nothing. *)
Definition to_csv (env : Env) (df : pd.DataFrame) (path : string) : M unit :=
  fun w =>
    let target := os.resolve w path in
    if negb (os.is_dir w (os.path_dirname target))
    then (Raise (mkExc OSError ("Cannot save file into a non-existent directory: "
                                ++ os.path_dirname path)), w)
    else match fs_fault env target with
         | Some msg => (Raise (mkExc OSError msg), w)
         | None =>
             match write_interrupt env target with
             | Some stop =>
                 (Raise (stop_exception stop),
                  os.write_file target
                    (Py.slice_to (reached_disk stop) (pd.csv_text df)) w)
             | None => (Return tt, os.write_file target (pd.csv_text df) w)
             end
         end.

(* ===================================================================== *)
(** * The script *)
(* ===================================================================== *)

Definition invalid_chars : string :=
  "<>:" ++ String Py.dquote ("/" ++ String Py.backslash "|?*").

(** [for char in chars: filename = filename.replace(char, '_')]. *)
Fixpoint replace_each (chars : string) (filename : string) : string :=
  match chars with
  | EmptyString => filename
  | String char rest => replace_each rest (Py.replace char "_" filename)
  end.

Definition sanitize_filename (filename : string) : string :=
  let filename := replace_each invalid_chars filename in
  let filename := Py.strip " ." filename in
  if Nat.ltb 100 (String.length filename)
  then Py.slice_to 100 filename
  else filename.

Section Script.

Context (env : Env).

(** The [track_info] dict of one track. *)
Definition track_info (track : Track) : pd.Dict :=
  [("Track Name", track_name track);
   ("Artist Name(s)", Py.join ", " (map artist_name (track_artists track)))].

(** [except Exception as e: print(f"Error: {e}"); return None, None]. *)
Definition report_error (e : PyExc)
    : option (M (option pd.DataFrame * option string)) :=
  if is_Exception e
  then Some (print ("Error: " ++ exc_str e) ;; ret (None, None))
  else None.

(** [while results['next']: results = sp.next(results);
    tracks.extend(results['items'])]; [sp.next] fetches the page behind the
    cursor. *)
Fixpoint while_next (fuel : nat) (results : Page) (tracks : list PlaylistItem)
    : M (list PlaylistItem) :=
  match page_next results with
  | Some cursor =>
      if Py.truthy cursor then
        match fuel with
        | O => diverge
        | S fuel' =>
            results' <- call (sp_get env cursor) ;;
            while_next fuel' results' (tracks ++ page_items results')%list
        end
      else ret tracks
  | None => ret tracks
  end.

(** The rows of the playlist: the entries with a track, in order. *)
Definition playlist_track_data (tracks : list PlaylistItem) : list pd.Dict :=
  flat_map
    (fun entry => match item_track entry with
                  | Some track => [track_info track]
                  | None => []
                  end)
    tracks.

(** [url.split(marker)[1].split('?')[0]]. *)
Definition url_id (marker url : string) : M string :=
  after <- list_index (Py.split marker url) 1 ;;
  list_index (Py.split "?" after) 0.

(** The album branch, from the id on. *)
Definition export_album (album_id : string)
    : M (option pd.DataFrame * option string) :=
  try_except
    (album <- call (sp_album env album_id) ;;
     let name := album_name album in
     print ("Album: " ++ name) ;;
     print ("Total tracks: " ++ Py.str_of_nat (album_total_tracks album)) ;;
     let track_data := map track_info (album_items album) in
     ret (Some (pd.from_records track_data), Some name))
    report_error.

(** The playlist branch, from the id on. *)
Definition export_playlist (fuel : nat) (playlist_id : string)
    : M (option pd.DataFrame * option string) :=
  try_except
    (playlist <- call (sp_playlist env playlist_id) ;;
     let name := playlist_name playlist in
     print ("Playlist: " ++ name) ;;
     print ("Total tracks: " ++ Py.str_of_nat (playlist_total playlist)) ;;
     results <- call (sp_playlist_tracks env playlist_id) ;;
     tracks <- while_next fuel results (page_items results) ;;
     ret (Some (pd.from_records (playlist_track_data tracks)), Some name))
    report_error.

Definition export_spotify_playlist (fuel : nat) (playlist_url : string)
    : M (option pd.DataFrame * option string) :=
  if Py.contains "album/" playlist_url then
    album_id <- url_id "album/" playlist_url ;;
    export_album album_id
  else if Py.contains "playlist/" playlist_url then
    playlist_id <- url_id "playlist/" playlist_url ;;
    export_playlist fuel playlist_id
  else
    print "Invalid URL format. Please provide a Spotify playlist or album URL." ;;
    ret (None, None).

(** The search query for a song. *)
Definition search_query (song_name : string) (artist : option string) : string :=
  let query := song_name ++ " lyrics" in
  match artist with
  | Some a => if Py.truthy a then query ++ " " ++ a else query
  | None => query
  end.

Definition get_youtube_link (song_name : string) (artist : option string)
    : M (option string * option string) :=
  let query := search_query song_name artist in
  found <-
    try_except
      (items <- call (youtube_search env query) ;;
       match items with
       | hit :: _ =>
           let video_id := videoId hit in
           let video_title := title hit in
           let youtube_url := "https://www.youtube.com/watch?v=" ++ video_id in
           ret (Some (Some youtube_url, Some video_title))
       | [] => ret None
       end)
      (fun e =>
         if is_Exception e
         then Some (print ("Error searching for '" ++ query ++ "': " ++ exc_str e) ;;
                    ret None)
         else None) ;;
  match found with
  | Some result => ret result
  | None => ret (None, None)
  end.

Definition create_playlist_folder (playlist_name : string) : M (option string) :=
  let folder_name := sanitize_filename playlist_name in
  try_except
    (os.makedirs env folder_name ;;
     print ("Created folder: " ++ folder_name) ;;
     ret (Some folder_name))
    (fun e =>
       if is_Exception e
       then Some (print ("Failed to create folder: " ++ exc_str e) ;; ret None)
       else None).

Definition download_songs (links : list string) (playlist_folder : string)
    : M bool :=
  if match links with [] => true | _ => false end
     || negb (Py.truthy playlist_folder)
  then
    print "No YouTube links or playlist folder specified" ;;
    ret false
  else
    print (Py.NL ++ "Starting download of "
           ++ Py.str_of_nat (List.length links) ++ " songs...") ;;
    print ("Downloading to folder: " ++ playlist_folder) ;;
    print "This may take a while depending on the number of songs..." ;;
    original_dir <- os.getcwd ;;
    os.chdir playlist_folder ;;
    try_finally
      (try_except
         (let cmd :=
            ([sys_executable env; "-m"; "yt_dlp"; "-f"; "bestaudio[ext=m4a]";
              "--output"; "%(title)s.%(ext)s"] ++ links)%list in
          print (Py.NL ++ "Executing command: " ++ Py.join " " (firstn 7 cmd)
                 ++ "... [and " ++ Py.str_of_nat (List.length links)
                 ++ " URLs]") ;;
          print (str_repeat "=" 60) ;;
          subprocess_run env cmd ;;
          print (str_repeat "=" 60) ;;
          print "Download completed successfully!" ;;
          here <- os.path_abspath "." ;;
          print ("Songs downloaded to: " ++ here) ;;
          names <- os.listdir "." ;;
          let downloaded_files := filter (Py.endswith ".m4a") names in
          match downloaded_files with
          | [] => ret tt
          | _ =>
              print (Py.NL ++ "Downloaded "
                     ++ Py.str_of_nat (List.length downloaded_files)
                     ++ " songs:") ;;
              for_each downloaded_files (fun file => print ("  - " ++ file))
          end ;;
          ret true)
         (fun e =>
            match exc_class e with
            | CalledProcessError =>
                Some (print ("Download failed with error: " ++ exc_str e) ;;
                      ret false)
            | KeyboardInterrupt =>
                Some (print (Py.NL ++ "Download interrupted by user") ;;
                      ret false)
            | _ => None
            end))
      (os.chdir original_dir).

(** [f"{value}"] for a cell read from a row. *)
Definition fstring_cell (c : pd.Cell) : string :=
  match c with Some s => s | None => "None" end.

(** [lambda row: pd.Series(get_youtube_link(row['Track Name'],
    row['Artist Name(s)']))]. *)
Definition search_row (df : pd.DataFrame) (row : list pd.Cell)
    : M (pd.Cell * pd.Cell) :=
  song <- pd.row_get df row "Track Name" ;;
  artist <- pd.row_get df row "Artist Name(s)" ;;
  get_youtube_link (fstring_cell song) artist.

(** [df[['YouTube Link', 'YouTube Video Title']] = df.progress_apply(...)]. *)
Definition add_youtube_columns (df : pd.DataFrame) : M pd.DataFrame :=
  found <- pd.progress_apply df (search_row df) ;;
  pd.setitem2 df "YouTube Link" "YouTube Video Title" found.

(** [if not playlist_folder]: neither [None] nor the empty string passes. *)
Definition truthy_folder (playlist_folder : option string) : option string :=
  match playlist_folder with
  | Some name => if Py.truthy name then Some name else None
  | None => None
  end.

Definition csv_name : string := "spotify_playlist_with_youtube.csv".

(** The command shown to the user before the download starts. *)
Definition download_command (links : list string) : string :=
  let q := String Py.dquote EmptyString in
  let continued := " " ++ String Py.backslash Py.NL in
  "yt-dlp -f " ++ q ++ "bestaudio[ext=m4a]" ++ q ++ " --output " ++ q
  ++ "%(title)s.%(ext)s" ++ q ++ continued
  ++ Py.join continued (map (fun link => q ++ link ++ q) links).

Definition no_links_message : string :=
  Py.NL ++ "No YouTube links found. Please check your API key and try again.".

(** Saving the table: [df.to_csv(final_output, index=False)] and the line
    that reports it. *)
Definition save_results (df : pd.DataFrame) (playlist_folder : string)
    : M unit :=
  let final_output := os.path_join playlist_folder csv_name in
  to_csv env df final_output ;;
  print (Py.NL ++ "Saved results to " ++ final_output).

(** The end of [process_playlist]: the success rate, then the download of
    the links found, or the message that there are none. *)
Definition download_stage (df : pd.DataFrame) (playlist_folder : string)
    : M bool :=
  link_cells <- pd.column df "YouTube Link" ;;
  print ("Success rate: "
         ++ format_percent env (List.length (filter pd.notna link_cells))
              (List.length link_cells)) ;;
  let links := pd.present link_cells in
  match links with
  | _ :: _ =>
      print (Py.NL ++ "Download command is ready:") ;;
      print (Py.NL ++ str_repeat "=" 50) ;;
      print (download_command links) ;;
      print (str_repeat "=" 50) ;;
      print (Py.NL ++ "Total songs to download: "
             ++ Py.str_of_nat (List.length links)) ;;
      print ("Songs will be downloaded to: " ++ playlist_folder ++ "/") ;;
      print (Py.NL ++ "Starting automatic download...") ;;
      download_songs links playlist_folder
  | [] =>
      print no_links_message ;;
      ret false
  end.

Definition process_playlist (fuel : nat) (playlist_url : string) : M bool :=
  print (Py.NL ++ "Exporting Spotify playlist...") ;;
  exported <- export_spotify_playlist fuel playlist_url ;;
  match exported with
  | (Some df, Some playlist_name) =>
      playlist_folder <- create_playlist_folder playlist_name ;;
      match truthy_folder playlist_folder with
      | Some playlist_folder =>
          print ("Successfully exported " ++ Py.str_of_nat (pd.len df)
                 ++ " tracks!") ;;
          print (Py.NL ++ "First few tracks:") ;;
          print (repr_frame env (pd.head df)) ;;
          print (Py.NL ++ "Starting YouTube search...") ;;
          df <- add_youtube_columns df ;;
          print (Py.NL ++ "Completed searches!") ;;
          shown <- pd.select df ["Track Name"; "Artist Name(s)";
                                 "YouTube Link"; "YouTube Video Title"] ;;
          print (repr_frame env (pd.head shown)) ;;
          save_results df playlist_folder ;;
          download_stage df playlist_folder
      | None =>
          print "Failed to create playlist folder" ;;
          ret false
      end
  | _ =>
      print "Failed to export playlist. Please check your URL and try again." ;;
      ret false
  end.

End Script.

(* ===================================================================== *)
(** * Vocabulary of the properties *)
(* ===================================================================== *)

(** [s] begins with a character of [chars]. *)
Definition leading (chars s : string) : bool :=
  match s with
  | EmptyString => false
  | String c _ => Py.char_in c chars
  end.

(** [s] ends with a character of [chars]. *)
Fixpoint trailing (chars s : string) : bool :=
  match s with
  | EmptyString => false
  | String c EmptyString => Py.char_in c chars
  | String _ rest => trailing chars rest
  end.

(** The text of [s] behind the leftmost [sep]. *)
Definition after (sep s : string) : string :=
  match Py.find sep s with
  | Some i => Py.slice_from (i + String.length sep) s
  | None => EmptyString
  end.

(** The text of [s] before the leftmost [sep], all of [s] without one. *)
Definition upto (sep s : string) : string :=
  match Py.find sep s with
  | Some i => Py.slice_to i s
  | None => s
  end.

(** A name of 101 characters: 99 letters, a space and one more letter. *)
Definition long_name : string := str_repeat "a" 99 ++ " b".

(** The id the script cuts out of a URL that holds [marker]. *)
Definition cut_id (marker url : string) : string :=
  upto "?" (upto marker (after marker url)).

(** The album id as the specification words it: the text after the first
    [album/] up to the first question mark. *)
Definition spec_album_id (url : string) : string :=
  upto "?" (after "album/" url).

(** A URL with both markers and a second [album/] before the query. *)
Definition two_markers_url : string :=
  "https://open.spotify.com/album/abc/album/def?from=playlist/xyz".

(** [m] ends, with a value or an exception, from every world. *)
Definition ends {A : Type} (m : M A) : Prop :=
  forall w : World, fst (m w) <> Diverge.

(** The world after printing [lines]. *)
Definition printed (lines : list string) (w : World) : World :=
  mkWorld (cwd w) (dirs w) (files w) (stdout w ++ lines)%list (spawned w).

(** The cursor a page offers, if it is one the loop follows. *)
Definition cursor (p : Page) : option string :=
  match page_next p with
  | Some c => if Py.truthy c then Some c else None
  | None => None
  end.

(** [pages_from env p rest]: following the cursors from page [p], the
    service hands out the pages [rest] and then has no more. *)
Inductive pages_from (env : Env) : Page -> list Page -> Prop :=
  | pages_last (p : Page) :
      cursor p = None -> pages_from env p []
  | pages_more (p : Page) (c : string) (p' : Page) (rest : list Page) :
      cursor p = Some c -> sp_get env c = inr p' ->
      pages_from env p' rest -> pages_from env p (p' :: rest).

(** The tracks of the entries that have one, in order. *)
Definition present_tracks (entries : list PlaylistItem) : list Track :=
  flat_map
    (fun entry => match item_track entry with
                  | Some track => [track]
                  | None => []
                  end)
    entries.

Definition has_track (entry : PlaylistItem) : bool :=
  match item_track entry with Some _ => true | None => false end.

(** The columns of the exported frame. *)
Definition export_columns : list string := ["Track Name"; "Artist Name(s)"].

(** The row of a track in the exported frame. *)
Definition track_row (track : Track) : list pd.Cell :=
  [Some (track_name track);
   Some (Py.join ", " (map artist_name (track_artists track)))].

(** ** A small world to run the script in *)

Definition demo_search (query : string) : PyExc + list SearchItem :=
  if Py.contains "Song A" query
  then inr [mkHit "idA" "Song A (Lyrics)"; mkHit "idA2" "Song A live"]
  else if Py.contains "Song C" query
  then inl (mkExc OtherException "quotaExceeded")
  else inr [].

Definition demo_first_page : Page :=
  mkPage [mkItem (Some (mkTrack "Song A" [mkArtist "X"; mkArtist "Y"]));
          mkItem None]
         (Some "page2").

Definition demo_second_page : Page :=
  mkPage [mkItem (Some (mkTrack "Song, B" [mkArtist "Z"]));
          mkItem (Some (mkTrack "Song C" []))]
         None.

(** The download utility succeeding with one file. *)
Definition demo_download (cmd : list string) (w : World)
    : ProcResult * (list string * list (string * string)) :=
  (Exit 0, (dirs w, (os.path_join (cwd w) "Song A.m4a", "audio") :: files w)).

(** The download utility ending as [result] after writing half a file. *)
Definition broken_download (result : ProcResult) (cmd : list string) (w : World)
    : ProcResult * (list string * list (string * string)) :=
  (result, (dirs w, (os.path_join (cwd w) "Song A.m4a.part", "au") :: files w)).

Definition make_env
    (search : string -> PyExc + list SearchItem)
    (download :
       list string -> World ->
       ProcResult * (list string * list (string * string)))
    (interrupt : string -> option WriteStop) : Env :=
  mkEnv (fun _ => inr (mkAlbum "Record" 1 [mkTrack "Song A" [mkArtist "X"]]))
        (fun id => inr (mkPlaylist ("My: Mix " ++ id) 3))
        (fun _ => inr demo_first_page)
        (fun c => if String.eqb c "page2" then inr demo_second_page
                  else inl (mkExc OtherException "bad cursor"))
        search
        "/usr/bin/python3"
        download
        (fun _ => None)
        interrupt
        (fun _ => "<frame>")
        (fun hits total => Py.str_of_nat hits ++ "/" ++ Py.str_of_nat total).

Definition demo_env : Env :=
  make_env demo_search demo_download (fun _ => None).

(** The same services with a search that never finds anything. *)
Definition silent_env : Env :=
  make_env (fun _ => inr []) demo_download (fun _ => None).

(** The same services with a download that ends as [result]. *)
Definition failing_env (result : ProcResult) : Env :=
  make_env demo_search (broken_download result) (fun _ => None).

Definition demo_world : World := mkWorld "/home/u" ["/home/u"] [] [] [].

Definition demo_playlist_url : string :=
  "https://open.spotify.com/playlist/abc?si=1".

(** A world with the playlist's folder in place. *)
Definition demo_world_with_folder : World :=
  mkWorld "/home/u" ["/home/u/Mix"; "/home/u"] [] [] [].

(** ** The table of results *)

(** The columns of the frame with the search results. *)
Definition result_columns : list string :=
  ["Track Name"; "Artist Name(s)"; "YouTube Link"; "YouTube Video Title"].

(** The artists of a track as one cell. *)
Definition artists_cell (track : Track) : string :=
  Py.join ", " (map artist_name (track_artists track)).

(** The search the script makes for a track of the exported frame. *)
Definition resolve_track (env : Env) (track : Track)
    : M (pd.Cell * pd.Cell) :=
  get_youtube_link env (track_name track) (Some (artists_cell track)).

(** The row of a track and its match in the frame. *)
Definition result_row (track : Track) (found : pd.Cell * pd.Cell)
    : list pd.Cell :=
  [Some (track_name track); Some (artists_cell track); fst found; snd found].

(** The fields of that row in the CSV file: an absent link or title is the
    empty field. *)
Definition csv_row (track : Track) (found : pd.Cell * pd.Cell) : list string :=
  [track_name track;
   artists_cell track;
   match fst found with Some url => url | None => EmptyString end;
   match snd found with Some video_title => video_title | None => EmptyString end].

(** The tracks of the demo playlist. *)
Definition demo_tracks : list Track :=
  [mkTrack "Song A" [mkArtist "X"; mkArtist "Y"];
   mkTrack "Song, B" [mkArtist "Z"];
   mkTrack "Song C" []].

(** The user interrupting the writing of the table when the header line
    is on disk and no row is. *)
Definition interrupted_env : Env :=
  make_env demo_search demo_download
    (fun _ => Some (Interrupted
                      (String.length (pd.csv_line result_columns)))).

(** The frame of the demo tracks with the results of the demo search. *)
Definition demo_results : pd.DataFrame :=
  pd.mkFrame result_columns
    [[Some "Song A"; Some "X, Y"; Some "https://www.youtube.com/watch?v=idA";
      Some "Song A (Lyrics)"];
     [Some "Song, B"; Some "Z"; None; None];
     [Some "Song C"; Some EmptyString; None; None]].

(** [m] leaves the process where it is and starts no subprocess. *)
Definition stays {A : Type} (m : M A) : Prop :=
  forall w : World,
    cwd (snd (m w)) = cwd w /\ spawned (snd (m w)) = spawned w.

(** The video search has no hit for any query: it answers with no item or
    raises an [Exception]. *)
Definition finds_nothing (env : Env) : Prop :=
  forall query : string,
    youtube_search env query = inr []
    \/ exists e : PyExc,
         youtube_search env query = inl e /\ is_Exception e = true.

(** The demo services with a playlist whose only entry has lost its track. *)
Definition empty_env : Env :=
  mkEnv (sp_album demo_env) (sp_playlist demo_env)
        (fun _ => inr (mkPage [mkItem None] None))
        (sp_get demo_env) (youtube_search demo_env) (sys_executable demo_env)
        (run_process demo_env) (fs_fault demo_env) (write_interrupt demo_env)
        (repr_frame demo_env) (format_percent demo_env).

(** From [w], [m] stays in place, starts no subprocess and does not report
    success. *)
Definition quiet_at (m : M bool) (w : World) : Prop :=
  cwd (snd (m w)) = cwd w
  /\ spawned (snd (m w)) = spawned w
  /\ fst (m w) <> Return true.

(** ** Reading a CSV text back

    The re-read of the specification's round trip is Python's
    [csv.reader] with its defaults, on the file opened with [newline='']
    as the module's documentation asks.  The reader takes the file line by
    line (a line ends behind a newline, behind a carriage return that no
    newline follows, behind the pair of them, or with the file), feeds the
    characters of the line and then the end of the line to a state
    machine, and hands out a record whenever the machine is back at the
    start of a record.  Outside quotes a carriage return ends the record as
    a newline does. *)

Module csv.

Inductive State : Type :=
  | StartRecord
  | StartField
  | InField
  | InQuotedField
  | QuoteInQuotedField
  | EatCRNL.

(** The state, the characters of the field being read and the fields of
    the record read so far, the last one first. *)
Record Reader : Type := mkReader {
  state : State;
  field : string;
  fields : list string
}.

Definition fresh : Reader := mkReader StartRecord EmptyString [].

Definition save_field (r : Reader) (next : State) : Reader :=
  mkReader next EmptyString (field r :: fields r).

Definition add_char (c : ascii) (r : Reader) (next : State) : Reader :=
  mkReader next (field r ++ String c EmptyString) (fields r).

Definition enter (r : Reader) (next : State) : Reader :=
  mkReader next (field r) (fields r).

Definition line_break (c : ascii) : bool :=
  Ascii.eqb c Py.newline || Ascii.eqb c Py.carriage_return.

(** A character at the start of a field. *)
Definition feed_start_field (c : ascii) (r : Reader) : Reader :=
  if line_break c then save_field r EatCRNL
  else if Ascii.eqb c Py.dquote then enter r InQuotedField
  else if Ascii.eqb c "," then save_field r StartField
  else add_char c r InField.

(** One character of a line; [None] is the reader's [Error]. *)
Definition feed (c : ascii) (r : Reader) : option Reader :=
  match state r with
  | StartRecord =>
      if line_break c then Some (enter r EatCRNL)
      else Some (feed_start_field c r)
  | StartField => Some (feed_start_field c r)
  | InField =>
      if line_break c then Some (save_field r EatCRNL)
      else if Ascii.eqb c "," then Some (save_field r StartField)
      else Some (add_char c r InField)
  | InQuotedField =>
      if Ascii.eqb c Py.dquote then Some (enter r QuoteInQuotedField)
      else Some (add_char c r InQuotedField)
  | QuoteInQuotedField =>
      if Ascii.eqb c Py.dquote then Some (add_char c r InQuotedField)
      else if Ascii.eqb c "," then Some (save_field r StartField)
      else if line_break c then Some (save_field r EatCRNL)
      else Some (add_char c r InField)
  | EatCRNL => if line_break c then Some r else None
  end.

(** The end of a line. *)
Definition end_of_line (r : Reader) : Reader :=
  match state r with
  | StartRecord => r
  | StartField | InField | QuoteInQuotedField => save_field r StartRecord
  | InQuotedField => r
  | EatCRNL => enter r StartRecord
  end.

(** The line ends behind [c], the text going on with [rest]. *)
Definition ends_line (c : ascii) (rest : string) : bool :=
  if Ascii.eqb c Py.newline then true
  else if Ascii.eqb c Py.carriage_return
       then negb (Py.startswith Py.NL rest)
       else match rest with EmptyString => true | _ => false end.

Definition in_quotes (r : Reader) : bool :=
  match state r with
  | InQuotedField => true
  | _ => false
  end.

(** The records of [text] for a reader in [r]: at the end of the file a
    field that has characters, or whose quotes are still open, closes the
    last record. *)
Fixpoint read_from (text : string) (r : Reader)
    : option (list (list string)) :=
  match text with
  | EmptyString =>
      if Py.truthy (field r) || in_quotes r
      then Some [rev (field r :: fields r)]
      else Some []
  | String c rest =>
      match feed c r with
      | None => None
      | Some r1 =>
          if ends_line c rest
          then
            let r2 := end_of_line r1 in
            match state r2 with
            | StartRecord =>
                option_map (cons (rev (fields r2))) (read_from rest fresh)
            | _ => read_from rest r2
            end
          else read_from rest r1
      end
  end.

(** [list(csv.reader(open(path, newline='')))] on a file that holds
    [text]. *)
Definition read (text : string) : option (list (list string)) :=
  read_from text fresh.

End csv.

(** A cell that survives the round trip: it holds no carriage return, or
    it is written in quotes anyway. *)
Definition survives (cell : string) : bool :=
  negb (Py.char_in Py.carriage_return cell) || pd.needs_quotes cell.

(* ===================================================================== *)
(** * The start of the program: packages, environment, prompt *)
(* ===================================================================== *)

(** How [importlib.import_module] ends: the module is there, it is missing
    ([ImportError]), or importing it raises something else. *)
Inductive ImportResult : Type :=
  | Imported
  | ImportMissing
  | ImportRaises (e : PyExc).

(** How [subprocess.run(..., capture_output=True)] ends: the program ran to
    an exit status with some standard output, there is no such program
    ([FileNotFoundError]), or the call raises something else. *)
Inductive Captured : Type :=
  | Finished (status : nat) (out : string)
  | NotFound
  | CallRaises (e : PyExc).

(** What the machine answers beyond the services of [Env]: its environment
    variables, the modules it can import, the programs whose output is
    captured (with the directories and files they leave) and the line the
    user types. *)
Record Host : Type := mkHost {
  getenv : string -> option string;
  import_module : string -> ImportResult;
  run_captured :
    list string -> World -> Captured * (list string * list (string * string));
  input_line : PyExc + string
}.

(** The characters [str.strip()] takes off: those for which [isspace()]
    holds among the first 256. *)
Definition whitespace : string :=
  String "009" (String "010" (String "011" (String "012" (String "013"
    (String "028" (String "029" (String "030" (String "031" (String "032"
      (String "133" (String "160" EmptyString))))))))))).

(** [input(prompt)]: the prompt goes to the standard output, then the line
    is read. *)
Definition input (host : Host) (prompt : string) : M string :=
  print prompt ;; call (input_line host).

Section Setup.

Context (env : Env) (host : Host).

(** [[sys.executable, "-m", "pip", "install", package]]. *)
Definition pip_install (package : string) : list string :=
  [sys_executable env; "-m"; "pip"; "install"; package].

Definition install_package (package : string) : M bool :=
  try_except
    (print ("Installing " ++ package ++ "...") ;;
     subprocess_run env (pip_install package) ;;
     print ("Successfully installed " ++ package) ;;
     ret true)
    (fun e =>
       match exc_class e with
       | CalledProcessError =>
           Some (print ("Failed to install " ++ package) ;; ret false)
       | _ => None
       end).

(** The [required_packages] dict: import name, then package name. *)
Definition required_packages : list (string * string) :=
  [("spotipy", "spotipy");
   ("pandas", "pandas");
   ("googleapiclient", "google-api-python-client");
   ("tqdm", "tqdm");
   ("dotenv", "python-dotenv")].

(** The first loop of [check_and_install_packages]: the names of the
    packages whose module cannot be imported, in the order of the dict. *)
Fixpoint find_missing (packages : list (string * string)) : M (list string) :=
  match packages with
  | [] => ret []
  | (import_name, package_name) :: rest =>
      is_missing <-
        match import_module host import_name with
        | Imported => print (package_name ++ " is already installed") ;; ret false
        | ImportMissing => print (package_name ++ " is missing") ;; ret true
        | ImportRaises e => raise e
        end ;;
      others <- find_missing rest ;;
      ret (if is_missing then package_name :: others else others)
  end.

(** The second loop: install each package, count the successes. *)
Fixpoint install_each (packages : list string) (success_count : nat) : M nat :=
  match packages with
  | [] => ret success_count
  | package :: rest =>
      installed <- install_package package ;;
      install_each rest (if installed then S success_count else success_count)
  end.

Definition check_and_install_packages : M bool :=
  print "Checking and installing required packages..." ;;
  print (str_repeat "=" 50) ;;
  missing_packages <- find_missing required_packages ;;
  match missing_packages with
  | _ :: _ =>
      print (Py.NL ++ "Installing "
             ++ Py.str_of_nat (List.length missing_packages)
             ++ " missing packages...") ;;
      success_count <- install_each missing_packages 0 ;;
      print (Py.NL ++ "Package installation summary:") ;;
      print ("  Successfully installed: " ++ Py.str_of_nat success_count) ;;
      print ("  Failed to install: "
             ++ Py.str_of_nat (List.length missing_packages - success_count)) ;;
      if Nat.ltb success_count (List.length missing_packages) then
        print (Py.NL ++ "Some packages failed to install. Please install them manually:") ;;
        for_each missing_packages (fun package => print ("  pip install " ++ package)) ;;
        ret false
      else
        print "All required packages are now installed!" ;;
        ret true
  | [] =>
      print "All required packages are already installed!" ;;
      ret true
  end.

(** [subprocess.run(cmd, capture_output=True, text=True, check=True)]
    as far as [check_yt_dlp] tells its endings apart: the captured output
    of a run that exits with 0, or [None] for the two endings its [except]
    clause names, a non-zero exit ([CalledProcessError]) and a missing
    program ([FileNotFoundError]); anything else propagates. *)
Definition run_probe (cmd : list string) : M (option string) :=
  fun w =>
    let '(result, (dirs', files')) := run_captured host cmd w in
    let w' := mkWorld (cwd w) dirs' files' (stdout w) (spawned w ++ [cmd]) in
    match result with
    | Finished 0 out => (Return (Some out), w')
    | Finished _ _ => (Return None, w')
    | NotFound => (Return None, w)
    | CallRaises e => (Raise e, w)
    end.

Definition check_yt_dlp : M bool :=
  version <- run_probe ["yt-dlp"; "--version"] ;;
  match version with
  | Some out =>
      print ("yt-dlp is installed (version: " ++ Py.strip whitespace out ++ ")") ;;
      ret true
  | None =>
      print "yt-dlp is not installed" ;;
      print "Installing yt-dlp..." ;;
      try_except
        (subprocess_run env (pip_install "yt-dlp") ;;
         print "yt-dlp installed successfully!" ;;
         ret true)
        (fun e =>
           match exc_class e with
           | CalledProcessError =>
               Some (print "Failed to install yt-dlp" ;;
                     print "Please install manually: pip install yt-dlp" ;;
                     ret false)
           | _ => None
           end)
  end.

Definition required_vars : list string :=
  ["SPOTIFY_CLIENT_ID"; "SPOTIFY_CLIENT_SECRET"; "YOUTUBE_API_KEY"].

(** [not os.getenv(var)]: the variable is unset or empty. *)
Definition unset (var : string) : bool :=
  match getenv host var with
  | Some value => negb (Py.truthy value)
  | None => true
  end.

Definition check_environment : M bool :=
  let missing_vars := filter unset required_vars in
  match missing_vars with
  | _ :: _ =>
      print "Missing required environment variables:" ;;
      for_each missing_vars (fun var => print ("  - " ++ var)) ;;
      print (Py.NL ++ "Please create a .env file with your API keys:") ;;
      print "1. Copy env_template.txt to .env" ;;
      print "2. Fill in your actual API keys" ;;
      print "3. Never commit .env to version control" ;;
      ret false
  | [] => ret true
  end.

Definition main (fuel : nat) : M unit :=
  print "Spotify Playlist to YouTube Downloader" ;;
  print (str_repeat "=" 50) ;;
  packages_ok <- check_and_install_packages ;;
  if negb packages_ok then
    print "Failed to install required packages. Please try again."
  else
    environment_ok <- check_environment ;;
    if negb environment_ok then ret tt
    else
      yt_dlp_ok <- check_yt_dlp ;;
      if negb yt_dlp_ok then ret tt
      else
        typed <- input host "Paste your Spotify playlist URL: " ;;
        let playlist_url := Py.strip whitespace typed in
        if negb (Py.truthy playlist_url) then print "No URL provided!"
        else
          success <- process_playlist env fuel playlist_url ;;
          if success
          then print (Py.NL ++ "Process completed successfully!")
          else print (Py.NL ++ "Process failed. Please check the error messages above.").

End Setup.

(** [install_requirements.py]. *)
Module install_requirements.

Section Installer.

Context (env : Env).

Definition install_package (package : string) : M bool :=
  try_except
    (subprocess_run env (pip_install env package) ;;
     print ("Successfully installed " ++ package) ;;
     ret true)
    (fun e =>
       match exc_class e with
       | CalledProcessError =>
           Some (print ("Failed to install " ++ package) ;; ret false)
       | _ => None
       end).

Definition packages : list string :=
  ["spotipy"; "pandas"; "google-api-python-client"; "tqdm"; "python-dotenv";
   "yt-dlp"].

(** [for package in packages: if install_package(package):
    success_count += 1]. *)
Fixpoint install_each (todo : list string) (success_count : nat) : M nat :=
  match todo with
  | [] => ret success_count
  | package :: rest =>
      installed <- install_package package ;;
      install_each rest (if installed then S success_count else success_count)
  end.

Definition main : M unit :=
  print "Installing required packages for Spotify to YouTube Downloader" ;;
  print (str_repeat "=" 60) ;;
  success_count <- install_each packages 0 ;;
  print (Py.NL ++ str_repeat "=" 60) ;;
  if Nat.eqb success_count (List.length packages) then
    print "All packages installed successfully!" ;;
    print (Py.NL ++ "Next steps:") ;;
    print "1. Copy env_template.txt to .env" ;;
    print "2. Fill in your API keys in .env file" ;;
    print "3. Run: python spotify_to_youtube.py" ;;
    print "4. The script will automatically download songs after processing!"
  else
    print (Py.str_of_nat (List.length packages - success_count)
           ++ " packages failed to install") ;;
    print "Please try installing them manually:" ;;
    for_each packages (fun package => print ("   pip install " ++ package)).

End Installer.

End install_requirements.

(* ===================================================================== *)
(** * Further vocabulary *)
(* ===================================================================== *)

(** Every character of [s] is one of [chars]. *)
Fixpoint all_in (chars s : string) : bool :=
  match s with
  | EmptyString => true
  | String c rest => Py.char_in c chars && all_in chars rest
  end.

(** [s] with [f] applied to each character. *)
Fixpoint map_chars (f : ascii -> ascii) (s : string) : string :=
  match s with
  | EmptyString => EmptyString
  | String c rest => String (f c) (map_chars f rest)
  end.

(** What the replacements of [sanitize_filename] make of one character. *)
Definition underscore_invalid (c : ascii) : ascii :=
  if Py.char_in c invalid_chars then "_"%char else c.

(** The demo services with an album that has dots for a name. *)
Definition unnamed_env : Env :=
  mkEnv (fun _ => inr (mkAlbum "..." 1 [mkTrack "Song A" [mkArtist "X"]]))
        (sp_playlist demo_env) (sp_playlist_tracks demo_env)
        (sp_get demo_env) (youtube_search demo_env) (sys_executable demo_env)
        (run_process demo_env) (fs_fault demo_env) (write_interrupt demo_env)
        (repr_frame demo_env) (format_percent demo_env).

Definition demo_album_url : string :=
  "https://open.spotify.com/album/xyz?si=2".

(** [m] changes nothing but the standard output. *)
Definition only_prints {A : Type} (m : M A) : Prop :=
  forall w : World, exists lines : list string, snd (m w) = printed lines w.

(** [pages_break env e p n]: following the cursors from page [p], the
    service hands out [n] further pages and raises [e] at the next one. *)
Inductive pages_break (env : Env) (e : PyExc) : Page -> nat -> Prop :=
  | break_next (p : Page) (c : string) :
      cursor p = Some c -> sp_get env c = inl e -> pages_break env e p 0
  | break_later (p : Page) (c : string) (p' : Page) (n : nat) :
      cursor p = Some c -> sp_get env c = inr p' ->
      pages_break env e p' n -> pages_break env e p (S n).

(** The command line [download_songs] runs for [links]. *)
Definition yt_dlp_command (env : Env) (links : list string) : list string :=
  ([sys_executable env; "-m"; "yt_dlp"; "-f"; "bestaudio[ext=m4a]";
    "--output"; "%(title)s.%(ext)s"] ++ links)%list.

(** The demo services with a second page that cannot be fetched. *)
Definition broken_page_env : Env :=
  mkEnv (sp_album demo_env) (sp_playlist demo_env)
        (sp_playlist_tracks demo_env)
        (fun _ => inl (mkExc OtherException "http status: 500"))
        (youtube_search demo_env) (sys_executable demo_env)
        (run_process demo_env) (fs_fault demo_env) (write_interrupt demo_env)
        (repr_frame demo_env) (format_percent demo_env).

(** The demo services with a first page whose cursor leads back to it. *)
Definition looping_env : Env :=
  mkEnv (sp_album demo_env) (sp_playlist demo_env)
        (sp_playlist_tracks demo_env)
        (fun _ => inr demo_first_page)
        (youtube_search demo_env) (sys_executable demo_env)
        (run_process demo_env) (fs_fault demo_env) (write_interrupt demo_env)
        (repr_frame demo_env) (format_percent demo_env).

(** ** The parts of [download_songs] *)

(** What [download_songs] does once the utility has returned: the report. *)
Definition report_download : M bool :=
  print (str_repeat "=" 60) ;;
  print "Download completed successfully!" ;;
  here <- os.path_abspath "." ;;
  print ("Songs downloaded to: " ++ here) ;;
  names <- os.listdir "." ;;
  let downloaded_files := filter (Py.endswith ".m4a") names in
  match downloaded_files with
  | [] => ret tt
  | _ =>
      print (Py.NL ++ "Downloaded "
             ++ Py.str_of_nat (List.length downloaded_files)
             ++ " songs:") ;;
      for_each downloaded_files (fun file => print ("  - " ++ file))
  end ;;
  ret true.

(** The two [except] clauses of [download_songs]. *)
Definition download_failed (e : PyExc) : option (M bool) :=
  match exc_class e with
  | CalledProcessError =>
      Some (print ("Download failed with error: " ++ exc_str e) ;; ret false)
  | KeyboardInterrupt =>
      Some (print (Py.NL ++ "Download interrupted by user") ;; ret false)
  | _ => None
  end.

(** The part of [download_songs] under [try], with its [except] clauses. *)
Definition download_attempt (env : Env) (links : list string) : M bool :=
  try_except
    (print (Py.NL ++ "Executing command: "
            ++ Py.join " " (firstn 7 (yt_dlp_command env links))
            ++ "... [and " ++ Py.str_of_nat (List.length links) ++ " URLs]") ;;
     print (str_repeat "=" 60) ;;
     subprocess_run env (yt_dlp_command env links) ;;
     report_download)
    download_failed.

(** The lines [download_songs] prints before it changes directory. *)
Definition download_announcement (links : list string) (folder : string)
    : list string :=
  [Py.NL ++ "Starting download of " ++ Py.str_of_nat (List.length links)
   ++ " songs...";
   "Downloading to folder: " ++ folder;
   "This may take a while depending on the number of songs..."].

(** The two lines printed right before the utility starts. *)
Definition download_start_lines (env : Env) (links : list string)
    : list string :=
  [Py.NL ++ "Executing command: "
   ++ Py.join " " (firstn 7 (yt_dlp_command env links))
   ++ "... [and " ++ Py.str_of_nat (List.length links) ++ " URLs]";
   str_repeat "=" 60].

(** The world in which the utility is started by [download_songs]: the
    process is in the playlist's folder and has printed five lines. *)
Definition world_at_download (env : Env) (links : list string)
    (folder : string) (w : World) : World :=
  mkWorld (os.resolve w folder) (dirs w) (files w)
    (stdout w ++ download_announcement links folder
       ++ download_start_lines env links)%list
    (spawned w).

(** The names directly inside the directory [d], given the files and
    directories on disk, as [os.listdir] lists them. *)
Definition listing (d : string) (all_dirs : list string)
    (all_files : list (string * string)) : list string :=
  flat_map
    (fun q => match os.child_of d q with
              | Some name => [name]
              | None => []
              end)
    (map fst all_files ++ all_dirs)%list.

(** The lines of the report for the audio files found. *)
Definition report_lines (downloaded_files : list string) : list string :=
  match downloaded_files with
  | [] => []
  | _ =>
      (Py.NL ++ "Downloaded " ++ Py.str_of_nat (List.length downloaded_files)
       ++ " songs:")
        :: map (fun file => "  - " ++ file) downloaded_files
  end.

(** An exception of class [OSError]. *)
Definition is_OSError (e : PyExc) : Prop := exc_class e = OSError.

(** [m] always ends, and raises nothing but exceptions that satisfy
    [allowed]. *)
Definition ends_raising {A : Type} (allowed : PyExc -> Prop) (m : M A)
    : Prop :=
  forall w : World,
    match fst (m w) with
    | Return _ => True
    | Raise e => allowed e
    | Diverge => False
    end.

(** The exceptions [subprocess.run(..., check=True)] can end in. *)
Definition from_subprocess (e : PyExc) : Prop :=
  exc_class e = CalledProcessError \/ exc_class e = KeyboardInterrupt
  \/ exc_class e = OSError.

(** [m] starts no subprocess. *)
Definition spawns_nothing {A : Type} (m : M A) : Prop :=
  forall w : World, spawned (snd (m w)) = spawned w.

(** The lines of the report [download_songs] prints after the utility has
    ended with success in the directory [here], which then holds the
    directories [ds] and the files [fs]. *)
Definition success_lines (here : string) (ds : list string)
    (fs : list (string * string)) : list string :=
  ([str_repeat "=" 60; "Download completed successfully!";
    ("Songs downloaded to: " ++ here)%string]
   ++ report_lines (filter (Py.endswith ".m4a") (listing here ds fs)))%list.

(** The line with the success rate. *)
Definition rate_line (env : Env) (hits total : nat) : string :=
  "Success rate: " ++ format_percent env hits total.

(** The frame of the tracks with what was found for each. *)
Definition results_frame (tracks : list Track)
    (found : list (pd.Cell * pd.Cell)) : pd.DataFrame :=
  pd.mkFrame result_columns
    (map (fun tm => result_row (fst tm) (snd tm)) (combine tracks found)).

(** What the search gives for a track: the watch URL and the title of the
    first hit, or nothing. *)
Definition first_hit (env : Env) (track : Track) : pd.Cell * pd.Cell :=
  match youtube_search env
          (search_query (track_name track) (Some (artists_cell track))) with
  | inr (hit :: _) =>
      (Some ("https://www.youtube.com/watch?v=" ++ videoId hit),
       Some (title hit))
  | _ => (None, None)
  end.

(** The links of the tracks that have a hit, in the order of the tracks. *)
Definition found_links (env : Env) (tracks : list Track) : list string :=
  pd.present (map (fun track => fst (first_hit env track)) tracks).

(** No search is interrupted: whatever a search raises is an [Exception]. *)
Definition uninterrupted (env : Env) : Prop :=
  forall (query : string) (e : PyExc),
    youtube_search env query = inl e -> is_Exception e = true.

(** ** The start of the program *)

(** A machine with every module in place, the three variables set, a
    [yt-dlp] that answers with its version, and a user who types [typed]. *)
Definition demo_host (typed : string) : Host :=
  mkHost (fun var => Some ("value of " ++ var))
         (fun _ => Imported)
         (fun _ w => (Finished 0 ("2024.08.06" ++ Py.NL), (dirs w, files w)))
         (inr typed).

(** The same machine without the variable [YOUTUBE_API_KEY] and with an
    empty [SPOTIFY_CLIENT_SECRET]. *)
Definition bare_host : Host :=
  mkHost (fun var =>
            if String.eqb var "SPOTIFY_CLIENT_ID" then Some "id"
            else if String.eqb var "SPOTIFY_CLIENT_SECRET"
                 then Some EmptyString
                 else None)
         (fun _ => Imported)
         (fun _ w => (Finished 0 ("2024.08.06" ++ Py.NL), (dirs w, files w)))
         (inr demo_playlist_url).

(** The packages [check_and_install_packages] finds missing on [host], in
    the order of its dict. *)
Definition missing_on (host : Host) : list string :=
  flat_map
    (fun p => match import_module host (fst p) with
              | ImportMissing => [snd p]
              | _ => []
              end)
    required_packages.

(** Every module can be imported or is missing: no import raises
    anything but [ImportError]. *)
Definition imports_settle (host : Host) : Prop :=
  forall (name : string) (e : PyExc), import_module host name <> ImportRaises e.

(** Every subprocess of [env] runs to an exit status, the one [status]
    gives for its command line. *)
Definition exits_with (env : Env) (status : list string -> nat) : Prop :=
  forall (cmd : list string) (w : World),
    fst (run_process env cmd w) = Exit (status cmd).

(** The command line [cmd] succeeds. *)
Definition succeeds (status : list string -> nat) (cmd : list string) : bool :=
  Nat.eqb (status cmd) 0.

(** Every subprocess of [env] runs to some exit status: none is
    interrupted, and none fails to start. *)
Definition always_exits (env : Env) : Prop :=
  forall (cmd : list string) (w : World),
    exists status : nat, fst (run_process env cmd w) = Exit status.

(** A [pip] that fails for [tqdm] and for nothing else. *)
Definition picky_status (cmd : list string) : nat :=
  if existsb (String.eqb "tqdm") cmd then 1 else 0.

Definition picky_env : Env :=
  make_env demo_search
    (fun cmd w => (Exit (picky_status cmd), (dirs w, files w)))
    (fun _ => None).

(** A machine without [pandas] and [tqdm], and without [yt-dlp]. *)
Definition fresh_host : Host :=
  mkHost (getenv (demo_host EmptyString))
         (fun name =>
            if String.eqb name "pandas" || String.eqb name "tqdm"
            then ImportMissing else Imported)
         (fun _ w => (NotFound, (dirs w, files w)))
         (inr EmptyString).

(** All the modules of [required_packages] can be imported on [host]. *)
Definition packages_in_place (host : Host) : Prop :=
  forall p : string * string,
    In p required_packages -> import_module host (fst p) = Imported.

(** The second [try] of [check_yt_dlp]: the installation of the utility. *)
Definition install_yt_dlp (env : Env) : M bool :=
  try_except
    (subprocess_run env (pip_install env "yt-dlp") ;;
     print "yt-dlp installed successfully!" ;;
     ret true)
    (fun e =>
       match exc_class e with
       | CalledProcessError =>
           Some (print "Failed to install yt-dlp" ;;
                 print "Please install manually: pip install yt-dlp" ;;
                 ret false)
       | _ => None
       end).

(** The demo services with a user who interrupts the search for the
    second track. *)
Definition interrupted_search_env : Env :=
  make_env
    (fun query =>
       if Py.contains "Song, B" query
       then inl (mkExc KeyboardInterrupt EmptyString)
       else demo_search query)
    demo_download (fun _ => None).

(* ===================================================================== *)
(** * Vocabulary of the table on disk *)
(* ===================================================================== *)

(** What the reader does once a field is complete and the character behind
    it, a comma or a newline, has been read. *)
Definition after_field (sep : ascii) (rest field : string)
    (record : list string) : option (list (list string)) :=
  if Ascii.eqb sep ","
  then csv.read_from rest
         (csv.mkReader csv.StartField EmptyString (field :: record))
  else option_map (cons (rev (field :: record)))
         (csv.read_from rest csv.fresh).

(** [sep] is a comma with text behind it, or the newline of a record. *)
Definition separates (sep : ascii) (rest : string) : Prop :=
  (sep = ","%char /\ rest <> EmptyString) \/ sep = Py.newline.

(** A field that is written without quotes and read as one field. *)
Definition bare (field : string) : Prop :=
  Py.char_in "," field = false /\ Py.char_in Py.dquote field = false
  /\ Py.char_in Py.newline field = false
  /\ Py.char_in Py.carriage_return field = false.

(** The reader is where a field begins. *)
Definition at_start (s : csv.State) : Prop :=
  s = csv.StartRecord \/ s = csv.StartField.

(** The record of a track in the table: its name, its artists and what the
    search gives for it. *)
Definition written_row (env : Env) (track : Track) : list string :=
  csv_row track (first_hit env track).

(** A track whose name holds a carriage return and nothing that asks for
    quotes. *)
Definition cr_tracks : list Track :=
  [mkTrack ("Line" ++ String Py.carriage_return "Break") [mkArtist "X"]].

(** The header line of the table. *)
Definition header_line : string := pd.csv_line result_columns.

(** An album that announces sixty tracks and whose lookup brings two. *)
Definition long_album : Album :=
  mkAlbum "Long Play" 60
    [mkTrack "One" [mkArtist "X"];
     mkTrack "Two" [mkArtist "Y"; mkArtist "Z"]].

Definition long_album_env : Env :=
  mkEnv (fun _ => inr long_album)
        (sp_playlist demo_env) (sp_playlist_tracks demo_env)
        (fun _ => inl (mkExc OtherException "no further page"))
        (youtube_search demo_env) (sys_executable demo_env)
        (run_process demo_env) (fs_fault demo_env) (write_interrupt demo_env)
        (repr_frame demo_env) (format_percent demo_env).

(* ===================================================================== *)
(** * Facts about Python strings *)
(* ===================================================================== *)

Module PyFacts.

Import Py.

Lemma append_assoc (a b c : string) : (a ++ b) ++ c = a ++ (b ++ c).
Proof.
  induction a as [|x a IH]; simpl; [reflexivity | rewrite IH; reflexivity].
Qed.

Lemma append_length (a b : string) :
  String.length (a ++ b) = String.length a + String.length b.
Proof.
  induction a as [|x a IH]; simpl; [reflexivity | rewrite IH; reflexivity].
Qed.

Lemma char_in_replace_old (old new : ascii) (s : string) :
  old <> new -> char_in old (replace old new s) = false.
Proof.
  intros Hne. induction s as [|c s IH]; simpl; [reflexivity|].
  rewrite IH, orb_false_r.
  destruct (Ascii.eqb_spec c old) as [->|Hc].
  - apply Ascii.eqb_neq. exact Hne.
  - apply Ascii.eqb_neq. congruence.
Qed.

Lemma char_in_replace_keeps_out (c old new : ascii) (s : string) :
  c <> new -> char_in c s = false -> char_in c (replace old new s) = false.
Proof.
  intros Hne. induction s as [|d s IH]; simpl; [reflexivity|].
  intros H. apply orb_false_iff in H as [Hd Hs].
  rewrite (IH Hs), orb_false_r.
  destruct (Ascii.eqb d old); [apply Ascii.eqb_neq; exact Hne | exact Hd].
Qed.

Lemma replace_absent (old new : ascii) (s : string) :
  char_in old s = false -> replace old new s = s.
Proof.
  induction s as [|c s IH]; simpl; [reflexivity|].
  intros H. apply orb_false_iff in H as [Hc Hs].
  rewrite (IH Hs). rewrite Ascii.eqb_sym in Hc. rewrite Hc. reflexivity.
Qed.

Lemma char_in_lstrip (c : ascii) (chars s : string) :
  char_in c s = false -> char_in c (lstrip chars s) = false.
Proof.
  induction s as [|d s IH]; simpl; [reflexivity|].
  intros H. destruct (char_in d chars); [|exact H].
  apply orb_false_iff in H as [_ Hs]. auto.
Qed.

Lemma char_in_rstrip (c : ascii) (chars s : string) :
  char_in c s = false -> char_in c (rstrip chars s) = false.
Proof.
  induction s as [|d s IH]; simpl; [reflexivity|].
  intros H. apply orb_false_iff in H as [Hd Hs]. specialize (IH Hs).
  destruct (rstrip chars s) as [|e kept].
  - destruct (char_in d chars); simpl; [reflexivity|].
    rewrite Hd. reflexivity.
  - change (char_in c (String d (String e kept)))
      with (Ascii.eqb c d || char_in c (String e kept)).
    rewrite Hd, IH. reflexivity.
Qed.

Lemma char_in_slice_to (c : ascii) (n : nat) (s : string) :
  char_in c s = false -> char_in c (slice_to n s) = false.
Proof.
  revert s. induction n as [|n IH]; intros [|d s]; simpl; auto.
  intros H. apply orb_false_iff in H as [Hd Hs].
  rewrite Hd, (IH _ Hs). reflexivity.
Qed.

Lemma slice_to_length (n : nat) (s : string) :
  String.length (slice_to n s) = Nat.min n (String.length s).
Proof.
  revert s. induction n as [|n IH]; intros [|d s]; simpl; auto.
Qed.

Lemma slice_from_length (n : nat) (s : string) :
  String.length (slice_from n s) = String.length s - n.
Proof.
  revert s. induction n as [|n IH]; intros [|c s]; simpl; auto.
Qed.

Lemma slice_to_all (n : nat) (s : string) :
  String.length s <= n -> slice_to n s = s.
Proof.
  revert s. induction n as [|n IH]; intros [|d s]; simpl; auto.
  - lia.
  - intros H. rewrite IH by lia. reflexivity.
Qed.

Lemma leading_lstrip (chars s : string) : leading chars (lstrip chars s) = false.
Proof.
  induction s as [|c s IH]; simpl; [reflexivity|].
  destruct (char_in c chars) eqn:Hc; [exact IH|]. simpl. exact Hc.
Qed.

Lemma leading_rstrip (chars s : string) :
  leading chars s = false -> leading chars (rstrip chars s) = false.
Proof.
  destruct s as [|c s]; simpl; [reflexivity|].
  intros Hc. destruct (rstrip chars s); [rewrite Hc|]; simpl; auto.
Qed.

Lemma leading_slice_to (chars : string) (n : nat) (s : string) :
  leading chars s = false -> leading chars (slice_to n s) = false.
Proof.
  destruct n, s; simpl; auto.
Qed.

Lemma trailing_rstrip (chars s : string) : trailing chars (rstrip chars s) = false.
Proof.
  induction s as [|c s IH]; simpl; [reflexivity|].
  destruct (rstrip chars s) as [|d kept].
  - destruct (char_in c chars) eqn:Hc; simpl; auto.
  - exact IH.
Qed.

Lemma lstrip_clean (chars s : string) :
  leading chars s = false -> lstrip chars s = s.
Proof.
  destruct s as [|c s]; simpl; [reflexivity|]. intros ->. reflexivity.
Qed.

Lemma rstrip_clean (chars s : string) :
  trailing chars s = false -> rstrip chars s = s.
Proof.
  induction s as [|c s IH]; [reflexivity|].
  destruct s as [|d s].
  - simpl. intros ->. reflexivity.
  - intros H. change (trailing chars (String c (String d s)))
      with (trailing chars (String d s)) in H.
    change (rstrip chars (String c (String d s)))
      with (match rstrip chars (String d s) with
            | EmptyString => if char_in c chars then EmptyString
                             else String c EmptyString
            | kept => String c kept
            end).
    rewrite (IH H). reflexivity.
Qed.

Lemma strip_clean (chars s : string) :
  leading chars s = false -> trailing chars s = false -> strip chars s = s.
Proof.
  intros Hl Ht. unfold strip. rewrite (lstrip_clean _ _ Hl).
  apply rstrip_clean. exact Ht.
Qed.

Lemma startswith_length (p s : string) :
  startswith p s = true -> String.length p <= String.length s.
Proof.
  revert s. induction p as [|a p IH]; intros [|b s]; simpl; intros H;
    try discriminate; try lia.
  apply andb_true_iff in H as [_ H]. apply IH in H. lia.
Qed.

Lemma find_Some_bound (sub s : string) (i : nat) :
  find sub s = Some i -> i + String.length sub <= String.length s.
Proof.
  revert i. induction s as [|c s IH]; intros i.
  - simpl. destruct (startswith sub EmptyString) eqn:Hs; [|discriminate].
    intros H. inversion H. apply startswith_length in Hs. simpl in *. lia.
  - cbn [find]. destruct (startswith sub (String c s)) eqn:Hs.
    + intros H. inversion H. apply startswith_length in Hs. lia.
    + destruct (find sub s) as [j|]; simpl; [|discriminate].
      intros H. inversion H. specialize (IH j eq_refl). simpl. lia.
Qed.

(** More rounds than the string has characters change nothing. *)
Lemma split_rounds_enough (sep : string) (n m : nat) (s : string) :
  sep <> EmptyString ->
  String.length s < n -> String.length s < m ->
  split_rounds n sep s = split_rounds m sep s.
Proof.
  intros Hsep. revert m s.
  induction n as [|n IH]; intros m s Hn Hm; [lia|].
  destruct m as [|m]; [lia|]. simpl.
  destruct (find sep s) as [i|] eqn:Hf; [|reflexivity].
  f_equal. apply find_Some_bound in Hf.
  assert (0 < String.length sep) by (destruct sep; simpl; [congruence | lia]).
  apply IH; rewrite slice_from_length; lia.
Qed.

(** The equation of [split]: cut at the leftmost separator, split the rest. *)
Lemma split_unfold (sep s : string) :
  sep <> EmptyString ->
  split sep s =
  match find sep s with
  | Some i => slice_to i s :: split sep (slice_from (i + String.length sep) s)
  | None => [s]
  end.
Proof.
  intros Hsep. unfold split at 1. cbn [split_rounds].
  destruct (find sep s) as [i|] eqn:Hf; [|reflexivity].
  f_equal. unfold split. apply find_Some_bound in Hf.
  assert (0 < String.length sep) by (destruct sep; simpl; [congruence | lia]).
  apply split_rounds_enough; try assumption; rewrite slice_from_length; lia.
Qed.

(** The second piece of a split at a separator that occurs. *)
Lemma split_second (sep s : string) :
  sep <> EmptyString -> contains sep s = true ->
  nth_error (split sep s) 1 = Some (upto sep (after sep s)).
Proof.
  intros Hsep Hin. rewrite (split_unfold _ _ Hsep).
  unfold contains in Hin. unfold after.
  destruct (find sep s) as [i|]; [|discriminate]. cbn [nth_error].
  rewrite (split_unfold _ _ Hsep). unfold upto.
  destruct (find sep (slice_from (i + String.length sep) s)); reflexivity.
Qed.

(** The first piece of a split. *)
Lemma split_first (sep s : string) :
  sep <> EmptyString -> nth_error (split sep s) 0 = Some (upto sep s).
Proof.
  intros Hsep. rewrite (split_unfold _ _ Hsep). unfold upto.
  destruct (find sep s); reflexivity.
Qed.

End PyFacts.

(* ===================================================================== *)
(** * Folder names: [sanitize_filename] *)
(* ===================================================================== *)

Lemma replace_each_keeps_out (c : ascii) (chars s : string) :
  c <> "_"%char -> Py.char_in c s = false ->
  Py.char_in c (replace_each chars s) = false.
Proof.
  intros Hc. revert s. induction chars as [|d chars IH]; intros s Hs; simpl.
  - exact Hs.
  - apply IH. apply PyFacts.char_in_replace_keeps_out; assumption.
Qed.

Lemma replace_each_removes (c : ascii) (chars s : string) :
  c <> "_"%char -> Py.char_in c chars = true ->
  Py.char_in c (replace_each chars s) = false.
Proof.
  intros Hc. revert s. induction chars as [|d chars IH]; intros s; simpl.
  - discriminate.
  - destruct (Ascii.eqb_spec c d) as [<-|Hd]; simpl.
    + intros _. apply replace_each_keeps_out; [exact Hc|].
      apply PyFacts.char_in_replace_old. exact Hc.
    + apply IH.
Qed.

Lemma replace_each_absent (chars s : string) :
  (forall c, Py.char_in c chars = true -> Py.char_in c s = false) ->
  replace_each chars s = s.
Proof.
  revert s. induction chars as [|d chars IH]; intros s H; simpl.
  - reflexivity.
  - assert (Hd : Py.char_in d s = false).
    { apply H. simpl. rewrite Ascii.eqb_refl. reflexivity. }
    rewrite (PyFacts.replace_absent _ _ _ Hd). apply IH.
    intros c Hc. apply H. simpl. rewrite Hc. apply orb_true_r.
Qed.

Lemma invalid_char_not_underscore (c : ascii) :
  Py.char_in c invalid_chars = true -> c <> "_"%char.
Proof.
  intros H ->. vm_compute in H. discriminate.
Qed.

(** The result holds none of the invalid characters. *)
Lemma sanitize_filename_no_invalid_char (filename : string) (c : ascii) :
  Py.char_in c invalid_chars = true ->
  Py.char_in c (sanitize_filename filename) = false.
Proof.
  intros Hc. unfold sanitize_filename.
  assert (H : Py.char_in c (Py.strip " ." (replace_each invalid_chars filename))
              = false).
  { unfold Py.strip. apply PyFacts.char_in_rstrip, PyFacts.char_in_lstrip.
    apply replace_each_removes; [|exact Hc].
    apply invalid_char_not_underscore. exact Hc. }
  destruct (Nat.ltb 100 _); [apply PyFacts.char_in_slice_to|]; exact H.
Qed.

(** The result has at most 100 characters. *)
Lemma sanitize_filename_length (filename : string) :
  String.length (sanitize_filename filename) <= 100.
Proof.
  unfold sanitize_filename.
  destruct (Nat.ltb_spec 100
              (String.length (Py.strip " ." (replace_each invalid_chars filename)))).
  - rewrite PyFacts.slice_to_length. lia.
  - assumption.
Qed.

(** The result does not begin with a space or a dot. *)
Lemma sanitize_filename_no_leading (filename : string) :
  leading " ." (sanitize_filename filename) = false.
Proof.
  unfold sanitize_filename.
  assert (H : leading " ." (Py.strip " ." (replace_each invalid_chars filename))
              = false).
  { unfold Py.strip. apply PyFacts.leading_rstrip, PyFacts.leading_lstrip. }
  destruct (Nat.ltb 100 _); [apply PyFacts.leading_slice_to|]; exact H.
Qed.

(** As long as the name is not cut, it does not end in a space or a dot. *)
Lemma sanitize_filename_no_trailing_uncut (filename : string) :
  String.length (Py.strip " ." (replace_each invalid_chars filename)) <= 100 ->
  trailing " ." (sanitize_filename filename) = false.
Proof.
  intros H. unfold sanitize_filename.
  destruct (Nat.ltb_spec 100
              (String.length (Py.strip " ." (replace_each invalid_chars filename))));
    [lia|].
  unfold Py.strip. apply PyFacts.trailing_rstrip.
Qed.

(** A result that does not end in a space or a dot is a fixed point. *)
Lemma sanitize_filename_fixed_point (filename : string) :
  trailing " ." (sanitize_filename filename) = false ->
  sanitize_filename (sanitize_filename filename) = sanitize_filename filename.
Proof.
  intros Ht. set (name := sanitize_filename filename) in *.
  unfold sanitize_filename at 1.
  rewrite (replace_each_absent invalid_chars name)
    by (intros c Hc; apply sanitize_filename_no_invalid_char; exact Hc).
  rewrite (PyFacts.strip_clean " ." name)
    by (try exact Ht; apply sanitize_filename_no_leading).
  pose proof (sanitize_filename_length filename) as Hlen. fold name in Hlen.
  destruct (Nat.ltb_spec 100 (String.length name)); [lia | reflexivity].
Qed.

(** Names that are not cut are sanitized once and for all. *)
Lemma sanitize_filename_idempotent_uncut (filename : string) :
  String.length (Py.strip " ." (replace_each invalid_chars filename)) <= 100 ->
  sanitize_filename (sanitize_filename filename) = sanitize_filename filename.
Proof.
  intros H. apply sanitize_filename_fixed_point.
  apply sanitize_filename_no_trailing_uncut. exact H.
Qed.

(** The name of the specification's example. *)
Example sanitize_filename_my_playlist :
  sanitize_filename "My: Playlist / 2024" = "My_ Playlist _ 2024".
Proof. reflexivity. Qed.

(** C5, at a name of 101 characters whose 100th is a space: the cut comes
    after the stripping, so the result, 99 letters and the space, ends in a
    space.  The claim that the result never ends in a dot or a space fails
    on this input; the other parts of the claim hold on every input
    ([sanitize_filename_no_invalid_char], [sanitize_filename_length],
    [sanitize_filename_no_leading]). *)
Theorem sanitize_filename_trailing_space :
  sanitize_filename long_name = str_repeat "a" 99 ++ " "
  /\ trailing " ." (sanitize_filename long_name) = true
  /\ String.length (sanitize_filename long_name) = 100.
Proof. vm_compute. repeat split; reflexivity. Qed.

(** C4, at the same name: sanitizing the result again strips the space the
    cut left at the end, so the second pass is not the identity. *)
Theorem sanitize_filename_not_idempotent :
  sanitize_filename (sanitize_filename long_name) = str_repeat "a" 99
  /\ sanitize_filename (sanitize_filename long_name)
     <> sanitize_filename long_name.
Proof. vm_compute. split; [reflexivity | discriminate]. Qed.

(* ===================================================================== *)
(** * Steps of the monad *)
(* ===================================================================== *)

Lemma printed_printed (l1 l2 : list string) (w : World) :
  printed l2 (printed l1 w) = printed (l1 ++ l2) w.
Proof.
  unfold printed. simpl. rewrite app_assoc. reflexivity.
Qed.

Lemma printed_nil (w : World) : printed [] w = w.
Proof.
  destruct w. unfold printed. simpl. rewrite app_nil_r. reflexivity.
Qed.

Lemma print_run (s : string) (w : World) :
  print s w = (Return tt, printed [s] w).
Proof. reflexivity. Qed.

Lemma bind_run_return {A B : Type} (m : M A) (k : A -> M B) (w w' : World)
    (a : A) :
  m w = (Return a, w') -> bind m k w = k a w'.
Proof. intros H. unfold bind. rewrite H. reflexivity. Qed.

Lemma bind_run_raise {A B : Type} (m : M A) (k : A -> M B) (w w' : World)
    (e : PyExc) :
  m w = (Raise e, w') -> bind m k w = (Raise e, w').
Proof. intros H. unfold bind. rewrite H. reflexivity. Qed.

Lemma list_index_run {A : Type} (xs : list A) (i : nat) (x : A) (w : World) :
  nth_error xs i = Some x -> list_index xs i w = (Return x, w).
Proof. intros H. unfold list_index. rewrite H. reflexivity. Qed.

(* ===================================================================== *)
(** * Reading the id out of the URL *)
(* ===================================================================== *)

Lemma url_id_run (marker url : string) (w : World) :
  marker <> EmptyString -> Py.contains marker url = true ->
  url_id marker url w = (Return (cut_id marker url), w).
Proof.
  intros Hm Hin. unfold url_id.
  rewrite (bind_run_return _ _ w w (upto marker (after marker url))).
  - apply list_index_run. apply PyFacts.split_first. discriminate.
  - apply list_index_run. apply PyFacts.split_second; assumption.
Qed.

(** C10, as the claim words it, fails at [two_markers_url], which holds both
    markers: the script takes the piece between the first and the second
    [album/], not the text up to the first question mark. *)
Lemma album_id_stops_at_second_marker :
  Py.contains "album/" two_markers_url = true
  /\ Py.contains "playlist/" two_markers_url = true
  /\ url_id "album/" two_markers_url demo_world = (Return "abc/", demo_world)
  /\ spec_album_id two_markers_url = "abc/album/def"
  /\ url_id "album/" two_markers_url demo_world
     <> (Return (spec_album_id two_markers_url), demo_world).
Proof. vm_compute. repeat split; try reflexivity. discriminate. Qed.

(** C10, amended: a URL that holds [album/] goes down the album branch
    whatever else it holds, with the id cut out behind the first [album/]
    and ended by the next [album/] or the first question mark, whichever
    comes first; the outcome depends on the album lookup alone, not on the
    playlist service nor on the fuel of the pagination. *)
Theorem album_marker_wins (env : Env) (fuel : nat) (url : string) (w : World) :
  Py.contains "album/" url = true ->
  export_spotify_playlist env fuel url w
  = export_album env (upto "?" (upto "album/" (after "album/" url))) w
  /\ forall (env' : Env) (fuel' : nat),
       sp_album env' = sp_album env ->
       export_spotify_playlist env' fuel' url w
       = export_spotify_playlist env fuel url w.
Proof.
  intros Hin.
  assert (Hrun : forall e f,
            export_spotify_playlist e f url w
            = export_album e (cut_id "album/" url) w).
  { intros e f. unfold export_spotify_playlist. rewrite Hin.
    apply bind_run_return. apply url_id_run; [discriminate | exact Hin]. }
  split; [apply Hrun|].
  intros env' fuel' Halbum. rewrite !Hrun.
  unfold export_album, try_except, bind, call. rewrite Halbum. reflexivity.
Qed.

Lemma album_marker_wins_witness :
  Py.contains "album/" two_markers_url = true
  /\ export_spotify_playlist demo_env 0 two_markers_url demo_world
     = export_album demo_env "abc/" demo_world.
Proof.
  split; [reflexivity|].
  exact (proj1 (album_marker_wins demo_env 0 two_markers_url demo_world
                  eq_refl)).
Defined.

(* ===================================================================== *)
(** * The exported frame *)
(* ===================================================================== *)

Lemma labels_of_tracks_stable (tracks : list Track) :
  fold_left (fun acc d => fold_left pd.add_label (map fst d) acc)
    (map track_info tracks) export_columns
  = export_columns.
Proof.
  induction tracks as [|t tracks IH]; simpl; [reflexivity | exact IH].
Qed.

Lemma from_records_columns (tracks : list Track) :
  pd.columns (pd.from_records (map track_info tracks))
  = match tracks with [] => [] | _ => export_columns end.
Proof.
  destruct tracks as [|t tracks]; [reflexivity|].
  unfold pd.from_records. cbn [pd.columns map fold_left].
  apply (labels_of_tracks_stable tracks).
Qed.

Lemma from_records_rows (tracks : list Track) :
  pd.rows (pd.from_records (map track_info tracks)) = map track_row tracks.
Proof.
  pose proof (from_records_columns tracks) as Hcols.
  unfold pd.from_records in *. cbn [pd.columns pd.rows] in *.
  rewrite Hcols. destruct tracks as [|t tracks]; [reflexivity|].
  rewrite map_map. apply map_ext. intros t'. reflexivity.
Qed.

Lemma playlist_track_data_present (entries : list PlaylistItem) :
  playlist_track_data entries = map track_info (present_tracks entries).
Proof.
  unfold playlist_track_data, present_tracks.
  induction entries as [|entry entries IH]; simpl; [reflexivity|].
  rewrite IH, map_app. destruct (item_track entry); reflexivity.
Qed.

Lemma present_tracks_count (entries : list PlaylistItem) :
  List.length (present_tracks entries)
  = List.length (filter has_track entries).
Proof.
  unfold present_tracks, has_track.
  induction entries as [|entry entries IH]; simpl; [reflexivity|].
  destruct (item_track entry); simpl; rewrite IH; reflexivity.
Qed.

Lemma present_tracks_app (xs ys : list PlaylistItem) :
  present_tracks (xs ++ ys) = (present_tracks xs ++ present_tracks ys)%list.
Proof. unfold present_tracks. apply flat_map_app. Qed.

(* ===================================================================== *)
(** * Pagination *)
(* ===================================================================== *)

Lemma while_next_last (env : Env) (fuel : nat) (p : Page)
    (tracks : list PlaylistItem) (w : World) :
  cursor p = None -> while_next env fuel p tracks w = (Return tracks, w).
Proof.
  unfold cursor. intros H. destruct fuel; simpl;
    destruct (page_next p) as [c|]; try reflexivity;
    destruct (Py.truthy c); try discriminate; reflexivity.
Qed.

(** With a round of fuel per page still to come, the loop collects the
    entries of those pages behind the ones it has, in the order served. *)
Lemma while_next_collects (env : Env) (p : Page) (rest : list Page) :
  pages_from env p rest ->
  forall (fuel : nat) (tracks : list PlaylistItem) (w : World),
    List.length rest <= fuel ->
    while_next env fuel p tracks w
    = (Return (tracks ++ flat_map page_items rest)%list, w).
Proof.
  induction 1 as [p Hlast | p c p' rest Hc Hget Hrest IH];
    intros fuel tracks w Hfuel.
  - rewrite while_next_last by assumption. simpl. rewrite app_nil_r.
    reflexivity.
  - destruct fuel as [|fuel]; [simpl in Hfuel; lia|].
    unfold cursor in Hc. cbn [while_next].
    destruct (page_next p) as [c0|]; [|discriminate].
    destruct (Py.truthy c0); [|discriminate].
    injection Hc as ->. unfold bind, call. rewrite Hget. cbn [ret].
    rewrite IH by (simpl in Hfuel; lia).
    cbn [flat_map]. rewrite app_assoc. reflexivity.
Qed.

(** C1: for a URL with the playlist marker and without the album marker,
    when the service knows the playlist and serves its entries in a first
    page and, behind the cursors, finitely many further pages, the export
    follows every cursor and returns the playlist's name and a frame with
    one row per entry that has a track, in the order the service served
    them; the entries without a track are left out, and the number of rows
    is the number of entries with a track.  Fuel for one round per further
    page is enough. *)
Theorem export_playlist_in_service_order (env : Env) (url : string)
    (playlist : Playlist) (first : Page) (rest : list Page)
    (fuel : nat) (w : World) :
  Py.contains "album/" url = false ->
  Py.contains "playlist/" url = true ->
  sp_playlist env (cut_id "playlist/" url) = inr playlist ->
  sp_playlist_tracks env (cut_id "playlist/" url) = inr first ->
  pages_from env first rest ->
  List.length rest <= fuel ->
  let entries := flat_map page_items (first :: rest) in
  exists df : pd.DataFrame,
    export_spotify_playlist env fuel url w
    = (Return (Some df, Some (playlist_name playlist)),
       printed ["Playlist: " ++ playlist_name playlist;
                "Total tracks: " ++ Py.str_of_nat (playlist_total playlist)] w)
    /\ pd.rows df = map track_row (present_tracks entries)
    /\ pd.len df = List.length (filter has_track entries).
Proof.
  intros Halbum Hplaylist Hmeta Hfirst Hpages Hfuel entries.
  exists (pd.from_records (playlist_track_data entries)).
  split; [|split].
  - unfold export_spotify_playlist. rewrite Halbum, Hplaylist.
    rewrite (bind_run_return _ _ w w (cut_id "playlist/" url))
      by (apply url_id_run; [discriminate | exact Hplaylist]).
    unfold export_playlist, try_except, bind, call.
    rewrite Hmeta, Hfirst. cbn [ret]. rewrite !print_run, printed_printed.
    rewrite (while_next_collects env first rest Hpages) by exact Hfuel.
    reflexivity.
  - rewrite playlist_track_data_present. apply from_records_rows.
  - unfold pd.len. rewrite playlist_track_data_present, from_records_rows.
    rewrite length_map. apply present_tracks_count.
Qed.

Lemma export_playlist_in_service_order_witness :
  exists df : pd.DataFrame,
    export_spotify_playlist demo_env 1 demo_playlist_url demo_world
    = (Return (Some df, Some "My: Mix abc"),
       printed ["Playlist: My: Mix abc"; "Total tracks: 3"] demo_world)
    /\ pd.rows df
       = [[Some "Song A"; Some "X, Y"]; [Some "Song, B"; Some "Z"];
          [Some "Song C"; Some EmptyString]]
    /\ pd.len df = 3.
Proof.
  apply (export_playlist_in_service_order demo_env demo_playlist_url
           (mkPlaylist "My: Mix abc" 3) demo_first_page [demo_second_page]
           1 demo_world); try reflexivity.
  eapply pages_more; [reflexivity | reflexivity |].
  apply pages_last. reflexivity.
Defined.

(* ===================================================================== *)
(** * Searching YouTube *)
(* ===================================================================== *)

Lemma get_youtube_link_hit (env : Env) (song : string) (artist : option string)
    (hit : SearchItem) (more : list SearchItem) (w : World) :
  youtube_search env (search_query song artist) = inr (hit :: more) ->
  get_youtube_link env song artist w
  = (Return (Some ("https://www.youtube.com/watch?v=" ++ videoId hit),
             Some (title hit)), w).
Proof.
  intros H. unfold get_youtube_link, try_except, bind, call. rewrite H.
  reflexivity.
Qed.

Lemma get_youtube_link_no_hit (env : Env) (song : string)
    (artist : option string) (w : World) :
  youtube_search env (search_query song artist) = inr [] ->
  get_youtube_link env song artist w = (Return (None, None), w).
Proof.
  intros H. unfold get_youtube_link, try_except, bind, call. rewrite H.
  reflexivity.
Qed.

Lemma get_youtube_link_error (env : Env) (song : string)
    (artist : option string) (e : PyExc) (w : World) :
  youtube_search env (search_query song artist) = inl e ->
  is_Exception e = true ->
  get_youtube_link env song artist w
  = (Return (None, None),
     printed ["Error searching for '" ++ search_query song artist ++ "': "
              ++ exc_str e] w).
Proof.
  intros H He. unfold get_youtube_link, try_except, bind, call. rewrite H.
  cbn [raise]. rewrite He. reflexivity.
Qed.

(** C3, amended: whatever the search answers, short of an interrupt, the
    resolver returns.  Without a hit it returns no URL and no title and prints
    nothing; when the request raises an [Exception] (request, credentials,
    quota, ...) it returns no URL and no title after printing the reason,
    and raises nothing; with a hit it returns the watch URL of the first
    hit's video id and that hit's title. *)
Theorem get_youtube_link_never_fails (env : Env) (song : string)
    (artist : option string) (w : World) :
  let answer := youtube_search env (search_query song artist) in
  (answer = inr [] ->
   get_youtube_link env song artist w = (Return (None, None), w))
  /\ (forall e : PyExc,
        answer = inl e -> is_Exception e = true ->
        get_youtube_link env song artist w
        = (Return (None, None),
           printed ["Error searching for '" ++ search_query song artist
                    ++ "': " ++ exc_str e] w))
  /\ (forall (hit : SearchItem) (more : list SearchItem),
        answer = inr (hit :: more) ->
        get_youtube_link env song artist w
        = (Return (Some ("https://www.youtube.com/watch?v=" ++ videoId hit),
                   Some (title hit)), w)).
Proof.
  intros answer. subst answer. split; [|split].
  - apply get_youtube_link_no_hit.
  - intros e. apply get_youtube_link_error.
  - intros hit more. apply get_youtube_link_hit.
Qed.

Lemma get_youtube_link_never_fails_witness :
  get_youtube_link demo_env "Song B" (Some "Z") demo_world
  = (Return (None, None), demo_world)
  /\ get_youtube_link demo_env "Song C" None demo_world
     = (Return (None, None),
        printed ["Error searching for 'Song C lyrics': quotaExceeded"]
          demo_world)
  /\ get_youtube_link demo_env "Song A" (Some "X, Y") demo_world
     = (Return (Some "https://www.youtube.com/watch?v=idA",
                Some "Song A (Lyrics)"), demo_world).
Proof.
  split; [|split].
  - exact (proj1 (get_youtube_link_never_fails demo_env "Song B" (Some "Z")
                    demo_world) eq_refl).
  - exact (proj1 (proj2 (get_youtube_link_never_fails demo_env "Song C" None
                           demo_world))
             (mkExc OtherException "quotaExceeded") eq_refl eq_refl).
  - exact (proj2 (proj2 (get_youtube_link_never_fails demo_env "Song A"
                           (Some "X, Y") demo_world))
             (mkHit "idA" "Song A (Lyrics)") [mkHit "idA2" "Song A live"]
             eq_refl).
Defined.

(** An outcome of the search that is not an interrupt cannot make the
    resolver raise. *)
Lemma get_youtube_link_returns (env : Env) (song : string)
    (artist : option string) (w : World) :
  (forall e, youtube_search env (search_query song artist) = inl e ->
             is_Exception e = true) ->
  exists (result : option string * option string) (w' : World),
    get_youtube_link env song artist w = (Return result, w')
    /\ cwd w' = cwd w /\ dirs w' = dirs w /\ files w' = files w
    /\ spawned w' = spawned w.
Proof.
  intros Hexc.
  destruct (youtube_search env (search_query song artist))
    as [e | [|hit more]] eqn:Hanswer.
  - rewrite (get_youtube_link_error env song artist e w Hanswer (Hexc e eq_refl)).
    eexists _, _. split; [reflexivity|]. repeat split.
  - rewrite (get_youtube_link_no_hit env song artist w Hanswer).
    eexists _, _. split; [reflexivity|]. repeat split.
  - rewrite (get_youtube_link_hit env song artist hit more w Hanswer).
    eexists _, _. split; [reflexivity|]. repeat split.
Qed.

(* ===================================================================== *)
(** * Calls that end *)
(* ===================================================================== *)

Lemma ends_ret {A : Type} (a : A) : ends (ret a).
Proof. intros w. discriminate. Qed.

Lemma ends_raise {A : Type} (e : PyExc) : ends (@raise A e).
Proof. intros w. discriminate. Qed.

Lemma ends_print (s : string) : ends (print s).
Proof. intros w. discriminate. Qed.

Lemma ends_bind {A B : Type} (m : M A) (k : A -> M B) :
  ends m -> (forall a, ends (k a)) -> ends (bind m k).
Proof.
  intros Hm Hk w. unfold bind. specialize (Hm w).
  destruct (m w) as [[a | e |] w']; simpl in *.
  - apply Hk.
  - discriminate.
  - congruence.
Qed.

Lemma ends_try_except {A : Type} (body : M A)
    (handler : PyExc -> option (M A)) :
  ends body -> (forall e h, handler e = Some h -> ends h) ->
  ends (try_except body handler).
Proof.
  intros Hb Hh w. unfold try_except. specialize (Hb w).
  destruct (body w) as [[a | e |] w']; simpl in *.
  - discriminate.
  - destruct (handler e) as [h|] eqn:He; [apply (Hh e h He) | discriminate].
  - congruence.
Qed.

Lemma ends_for_each {A : Type} (xs : list A) (body : A -> M unit) :
  (forall x, ends (body x)) -> ends (for_each xs body).
Proof.
  intros Hb. induction xs as [|x xs IH]; simpl.
  - apply ends_ret.
  - apply ends_bind; [apply Hb | intros _; exact IH].
Qed.

Lemma ends_map_M {A B : Type} (f : A -> M B) (xs : list A) :
  (forall x, ends (f x)) -> ends (map_M f xs).
Proof.
  intros Hf. induction xs as [|x xs IH]; simpl.
  - apply ends_ret.
  - apply ends_bind; [apply Hf | intros y].
    apply ends_bind; [exact IH | intros ys; apply ends_ret].
Qed.

Lemma ends_call {A : Type} (answer : PyExc + A) : ends (call answer).
Proof. destruct answer; [apply ends_raise | apply ends_ret]. Qed.

Lemma ends_subprocess_run (env : Env) (cmd : list string) :
  ends (subprocess_run env cmd).
Proof.
  intros w. unfold subprocess_run.
  destruct (run_process env cmd w) as [[[|status] | | msg] [ds fs]];
    discriminate.
Qed.

Lemma ends_listdir (p : string) : ends (os.listdir p).
Proof.
  intros w. unfold os.listdir. destruct (os.is_dir w (os.resolve w p));
    discriminate.
Qed.

Lemma ends_chdir (p : string) : ends (os.chdir p).
Proof.
  intros w. unfold os.chdir.
  destruct (Py.truthy p && os.is_dir w (os.resolve w p)); discriminate.
Qed.

Lemma ends_path_abspath (p : string) : ends (os.path_abspath p).
Proof. intros w. discriminate. Qed.

Create HintDb ends.

#[local] Hint Resolve ends_ret ends_raise ends_print ends_call
  ends_subprocess_run ends_listdir ends_chdir ends_path_abspath : ends.

Ltac ends_steps :=
  repeat first
    [ apply ends_bind; [|intros ?]
    | apply ends_for_each; intros ?
    | solve [auto with ends] ].

(* ===================================================================== *)
(** * Downloading: [download_songs] *)
(* ===================================================================== *)

Lemma resolve_absolute (w : World) (p : string) :
  Py.startswith "/" p = true -> os.resolve w p = p /\ Py.truthy p = true.
Proof.
  destruct p as [|c p]; [discriminate|]. intros H.
  unfold os.resolve, os.path_join. rewrite H.
  destruct (String.eqb_spec (String c p) ".") as [Heq|_]; [|split; reflexivity].
  rewrite Heq in H. discriminate.
Qed.

Lemma chdir_absolute (orig : string) (w : World) :
  Py.startswith "/" orig = true ->
  os.chdir orig w
  = if os.is_dir w orig
    then (Return tt, mkWorld orig (dirs w) (files w) (stdout w) (spawned w))
    else (Raise (mkExc OSError ("No such file or directory: " ++ orig)), w).
Proof.
  intros H. unfold os.chdir.
  destruct (resolve_absolute w orig H) as [-> ->]. reflexivity.
Qed.

(** The guaranteed release: a body that ends, followed by the change back
    to an absolute directory that still exists, leaves the process there. *)
Lemma try_finally_chdir_restores {A : Type} (body : M A) (orig : string)
    (w : World) :
  ends body -> Py.startswith "/" orig = true ->
  os.is_dir (snd (try_finally body (os.chdir orig) w)) orig = true ->
  cwd (snd (try_finally body (os.chdir orig) w)) = orig.
Proof.
  intros Hends Habs. unfold try_finally. specialize (Hends w).
  destruct (body w) as [[a | e |] w0]; simpl in Hends; [| |congruence];
    rewrite (chdir_absolute orig w0 Habs);
    destruct (os.is_dir w0 orig) eqn:Hdir; simpl; congruence.
Qed.

(** The part of [download_songs] under [try], with its [except] clauses. *)
Lemma download_attempt_ends (env : Env) (links : list string) :
  ends
    (try_except
       (let cmd :=
          ([sys_executable env; "-m"; "yt_dlp"; "-f"; "bestaudio[ext=m4a]";
            "--output"; "%(title)s.%(ext)s"] ++ links)%list in
        print (Py.NL ++ "Executing command: " ++ Py.join " " (firstn 7 cmd)
               ++ "... [and " ++ Py.str_of_nat (List.length links)
               ++ " URLs]") ;;
        print (str_repeat "=" 60) ;;
        subprocess_run env cmd ;;
        print (str_repeat "=" 60) ;;
        print "Download completed successfully!" ;;
        here <- os.path_abspath "." ;;
        print ("Songs downloaded to: " ++ here) ;;
        names <- os.listdir "." ;;
        let downloaded_files := filter (Py.endswith ".m4a") names in
        match downloaded_files with
        | [] => ret tt
        | _ =>
            print (Py.NL ++ "Downloaded "
                   ++ Py.str_of_nat (List.length downloaded_files)
                   ++ " songs:") ;;
            for_each downloaded_files (fun file => print ("  - " ++ file))
        end ;;
        ret true)
       (fun e =>
          match exc_class e with
          | CalledProcessError =>
              Some (print ("Download failed with error: " ++ exc_str e) ;;
                    ret false)
          | KeyboardInterrupt =>
              Some (print (Py.NL ++ "Download interrupted by user") ;;
                    ret false)
          | _ => None
          end)).
Proof.
  apply ends_try_except.
  - cbv zeta. ends_steps.
    match goal with
    | |- context [filter ?keep ?names] => destruct (filter keep names)
    end; ends_steps.
  - intros e h. destruct (exc_class e); intros H; inversion H; ends_steps.
Qed.

Lemma download_songs_run_restores (env : Env) (links : list string)
    (playlist_folder : string) (w w' : World) (r : Outcome bool) :
  Py.startswith "/" (cwd w) = true ->
  download_songs env links playlist_folder w = (r, w') ->
  os.is_dir w' (cwd w) = true ->
  cwd w' = cwd w.
Proof.
  intros Habs. unfold download_songs.
  destruct (match links with [] => true | _ => false end
            || negb (Py.truthy playlist_folder)).
  - intros H _. inversion H. reflexivity.
  - unfold bind at 1 2 3 4. rewrite !print_run, !printed_printed.
    cbn [app os.getcwd]. unfold bind at 1.
    set (w1 := printed _ w). change (cwd w1) with (cwd w).
    unfold os.chdir at 1.
    destruct (Py.truthy playlist_folder
              && os.is_dir w1 (os.resolve w1 playlist_folder)).
    + set (w2 := mkWorld _ _ _ _ _). intros Hrun Hdir.
      pose proof (try_finally_chdir_restores _ (cwd w) w2
                    (download_attempt_ends env links) Habs) as Hback.
      match type of Hrun with
      | ?run = _ =>
          change (os.is_dir (snd run) (cwd w) = true -> cwd (snd run) = cwd w)
            in Hback
      end.
      rewrite Hrun in Hback. apply Hback. exact Hdir.
    + intros H _. inversion H. reflexivity.
Qed.

(** C7: whichever way [download_songs] ends -- the early return, a folder
    it cannot enter, success, a non-zero exit of the utility, an interrupt
    of the user, or any other exception under [try] -- the working
    directory afterwards is the one before, provided that directory (an
    absolute path, as [os.getcwd] reports it) still exists when the call
    ends. *)
Theorem download_songs_restores_cwd (env : Env) (links : list string)
    (playlist_folder : string) (w : World) :
  Py.startswith "/" (cwd w) = true ->
  os.is_dir (snd (download_songs env links playlist_folder w)) (cwd w) = true ->
  cwd (snd (download_songs env links playlist_folder w)) = cwd w.
Proof.
  intros Habs Hdir.
  destruct (download_songs env links playlist_folder w) as [r w'] eqn:Hrun.
  exact (download_songs_run_restores env links playlist_folder w w' r
           Habs Hrun Hdir).
Qed.

Lemma download_songs_restores_cwd_witness :
  Py.startswith "/" (cwd demo_world_with_folder) = true
  /\ cwd (snd (download_songs
                 (failing_env UserInterrupt)
                 ["https://www.youtube.com/watch?v=idA"] "Mix"
                 demo_world_with_folder))
     = "/home/u".
Proof.
  split; [reflexivity|].
  apply (download_songs_restores_cwd
           (failing_env UserInterrupt)
           ["https://www.youtube.com/watch?v=idA"] "Mix"
           demo_world_with_folder); reflexivity.
Defined.

(** The three ways the download itself can end, in the demo world: the
    value returned, the last line printed and the directory afterwards. *)
Example download_songs_exit_paths :
  let run env :=
    download_songs env ["https://www.youtube.com/watch?v=idA"] "Mix"
      demo_world_with_folder in
  let summary (r : Outcome bool * World) :=
    (fst r, last (stdout (snd r)) EmptyString, cwd (snd r)) in
  summary (run demo_env) = (Return true, "  - Song A.m4a", "/home/u")
  /\ summary (run (failing_env (Exit 1)))
     = (Return false,
        "Download failed with error: Command '['/usr/bin/python3', '-m', "
        ++ "'yt_dlp', '-f', 'bestaudio[ext=m4a]', '--output', "
        ++ "'%(title)s.%(ext)s', 'https://www.youtube.com/watch?v=idA']' "
        ++ "returned non-zero exit status 1.",
        "/home/u")
  /\ summary (run (failing_env UserInterrupt))
     = (Return false, Py.NL ++ "Download interrupted by user", "/home/u").
Proof. vm_compute. repeat split; reflexivity. Qed.

(** C8, as the claim words it, fails: on an empty list of links the call
    does return at once, but with [False], the value it also returns when
    the download fails, and after printing a complaint; it does not report
    success. *)
Lemma download_songs_nothing_to_do_is_failure :
  download_songs demo_env [] "Mix" demo_world_with_folder
  = (Return false,
     printed ["No YouTube links or playlist folder specified"]
       demo_world_with_folder)
  /\ fst (download_songs demo_env [] "Mix" demo_world_with_folder)
     <> Return true
  /\ fst (download_songs demo_env [] "Mix" demo_world_with_folder)
     = fst (download_songs (failing_env (Exit 1))
              ["https://www.youtube.com/watch?v=idA"] "Mix"
              demo_world_with_folder).
Proof. vm_compute. repeat split; try reflexivity. discriminate. Qed.

(** C8, amended: with an empty list of links (or an empty folder name)
    [download_songs] returns at once: it prints one line and returns
    [False]; the world changes by that line only, so the call neither
    changes the directory nor runs the utility nor touches the disk. *)
Theorem download_songs_nothing_to_do (env : Env) (links : list string)
    (playlist_folder : string) (w : World) :
  links = [] \/ playlist_folder = EmptyString ->
  download_songs env links playlist_folder w
  = (Return false,
     printed ["No YouTube links or playlist folder specified"] w).
Proof.
  intros [-> | ->]; unfold download_songs.
  - reflexivity.
  - destruct links; reflexivity.
Qed.

Lemma download_songs_nothing_to_do_witness :
  download_songs demo_env [] "Mix" demo_world_with_folder
  = (Return false,
     printed ["No YouTube links or playlist folder specified"]
       demo_world_with_folder).
Proof.
  apply (download_songs_nothing_to_do demo_env [] "Mix" demo_world_with_folder).
  left. reflexivity.
Defined.

(* ===================================================================== *)
(** * Resolving the tracks: the frame with the links *)
(* ===================================================================== *)

Lemma map_M_length {A B : Type} (f : A -> M B) (xs : list A) :
  forall (ys : list B) (w w' : World),
    map_M f xs w = (Return ys, w') -> List.length ys = List.length xs.
Proof.
  induction xs as [|x xs IH]; intros ys w w'; simpl.
  - intros H. inversion H. reflexivity.
  - unfold bind. destruct (f x w) as [[y | e |] w1]; try discriminate.
    destruct (map_M f xs w1) as [[ys' | e |] w2] eqn:Hrest; try discriminate.
    intros H. inversion H. simpl. f_equal. exact (IH ys' w1 w2 Hrest).
Qed.

Lemma map_M_map {A B C : Type} (f : B -> M C) (g : A -> B) (xs : list A)
    (w : World) :
  map_M f (map g xs) w = map_M (fun x => f (g x)) xs w.
Proof.
  revert w. induction xs as [|x xs IH]; intros w; simpl; [reflexivity|].
  unfold bind. destruct (f (g x) w) as [[y | e |] w1]; try reflexivity.
  rewrite IH. reflexivity.
Qed.

Lemma map_M_ext {A B : Type} (f g : A -> M B) (xs : list A) (w : World) :
  (forall x w0, f x w0 = g x w0) -> map_M f xs w = map_M g xs w.
Proof.
  intros Hfg. revert w. induction xs as [|x xs IH]; intros w; simpl;
    [reflexivity|].
  unfold bind. rewrite Hfg. destruct (g x w) as [[y | e |] w1]; try reflexivity.
  rewrite IH. reflexivity.
Qed.

(** The search of a row of the exported frame is the search for its track. *)
Lemma search_row_track (env : Env) (tracks : list Track) (track : Track)
    (w : World) :
  tracks <> [] ->
  search_row env (pd.from_records (map track_info tracks)) (track_row track) w
  = resolve_track env track w.
Proof.
  intros Hne. unfold search_row, pd.row_get.
  rewrite from_records_columns. destruct tracks; [congruence|]. reflexivity.
Qed.

Lemma from_records_tracks (tracks : list Track) :
  tracks <> [] ->
  pd.from_records (map track_info tracks)
  = pd.mkFrame export_columns (map track_row tracks).
Proof.
  intros Hne.
  pose proof (from_records_columns tracks) as Hc.
  pose proof (from_records_rows tracks) as Hr.
  destruct (pd.from_records (map track_info tracks)) as [cols rws].
  simpl in *. subst. destruct tracks; [congruence | reflexivity].
Qed.

(** The two columns of the frame that [apply] builds from the pairs. *)
Lemma setitem2_pairs (df : pd.DataFrame) (key1 key2 : string)
    (found : list (pd.Cell * pd.Cell)) (w : World) :
  pd.setitem2 df key1 key2
    (pd.mkFrame ["0"; "1"] (map (fun p => [fst p; snd p]) found)) w
  = (Return (pd.set_column (pd.set_column df key1 (map fst found))
               key2 (map snd found)), w).
Proof.
  unfold pd.setitem2, pd.column, bind. cbn.
  rewrite !map_map. cbn. reflexivity.
Qed.

Lemma rows_with_results (tracks : list Track)
    (found : list (pd.Cell * pd.Cell)) :
  List.length found = List.length tracks ->
  map (fun rc : list pd.Cell * pd.Cell => (fst rc ++ [snd rc])%list)
    (combine
       (map (fun rc : list pd.Cell * pd.Cell => (fst rc ++ [snd rc])%list)
          (combine (map track_row tracks) (map fst found)))
       (map snd found))
  = map (fun tm => result_row (fst tm) (snd tm)) (combine tracks found).
Proof.
  revert found. induction tracks as [|t tracks IH]; intros [|m found] Hlen;
    simpl in *; try reflexivity; try discriminate.
  f_equal. apply IH. lia.
Qed.

(** [add_youtube_columns] on the frame of some tracks, step by step: it
    searches for each track once, in order, and puts the two results behind
    the two columns of the track. *)
Lemma add_youtube_columns_steps (env : Env) (tracks : list Track) (w : World) :
  tracks <> [] ->
  add_youtube_columns env (pd.from_records (map track_info tracks)) w
  = match map_M (resolve_track env) tracks w with
    | (Return found, w1) =>
        (Return (pd.mkFrame result_columns
                   (map (fun tm => result_row (fst tm) (snd tm))
                      (combine tracks found))), w1)
    | (Raise e, w1) => (Raise e, w1)
    | (Diverge, w1) => (Diverge, w1)
    end.
Proof.
  intros Hne. rewrite (from_records_tracks tracks Hne).
  unfold add_youtube_columns, pd.progress_apply, pd.apply_rows.
  cbn [pd.columns pd.rows export_columns].
  destruct (map track_row tracks) as [|r rs] eqn:Hrows;
    [destruct tracks; [congruence | discriminate]|].
  rewrite <- Hrows. clear Hrows r rs.
  unfold bind at 1 2. rewrite map_M_map.
  rewrite (map_M_ext _ (resolve_track env))
    by (intros x w0; rewrite <- (from_records_tracks tracks Hne);
        apply search_row_track; exact Hne).
  destruct (map_M (resolve_track env) tracks w) as [[found | e |] w1] eqn:Hfound;
    try reflexivity.
  cbn [ret]. rewrite setitem2_pairs.
  pose proof (map_M_length _ _ _ _ _ Hfound) as Hlen.
  unfold pd.set_column. cbn. unfold result_columns. do 3 f_equal.
  apply (rows_with_results tracks found Hlen).
Qed.

(** What [add_youtube_columns] returns on the frame of [tracks], when it
    returns; on no tracks at all it raises. *)
Lemma add_youtube_columns_run (env : Env) (tracks : list Track)
    (w w' : World) (df : pd.DataFrame) :
  add_youtube_columns env (pd.from_records (map track_info tracks)) w
  = (Return df, w') ->
  exists found : list (pd.Cell * pd.Cell),
    map_M (resolve_track env) tracks w = (Return found, w')
    /\ List.length found = List.length tracks
    /\ tracks <> []
    /\ df = pd.mkFrame result_columns
              (map (fun tm => result_row (fst tm) (snd tm))
                 (combine tracks found)).
Proof.
  destruct tracks as [|t0 tracks0] eqn:Htracks; [discriminate|].
  rewrite <- Htracks. assert (Hne : tracks <> []) by congruence. clear Htracks.
  rewrite (add_youtube_columns_steps env tracks w Hne).
  destruct (map_M (resolve_track env) tracks w) as [[found | e |] w1] eqn:Hfound;
    try discriminate.
  intros H. inversion H. subst. exists found. repeat split; try assumption.
  exact (map_M_length _ _ _ _ _ Hfound).
Qed.

(** Searches that are not interrupted give every collection with a track
    its frame of results. *)
Lemma add_youtube_columns_returns (env : Env) (tracks : list Track) (w : World) :
  tracks <> [] ->
  (forall query e, youtube_search env query = inl e -> is_Exception e = true) ->
  exists (df : pd.DataFrame) (w1 : World),
    add_youtube_columns env (pd.from_records (map track_info tracks)) w
    = (Return df, w1).
Proof.
  intros Hne Hexc. rewrite (add_youtube_columns_steps env tracks w Hne).
  assert (Hfound : exists found w1,
            map_M (resolve_track env) tracks w = (Return found, w1)).
  { clear Hne. revert w. induction tracks as [|t tracks IH]; intros w.
    - eexists _, _. reflexivity.
    - cbn [map_M]. unfold bind.
      destruct (get_youtube_link_returns env (track_name t)
                  (Some (artists_cell t)) w (fun e => Hexc _ e))
        as (r & w0 & Hr & _).
      unfold resolve_track at 1. rewrite Hr.
      destruct (IH w0) as (found & w1 & ->). eexists _, _. reflexivity. }
  destruct Hfound as (found & w1 & ->). eexists _, _. reflexivity.
Qed.

(* ===================================================================== *)
(** * Writing the table *)
(* ===================================================================== *)

Lemma read_file_written (p text : string) (w : World) :
  os.read_file (os.write_file p text w) p = Some text.
Proof.
  unfold os.read_file, os.write_file. simpl. rewrite String.eqb_refl.
  reflexivity.
Qed.

Lemma to_csv_returned (env : Env) (df : pd.DataFrame) (path : string)
    (w w' : World) :
  to_csv env df path w = (Return tt, w') ->
  w' = os.write_file (os.resolve w path) (pd.csv_text df) w.
Proof.
  unfold to_csv.
  destruct (negb (os.is_dir w (os.path_dirname (os.resolve w path))));
    [discriminate|].
  destruct (fs_fault env (os.resolve w path)); [discriminate|].
  destruct (write_interrupt env (os.resolve w path)); [discriminate|].
  intros H. inversion H. reflexivity.
Qed.

Lemma csv_records_of_results (tracks : list Track)
    (found : list (pd.Cell * pd.Cell)) :
  pd.csv_records
    (pd.mkFrame result_columns
       (map (fun tm => result_row (fst tm) (snd tm)) (combine tracks found)))
  = result_columns
      :: map (fun tm => csv_row (fst tm) (snd tm)) (combine tracks found).
Proof.
  unfold pd.csv_records. cbn [pd.columns pd.rows]. f_equal.
  rewrite map_map. apply map_ext. intros [t [link video_title]]. reflexivity.
Qed.

(* ===================================================================== *)
(** * The text of the table *)
(* ===================================================================== *)

(** The text of the demo table: the artists of the first track and the name
    of the second are quoted for their commas, the cells of the tracks
    without a match are empty. *)
Example demo_csv_text :
  pd.csv_text demo_results
  = "Track Name,Artist Name(s),YouTube Link,YouTube Video Title" ++ Py.NL
    ++ "Song A," ++ String Py.dquote ("X, Y" ++ String Py.dquote
         (",https://www.youtube.com/watch?v=idA,Song A (Lyrics)" ++ Py.NL))
    ++ String Py.dquote ("Song, B" ++ String Py.dquote (",Z,," ++ Py.NL))
    ++ "Song C,,," ++ Py.NL.
Proof. reflexivity. Qed.

(** A track without a match ends its line in two empty fields. *)
Lemma csv_line_unresolved (track : Track) :
  pd.csv_line (csv_row track (None, None))
  = pd.csv_field (track_name track) ++ ","
    ++ pd.csv_field (artists_cell track) ++ ",," ++ Py.NL.
Proof.
  unfold pd.csv_line, csv_row. cbn [pd.lone_empty].
  cbn [map fst snd Py.join pd.csv_field].
  change (pd.csv_field EmptyString) with EmptyString.
  rewrite !PyFacts.append_assoc. reflexivity.
Qed.

(* ===================================================================== *)
(** * The end of the run: download or no links *)
(* ===================================================================== *)

Lemma no_present_cells (cells : list pd.Cell) :
  (forall c, In c cells -> c = None) ->
  filter pd.notna cells = [] /\ pd.present cells = [].
Proof.
  induction cells as [|c cells IH]; intros H; [split; reflexivity|].
  rewrite (H c (or_introl eq_refl)). simpl. apply IH.
  intros c' Hc'. apply H. right. exact Hc'.
Qed.

Lemma link_column_of_results (rows : list (list pd.Cell)) (w : World) :
  pd.column (pd.mkFrame result_columns rows) "YouTube Link" w
  = (Return (map (fun row => nth 2 row None) rows), w).
Proof. reflexivity. Qed.

(** The end of the run on a frame of results without any link. *)
Lemma download_stage_without_links (env : Env) (tracks : list Track)
    (w w1 : World) (df : pd.DataFrame) (playlist_folder : string)
    (w2 : World) :
  add_youtube_columns env (pd.from_records (map track_info tracks)) w
  = (Return df, w1) ->
  (forall row, In row (pd.rows df) -> nth 2 row None = None) ->
  download_stage env df playlist_folder w2
  = (Return false,
     printed ["Success rate: "
              ++ format_percent env 0 (List.length tracks);
              no_links_message] w2).
Proof.
  intros Hsearch Hnone.
  destruct (add_youtube_columns_run env tracks w w1 df Hsearch)
    as (found & _ & Hlen & _ & ->).
  cbn [pd.rows] in Hnone. unfold download_stage.
  rewrite (bind_run_return _ _ w2 w2 _ (link_column_of_results _ w2)).
  cbv beta.
  match goal with
  | |- context [filter pd.notna ?col] => set (cells := col)
  end.
  assert (Hcells : forall c, In c cells -> c = None).
  { intros c Hc. apply in_map_iff in Hc as (row & <- & Hrow).
    apply Hnone. exact Hrow. }
  destruct (no_present_cells cells Hcells) as [-> ->].
  assert (Hcount : List.length cells = List.length tracks).
  { unfold cells. rewrite !length_map, length_combine. lia. }
  unfold pd.Cell in *. unfold bind.
  rewrite Hcount, !print_run, printed_printed. reflexivity.
Qed.


(** The message of the run without links is none of the lines on which the
    other failures of the run end. *)
Lemma no_links_message_differs (reason : string) :
  no_links_message
  <> "Failed to export playlist. Please check your URL and try again."
  /\ no_links_message <> "Failed to create playlist folder"
  /\ no_links_message <> "No YouTube links or playlist folder specified"
  /\ no_links_message <> "Download failed with error: " ++ reason
  /\ no_links_message <> Py.NL ++ "Download interrupted by user".
Proof.
  unfold no_links_message, Py.NL. cbn [String.append].
  repeat split; discriminate.
Qed.

(** With a link in the table the end of the run goes on to the download. *)
Lemma links_start_download (env : Env) (df : pd.DataFrame)
    (playlist_folder : string) (cells : list pd.Cell) (link : string)
    (links : list string) (w : World) :
  pd.column df "YouTube Link" w = (Return cells, w) ->
  pd.present cells = link :: links ->
  exists w' : World,
    download_stage env df playlist_folder w
    = download_songs env (link :: links) playlist_folder w'
    /\ cwd w' = cwd w /\ dirs w' = dirs w /\ files w' = files w
    /\ spawned w' = spawned w.
Proof.
  intros Hcol Hlinks. unfold download_stage.
  rewrite (bind_run_return _ _ w w cells Hcol).
  unfold bind at 1. rewrite print_run. rewrite Hlinks.
  unfold bind at 1 2 3 4 5 6 7. rewrite !print_run, !printed_printed.
  eexists. split; [reflexivity|]. repeat split.
Qed.

(* ===================================================================== *)
(** * Steps that stay in place *)
(* ===================================================================== *)

Lemma stays_ret {A : Type} (a : A) : stays (ret a).
Proof. intros w. split; reflexivity. Qed.

Lemma stays_raise {A : Type} (e : PyExc) : stays (@raise A e).
Proof. intros w. split; reflexivity. Qed.

Lemma stays_diverge {A : Type} : stays (@diverge A).
Proof. intros w. split; reflexivity. Qed.

Lemma stays_print (s : string) : stays (print s).
Proof. intros w. split; reflexivity. Qed.

Lemma stays_call {A : Type} (answer : PyExc + A) : stays (call answer).
Proof. destruct answer; [apply stays_raise | apply stays_ret]. Qed.

Lemma stays_bind {A B : Type} (m : M A) (k : A -> M B) :
  stays m -> (forall a, stays (k a)) -> stays (bind m k).
Proof.
  intros Hm Hk w. unfold bind. specialize (Hm w).
  destruct (m w) as [[a | e |] w']; simpl in *; try exact Hm.
  destruct Hm as [Hc0 Hs0]. destruct (Hk a w') as [Hc Hs]. split; congruence.
Qed.

Lemma stays_try_except {A : Type} (body : M A)
    (handler : PyExc -> option (M A)) :
  stays body -> (forall e h, handler e = Some h -> stays h) ->
  stays (try_except body handler).
Proof.
  intros Hb Hh w. unfold try_except. specialize (Hb w).
  destruct (body w) as [[a | e |] w']; simpl in *; try exact Hb.
  destruct (handler e) as [h|] eqn:He; [|exact Hb].
  destruct Hb as [Hc0 Hs0]. destruct (Hh e h He w') as [Hc Hs].
  split; congruence.
Qed.

Lemma stays_map_M {A B : Type} (f : A -> M B) (xs : list A) :
  (forall x, stays (f x)) -> stays (map_M f xs).
Proof.
  intros Hf. induction xs as [|x xs IH]; simpl.
  - apply stays_ret.
  - apply stays_bind; [apply Hf | intros y].
    apply stays_bind; [exact IH | intros ys; apply stays_ret].
Qed.

Lemma stays_list_index {A : Type} (xs : list A) (i : nat) :
  stays (list_index xs i).
Proof.
  unfold list_index. destruct (nth_error xs i);
    [apply stays_ret | apply stays_raise].
Qed.

Lemma stays_makedirs (env : Env) (name : string) : stays (os.makedirs env name).
Proof.
  intros w. unfold os.makedirs.
  destruct (negb (Py.truthy name)); [split; reflexivity|].
  destruct (os.is_dir w (os.resolve w name)); [split; reflexivity|].
  destruct (os.is_file w (os.resolve w name)); [split; reflexivity|].
  destruct (fs_fault env (os.resolve w name)); split; reflexivity.
Qed.

Lemma stays_to_csv (env : Env) (df : pd.DataFrame) (path : string) :
  stays (to_csv env df path).
Proof.
  intros w. unfold to_csv.
  destruct (negb (os.is_dir w (os.path_dirname (os.resolve w path))));
    [split; reflexivity|].
  destruct (fs_fault env (os.resolve w path)); [split; reflexivity|].
  destruct (write_interrupt env (os.resolve w path)); split; reflexivity.
Qed.

Lemma stays_column (df : pd.DataFrame) (key : string) :
  stays (pd.column df key).
Proof.
  unfold pd.column. destruct (pd.position key (pd.columns df));
    [apply stays_ret | apply stays_raise].
Qed.

Lemma stays_row_get (df : pd.DataFrame) (row : list pd.Cell) (key : string) :
  stays (pd.row_get df row key).
Proof.
  unfold pd.row_get. destruct (pd.position key (pd.columns df));
    [apply stays_ret | apply stays_raise].
Qed.

Create HintDb stays.

#[local] Hint Resolve stays_ret stays_raise stays_diverge stays_print
  stays_call stays_list_index stays_makedirs stays_to_csv stays_column
  stays_row_get : stays.

Ltac stays_steps :=
  repeat first
    [ solve [auto with stays]
    | apply stays_bind; [|intros ?]
    | apply stays_map_M; intros ? ].

Lemma stays_select (df : pd.DataFrame) (keys : list string) :
  stays (pd.select df keys).
Proof. unfold pd.select. stays_steps. Qed.

Lemma stays_while_next (env : Env) (fuel : nat) :
  forall (results : Page) (tracks : list PlaylistItem),
    stays (while_next env fuel results tracks).
Proof.
  induction fuel as [|fuel IH]; intros results tracks; simpl;
    destruct (page_next results) as [c|]; try apply stays_ret;
    destruct (Py.truthy c); try apply stays_ret.
  - apply stays_diverge.
  - apply stays_bind; [apply stays_call | intros p; apply IH].
Qed.

Lemma stays_report_error (e : PyExc)
    (h : M (option pd.DataFrame * option string)) :
  report_error e = Some h -> stays h.
Proof.
  unfold report_error. destruct (is_Exception e); [|discriminate].
  intros H. inversion H. stays_steps.
Qed.

Lemma stays_export_spotify_playlist (env : Env) (fuel : nat) (url : string) :
  stays (export_spotify_playlist env fuel url).
Proof.
  unfold export_spotify_playlist, url_id, export_album, export_playlist.
  destruct (Py.contains "album/" url); [|destruct (Py.contains "playlist/" url)].
  - stays_steps. apply stays_try_except; [stays_steps|].
    apply stays_report_error.
  - stays_steps. apply stays_try_except; [|apply stays_report_error].
    stays_steps. apply stays_while_next.
  - stays_steps.
Qed.

Lemma stays_get_youtube_link (env : Env) (song : string)
    (artist : option string) :
  stays (get_youtube_link env song artist).
Proof.
  unfold get_youtube_link. apply stays_bind.
  - apply stays_try_except.
    + stays_steps. destruct a; stays_steps.
    + intros e h. destruct (is_Exception e); intros H; inversion H.
      stays_steps.
  - intros [result|]; stays_steps.
Qed.

#[local] Hint Resolve stays_get_youtube_link : stays.

Lemma stays_create_playlist_folder (env : Env) (name : string) :
  stays (create_playlist_folder env name).
Proof.
  unfold create_playlist_folder. apply stays_try_except; [stays_steps|].
  intros e h. destruct (is_Exception e); intros H; inversion H. stays_steps.
Qed.

Lemma stays_add_youtube_columns (env : Env) (df : pd.DataFrame) :
  stays (add_youtube_columns env df).
Proof.
  unfold add_youtube_columns, pd.progress_apply, pd.apply_rows, pd.setitem2,
    search_row.
  apply stays_bind.
  - destruct (pd.columns df); [apply stays_raise|].
    destruct (pd.rows df); [apply stays_ret|]. stays_steps.
  - intros found. destruct (pd.columns found) as [|c1 [|c2 [|c3 cs]]];
      stays_steps.
Qed.

Lemma stays_save_results (env : Env) (df : pd.DataFrame) (folder : string) :
  stays (save_results env df folder).
Proof. unfold save_results. stays_steps. Qed.

(* ===================================================================== *)
(** * A run without any hit *)
(* ===================================================================== *)

Lemma quiet_bind {A : Type} (m : M A) (k : A -> M bool) (w : World) :
  stays m ->
  (forall a w', m w = (Return a, w') -> quiet_at (k a) w') ->
  quiet_at (bind m k) w.
Proof.
  intros Hm Hk. unfold quiet_at, bind. destruct (Hm w) as [Hc Hs].
  destruct (m w) as [[a | e |] w'] eqn:Hrun; simpl in *.
  - destruct (Hk a w' eq_refl) as (Hc' & Hs' & Hr).
    repeat split; congruence.
  - repeat split; try assumption. discriminate.
  - repeat split; try assumption. discriminate.
Qed.

Lemma quiet_failure (lines : list string) (w : World) :
  quiet_at (fun w0 => (Return false, printed lines w0)) w.
Proof. repeat split. discriminate. Qed.

Lemma quiet_print_false (s : string) (w : World) :
  quiet_at (print s ;; ret false) w.
Proof. repeat split. discriminate. Qed.

(** Whatever the export returns as a frame is the frame of some tracks. *)
Lemma export_returns_track_frame (env : Env) (fuel : nat) (url : string)
    (w w' : World) (df : pd.DataFrame) (name : option string) :
  export_spotify_playlist env fuel url w = (Return (Some df, name), w') ->
  exists tracks : list Track, df = pd.from_records (map track_info tracks).
Proof.
  unfold export_spotify_playlist.
  assert (Hhandler : forall e w0,
            match report_error e with
            | Some h => h w0
            | None => (Raise e, w0)
            end <> (Return (Some df, name), w')).
  { intros e w0. unfold report_error.
    destruct (is_Exception e); cbn; discriminate. }
  destruct (Py.contains "album/" url); [|destruct (Py.contains "playlist/" url)].
  - unfold bind at 1.
    destruct (url_id "album/" url w) as [[id | e |] w0]; try discriminate.
    unfold export_album, try_except, bind, call.
    destruct (sp_album env id) as [e | album]; cbn.
    + intros H. exfalso. exact (Hhandler e w0 H).
    + intros H. inversion H. eexists. reflexivity.
  - unfold bind at 1.
    destruct (url_id "playlist/" url w) as [[id | e |] w0]; try discriminate.
    unfold export_playlist, try_except, bind, call.
    destruct (sp_playlist env id) as [e | playlist]; cbn;
      [intros H; exfalso; exact (Hhandler e w0 H)|].
    destruct (sp_playlist_tracks env id) as [e | first]; cbn;
      [intros H; exfalso; exact (Hhandler e _ H)|].
    destruct (while_next env fuel first (page_items first) _)
      as [[tracks | e |] w1]; cbn.
    + intros H. inversion H. eexists. apply f_equal.
      apply playlist_track_data_present.
    + intros H. exfalso. exact (Hhandler e w1 H).
    + discriminate.
  - cbn. discriminate.
Qed.

Lemma get_youtube_link_finds_nothing (env : Env) (song : string)
    (artist : option string) (w w' : World)
    (result : option string * option string) :
  finds_nothing env ->
  get_youtube_link env song artist w = (Return result, w') ->
  result = (None, None).
Proof.
  intros Hnone.
  destruct (Hnone (search_query song artist)) as [H | (e & H & He)].
  - rewrite (get_youtube_link_no_hit env song artist w H).
    intros Heq. inversion Heq. reflexivity.
  - rewrite (get_youtube_link_error env song artist e w H He).
    intros Heq. inversion Heq. reflexivity.
Qed.

Lemma map_M_each {A B : Type} (f : A -> M B) (P : B -> Prop) (xs : list A) :
  (forall x w w' y, f x w = (Return y, w') -> P y) ->
  forall (ys : list B) (w w' : World),
    map_M f xs w = (Return ys, w') -> Forall P ys.
Proof.
  intros Hf. induction xs as [|x xs IH]; intros ys w w'; simpl.
  - intros H. inversion H. constructor.
  - unfold bind. destruct (f x w) as [[y | e |] w1] eqn:Hx; try discriminate.
    destruct (map_M f xs w1) as [[ys' | e |] w2] eqn:Hrest; try discriminate.
    intros H. inversion H. constructor.
    + exact (Hf x w w1 y Hx).
    + exact (IH ys' w1 w2 Hrest).
Qed.

(** Without hits no row of the frame holds a link. *)
Lemma no_hits_no_links (env : Env) (tracks : list Track) (w w1 : World)
    (df : pd.DataFrame) :
  finds_nothing env ->
  add_youtube_columns env (pd.from_records (map track_info tracks)) w
  = (Return df, w1) ->
  forall row, In row (pd.rows df) -> nth 2 row None = None.
Proof.
  intros Hnone Hsearch.
  destruct (add_youtube_columns_run env tracks w w1 df Hsearch)
    as (found & Hfound & _ & _ & ->).
  assert (Hall : Forall (fun m => m = (None, None)) found).
  { apply (map_M_each (resolve_track env) _ tracks) with (w := w) (w' := w1);
      [|exact Hfound].
    intros t w0 w0' y. apply get_youtube_link_finds_nothing. exact Hnone. }
  intros row Hrow. cbn [pd.rows] in Hrow.
  apply in_map_iff in Hrow as ([t m] & <- & Hin).
  apply in_combine_r in Hin. rewrite Forall_forall in Hall.
  rewrite (Hall m Hin). reflexivity.
Qed.

(** With a search that has no hit for any query, a whole run of
    [process_playlist], however far it gets, leaves the working directory
    alone, never starts the download utility and never reports success. *)
Theorem process_playlist_without_hits (env : Env) (fuel : nat) (url : string)
    (w : World) :
  finds_nothing env -> quiet_at (process_playlist env fuel url) w.
Proof.
  intros Hnone. unfold process_playlist.
  apply quiet_bind; [apply stays_print | intros _ w1 _].
  apply quiet_bind; [apply stays_export_spotify_playlist|].
  intros [[df0|] [name|]] w2 Hexport; try apply quiet_print_false.
  destruct (export_returns_track_frame _ _ _ _ _ _ _ Hexport) as [tracks ->].
  apply quiet_bind; [apply stays_create_playlist_folder | intros folder w3 _].
  destruct (truthy_folder folder) as [playlist_folder|];
    [|apply quiet_print_false].
  do 4 (apply quiet_bind; [apply stays_print | intros _ ? _]).
  apply quiet_bind; [apply stays_add_youtube_columns | intros df w8 Hsearch].
  apply quiet_bind; [apply stays_print | intros _ w9 _].
  apply quiet_bind; [apply stays_select | intros shown w10 _].
  apply quiet_bind; [apply stays_print | intros _ w11 _].
  apply quiet_bind; [apply stays_save_results | intros _ w12 _].
  unfold quiet_at.
  rewrite (download_stage_without_links env tracks _ w8 df playlist_folder
             w12 Hsearch (no_hits_no_links env tracks _ w8 df Hnone Hsearch)).
  repeat split. discriminate.
Qed.

(* ===================================================================== *)
(** * Whole runs *)
(* ===================================================================== *)

(** A frame without tracks stops the run at the search: the frame has no
    columns, and the step that is to add the two columns raises. *)
Lemma add_youtube_columns_without_tracks (env : Env) (w : World) :
  exists e : PyExc,
    add_youtube_columns env (pd.from_records []) w = (Raise e, w)
    /\ is_Exception e = true.
Proof. eexists. split; reflexivity. Qed.

(** The demo playlist from the URL to the download: two pages, one entry
    without a track, one hit, one search that fails, one without a hit. *)
Example process_playlist_demo_run :
  let run := process_playlist demo_env 1 demo_playlist_url demo_world in
  fst run = Return true
  /\ cwd (snd run) = "/home/u"
  /\ os.read_file (snd run)
       "/home/u/My_ Mix abc/spotify_playlist_with_youtube.csv"
     = Some (pd.csv_text demo_results)
  /\ spawned (snd run)
     = [["/usr/bin/python3"; "-m"; "yt_dlp"; "-f"; "bestaudio[ext=m4a]";
         "--output"; "%(title)s.%(ext)s";
         "https://www.youtube.com/watch?v=idA"]].
Proof. vm_compute. repeat split; reflexivity. Qed.

(** The same playlist when the search finds nothing: the table is written,
    the run ends on the no-links message and nothing is downloaded. *)
Example process_playlist_silent_run :
  let run := process_playlist silent_env 1 demo_playlist_url demo_world in
  fst run = Return false
  /\ last (stdout (snd run)) EmptyString = no_links_message
  /\ os.is_file (snd run)
       "/home/u/My_ Mix abc/spotify_playlist_with_youtube.csv" = true
  /\ spawned (snd run) = [].
Proof. vm_compute. repeat split; reflexivity. Qed.

(** A playlist whose only entry has lost its track: the export succeeds
    with a frame of no rows, the folder is made, and the search step
    raises before any table is written. *)
Example process_playlist_empty_run :
  let run := process_playlist empty_env 1 demo_playlist_url demo_world in
  (exists e : PyExc, fst run = Raise e /\ is_Exception e = true)
  /\ os.is_dir (snd run) "/home/u/My_ Mix abc" = true
  /\ files (snd run) = [].
Proof.
  vm_compute. split; [|split; reflexivity].
  eexists. split; reflexivity.
Qed.

(* ===================================================================== *)
(** * More about folder names *)
(* ===================================================================== *)

Lemma replace_length (old new : ascii) (s : string) :
  String.length (Py.replace old new s) = String.length s.
Proof.
  induction s as [|c s IH]; simpl; [reflexivity | rewrite IH; reflexivity].
Qed.

Lemma replace_each_length (chars s : string) :
  String.length (replace_each chars s) = String.length s.
Proof.
  revert s. induction chars as [|d chars IH]; intros s; simpl; [reflexivity|].
  rewrite IH. apply replace_length.
Qed.

Lemma lstrip_length (chars s : string) :
  String.length (Py.lstrip chars s) <= String.length s.
Proof.
  induction s as [|c s IH]; simpl; [lia|].
  destruct (Py.char_in c chars); simpl; lia.
Qed.

Lemma rstrip_length (chars s : string) :
  String.length (Py.rstrip chars s) <= String.length s.
Proof.
  induction s as [|c s IH]; simpl; [lia|].
  destruct (Py.rstrip chars s) as [|d kept].
  - destruct (Py.char_in c chars); simpl; lia.
  - simpl in *. lia.
Qed.

Lemma rstrip_shorter (chars s : string) :
  trailing chars s = true ->
  String.length (Py.rstrip chars s) < String.length s.
Proof.
  induction s as [|c s IH]; [discriminate|].
  destruct s as [|d s].
  - simpl. intros ->. simpl. lia.
  - intros H. change (trailing chars (String c (String d s)))
      with (trailing chars (String d s)) in H.
    specialize (IH H).
    change (Py.rstrip chars (String c (String d s)))
      with (match Py.rstrip chars (String d s) with
            | EmptyString => if Py.char_in c chars then EmptyString
                             else String c EmptyString
            | kept => String c kept
            end).
    destruct (Py.rstrip chars (String d s)) as [|e kept].
    + destruct (Py.char_in c chars); simpl in *; lia.
    + simpl in *. lia.
Qed.

Lemma strip_length (chars s : string) :
  String.length (Py.strip chars s) <= String.length s.
Proof.
  unfold Py.strip.
  pose proof (rstrip_length chars (Py.lstrip chars s)).
  pose proof (lstrip_length chars s). lia.
Qed.

(** The replacements, seen character by character. *)
Lemma replace_map (old : ascii) (s : string) :
  Py.replace old "_" s
  = map_chars (fun c => if Ascii.eqb c old then "_"%char else c) s.
Proof.
  induction s as [|c s IH]; simpl; [reflexivity | rewrite IH; reflexivity].
Qed.

Lemma replace_each_map (chars s : string) :
  replace_each chars s
  = map_chars (fun c => if Py.char_in c chars then "_"%char else c) s.
Proof.
  revert s. induction chars as [|d chars IH]; intros s; simpl.
  - induction s as [|c s IHs]; simpl; [reflexivity | rewrite <- IHs; reflexivity].
  - rewrite IH. clear IH. induction s as [|c s IHs]; simpl; [reflexivity|].
    rewrite IHs. f_equal.
    destruct (Ascii.eqb_spec c d) as [->|Hcd]; simpl.
    + destruct (Py.char_in "_" chars); reflexivity.
    + reflexivity.
Qed.

Lemma all_in_lstrip_empty (chars s : string) :
  Py.lstrip chars s = EmptyString <-> all_in chars s = true.
Proof.
  induction s as [|c s IH]; simpl; [tauto|].
  destruct (Py.char_in c chars); simpl; [exact IH|].
  split; discriminate.
Qed.

Lemma all_in_rstrip_empty (chars s : string) :
  Py.rstrip chars s = EmptyString <-> all_in chars s = true.
Proof.
  induction s as [|c s IH]; simpl; [tauto|].
  destruct (Py.rstrip chars s) as [|d kept].
  - destruct (Py.char_in c chars); simpl.
    + split; [intros _; apply IH; reflexivity | reflexivity].
    + split; discriminate.
  - split; [discriminate|]. intros H. apply andb_true_iff in H as [_ H].
    apply IH in H. discriminate.
Qed.

Lemma all_in_lstrip (chars s : string) :
  all_in chars (Py.lstrip chars s) = all_in chars s.
Proof.
  induction s as [|c s IH]; simpl; [reflexivity|].
  destruct (Py.char_in c chars) eqn:Hc; simpl; [exact IH|].
  rewrite Hc. reflexivity.
Qed.

Lemma all_in_strip_empty (chars s : string) :
  Py.strip chars s = EmptyString <-> all_in chars s = true.
Proof.
  unfold Py.strip. rewrite all_in_rstrip_empty, all_in_lstrip. tauto.
Qed.

Lemma all_in_underscored (s : string) :
  all_in " ." (map_chars underscore_invalid s) = all_in " ." s.
Proof.
  induction s as [|c s IH]; cbn [all_in map_chars]; [reflexivity|].
  rewrite IH. f_equal. unfold underscore_invalid.
  destruct (Py.char_in c invalid_chars) eqn:Hc; [|reflexivity].
  destruct (Py.char_in c " .") eqn:Hs; [exfalso | reflexivity].
  simpl in Hs. rewrite orb_false_r in Hs.
  apply orb_true_iff in Hs as [Hs | Hs]; apply Ascii.eqb_eq in Hs; subst c;
    discriminate.
Qed.

Lemma slice_to_empty (n : nat) (s : string) :
  Py.slice_to (S n) s = EmptyString -> s = EmptyString.
Proof. destruct s; simpl; [reflexivity | discriminate]. Qed.

(** X1: whatever the name, the folder name holds none of the characters of
    [invalid_chars], has at most 100 characters and no more than the name
    had, and does not begin with a space or a dot. *)
Theorem sanitize_filename_safe (filename : string) :
  (forall c : ascii,
     Py.char_in c invalid_chars = true ->
     Py.char_in c (sanitize_filename filename) = false)
  /\ String.length (sanitize_filename filename) <= 100
  /\ String.length (sanitize_filename filename) <= String.length filename
  /\ leading " ." (sanitize_filename filename) = false.
Proof.
  split; [|split; [|split]].
  - intros c. apply sanitize_filename_no_invalid_char.
  - apply sanitize_filename_length.
  - unfold sanitize_filename.
    pose proof (strip_length " ." (replace_each invalid_chars filename)) as Hs.
    rewrite replace_each_length in Hs.
    destruct (Nat.ltb 100 _); [rewrite PyFacts.slice_to_length|]; lia.
  - apply sanitize_filename_no_leading.
Qed.

(** X2: a second pass of [sanitize_filename] changes nothing exactly when
    the first result does not end in a space or a dot. *)
Theorem sanitize_filename_twice (filename : string) :
  sanitize_filename (sanitize_filename filename) = sanitize_filename filename
  <-> trailing " ." (sanitize_filename filename) = false.
Proof.
  split; [|apply sanitize_filename_fixed_point].
  intros Hfix. destruct (trailing " ." (sanitize_filename filename)) eqn:Ht;
    [exfalso | reflexivity].
  set (name := sanitize_filename filename) in *.
  assert (Hlen : String.length (sanitize_filename name) < String.length name).
  { unfold sanitize_filename at 1.
    rewrite (replace_each_absent invalid_chars name)
      by (intros c Hc; apply sanitize_filename_no_invalid_char; exact Hc).
    unfold Py.strip.
    rewrite (PyFacts.lstrip_clean " ." name)
      by apply sanitize_filename_no_leading.
    pose proof (rstrip_shorter " ." name Ht) as Hshort.
    destruct (Nat.ltb 100 _); [rewrite PyFacts.slice_to_length|]; lia. }
  rewrite Hfix in Hlen. lia.
Qed.

(** X3: a name that is already a good folder name -- none of the invalid
    characters, no space or dot at either end, at most 100 characters --
    is returned as it is. *)
Theorem sanitize_filename_keeps_good_names (filename : string) :
  (forall c : ascii,
     Py.char_in c invalid_chars = true -> Py.char_in c filename = false) ->
  leading " ." filename = false ->
  trailing " ." filename = false ->
  String.length filename <= 100 ->
  sanitize_filename filename = filename.
Proof.
  intros Hvalid Hlead Htrail Hlen. unfold sanitize_filename.
  rewrite (replace_each_absent invalid_chars filename Hvalid).
  rewrite (PyFacts.strip_clean " ." filename Hlead Htrail).
  destruct (Nat.ltb_spec 100 (String.length filename)); [lia | reflexivity].
Qed.

Lemma sanitize_filename_keeps_good_names_witness :
  sanitize_filename "Road Trip 2024" = "Road Trip 2024".
Proof.
  apply (sanitize_filename_keeps_good_names "Road Trip 2024").
  - intros c Hc. unfold invalid_chars in Hc. cbn in Hc.
    repeat (apply orb_true_iff in Hc as [Hc | Hc];
            [apply Ascii.eqb_eq in Hc; subst c; reflexivity|]).
    discriminate.
  - reflexivity.
  - reflexivity.
  - vm_compute. lia.
Defined.

Lemma sanitize_filename_empty_iff (filename : string) :
  sanitize_filename filename = EmptyString <-> all_in " ." filename = true.
Proof.
  unfold sanitize_filename. rewrite replace_each_map.
  change (fun c => if Py.char_in c invalid_chars then "_"%char else c)
    with underscore_invalid.
  rewrite <- (all_in_underscored filename), <- all_in_strip_empty.
  destruct (Nat.ltb_spec 100
              (String.length (Py.strip " ." (map_chars underscore_invalid filename))))
    as [Hlong|Hshort]; [|tauto].
  split.
  - intros H. apply slice_to_empty in H. exact H.
  - intros H. rewrite H in Hlong. simpl in Hlong. lia.
Qed.

(** X4: the folder name is empty exactly for the names that consist of
    spaces and dots only (the empty name among them). *)
Theorem sanitize_filename_empty (filename : string) :
  sanitize_filename filename = EmptyString <-> all_in " ." filename = true.
Proof. exact (sanitize_filename_empty_iff filename). Qed.

(* ===================================================================== *)
(** * The playlist's folder *)
(* ===================================================================== *)

Lemma makedirs_outcome (env : Env) (name : string) (w : World) :
  match os.makedirs env name w with
  | (Return _, w') =>
      Py.truthy name = true
      /\ os.is_dir w' (os.resolve w name) = true
      /\ cwd w' = cwd w /\ files w' = files w /\ stdout w' = stdout w
      /\ spawned w' = spawned w
      /\ (os.is_dir w (os.resolve w name) = true -> w' = w)
  | (Raise e, w') => w' = w /\ exc_class e = OSError
  | (Diverge, _) => False
  end.
Proof.
  unfold os.makedirs. destruct (Py.truthy name); cbn [negb];
    [|split; reflexivity].
  destruct (os.is_dir w (os.resolve w name)) eqn:Hdir.
  - repeat split; try assumption; try reflexivity.
  - destruct (os.is_file w (os.resolve w name)); [split; reflexivity|].
    destruct (fs_fault env (os.resolve w name)); [split; reflexivity|].
    repeat split; try discriminate.
    unfold os.is_dir. cbn [dirs existsb]. rewrite String.eqb_refl. reflexivity.
Qed.

(** What a successful [create_playlist_folder] has established. *)
Lemma create_playlist_folder_first (env : Env) (playlist_name : string)
    (w : World) :
  match create_playlist_folder env playlist_name w with
  | (Return (Some folder), w') =>
      folder = sanitize_filename playlist_name
      /\ Py.truthy folder = true
      /\ os.is_dir w' (os.resolve w' folder) = true
  | _ => True
  end.
Proof.
  unfold create_playlist_folder, try_except, bind.
  pose proof (makedirs_outcome env (sanitize_filename playlist_name) w) as H.
  destruct (os.makedirs env (sanitize_filename playlist_name) w)
    as [[[] | e |] w1]; [| |exact I].
  - destruct H as (Ht & Hdir & Hc & _). cbn. repeat split; try assumption.
    unfold os.is_dir, os.resolve in *. cbn [dirs cwd]. rewrite Hc. exact Hdir.
  - destruct (is_Exception e); cbn; exact I.
Qed.

(** X5: [create_playlist_folder] always returns.  When it returns a folder,
    that folder is the sanitized name, it is not empty, it exists as a
    directory afterwards, and nothing else on disk has changed; when it
    returns [None], it has printed the reason and changed nothing else. *)
Theorem create_playlist_folder_outcome (env : Env) (playlist_name : string)
    (w : World) :
  match create_playlist_folder env playlist_name w with
  | (Return (Some folder), w') =>
      folder = sanitize_filename playlist_name
      /\ Py.truthy folder = true
      /\ os.is_dir w' (os.resolve w' folder) = true
      /\ cwd w' = cwd w /\ files w' = files w /\ spawned w' = spawned w
      /\ stdout w' = stdout (printed ["Created folder: " ++ folder] w)
  | (Return None, w') =>
      exists reason : string,
        w' = printed ["Failed to create folder: " ++ reason] w
  | (Raise _, _) => False
  | (Diverge, _) => False
  end.
Proof.
  unfold create_playlist_folder, try_except, bind.
  pose proof (makedirs_outcome env (sanitize_filename playlist_name) w) as H.
  destruct (os.makedirs env (sanitize_filename playlist_name) w)
    as [[[] | e |] w1]; [| |contradiction].
  - destruct H as (Ht & Hdir & Hc & Hf & Ho & Hs & _). cbn.
    repeat split; try assumption.
    + unfold os.is_dir, os.resolve in *. cbn [dirs cwd]. rewrite Hc.
      exact Hdir.
    + rewrite Ho. reflexivity.
  - destruct H as [-> Hclass]. unfold is_Exception. rewrite Hclass. cbn.
    exists (exc_str e). reflexivity.
Qed.

(** X6: a collection whose name consists of spaces and dots only cannot be
    processed: its folder name is empty, [create_playlist_folder] returns
    [None], and [process_playlist] stops there with [False], before any
    search, having made no folder and written no file. *)
Theorem process_playlist_unnamed_collection (env : Env) (fuel : nat)
    (url : string) (w w1 : World) (df : pd.DataFrame) (name : string) :
  export_spotify_playlist env fuel url
    (printed [Py.NL ++ "Exporting Spotify playlist..."] w)
  = (Return (Some df, Some name), w1) ->
  all_in " ." name = true ->
  exists reason : string,
    create_playlist_folder env name w1
    = (Return None, printed ["Failed to create folder: " ++ reason] w1)
    /\ process_playlist env fuel url w
       = (Return false,
          printed ["Failed to create folder: " ++ reason;
                   "Failed to create playlist folder"] w1).
Proof.
  intros Hexport Hname.
  apply sanitize_filename_empty_iff in Hname.
  assert (Hcreate : create_playlist_folder env name w1
                    = (Return None,
                       printed ["Failed to create folder: "
                                ++ "No such file or directory: ''"] w1)).
  { unfold create_playlist_folder. rewrite Hname. reflexivity. }
  eexists. split; [exact Hcreate|].
  unfold process_playlist.
  rewrite (bind_run_return _ _ w _ tt (print_run _ w)).
  rewrite (bind_run_return _ _ _ _ _ Hexport). cbv beta iota.
  rewrite (bind_run_return _ _ _ _ _ Hcreate). cbn [truthy_folder].
  unfold bind. rewrite print_run, printed_printed. reflexivity.
Qed.

Lemma process_playlist_unnamed_collection_witness :
  exists reason : string,
    create_playlist_folder unnamed_env "..."
      (printed [Py.NL ++ "Exporting Spotify playlist..."; "Album: ...";
                "Total tracks: 1"] demo_world)
    = (Return None,
       printed ["Failed to create folder: " ++ reason]
         (printed [Py.NL ++ "Exporting Spotify playlist..."; "Album: ...";
                   "Total tracks: 1"] demo_world))
    /\ process_playlist unnamed_env 0 demo_album_url demo_world
       = (Return false,
          printed ["Failed to create folder: " ++ reason;
                   "Failed to create playlist folder"]
            (printed [Py.NL ++ "Exporting Spotify playlist..."; "Album: ...";
                      "Total tracks: 1"] demo_world)).
Proof.
  apply (process_playlist_unnamed_collection unnamed_env 0 demo_album_url
           demo_world _
           (pd.from_records [track_info (mkTrack "Song A" [mkArtist "X"])])
           "...");
    reflexivity.
Defined.

(** X7: making the folder of a collection a second time succeeds again with
    the same folder and changes nothing on disk. *)
Theorem create_playlist_folder_again (env : Env) (playlist_name : string)
    (w w1 : World) (folder : string) :
  create_playlist_folder env playlist_name w = (Return (Some folder), w1) ->
  create_playlist_folder env playlist_name w1
  = (Return (Some folder), printed ["Created folder: " ++ folder] w1).
Proof.
  intros Hfirst.
  pose proof (create_playlist_folder_first env playlist_name w) as H.
  rewrite Hfirst in H. destruct H as (-> & Ht & Hdir).
  unfold create_playlist_folder, try_except, bind.
  pose proof (makedirs_outcome env (sanitize_filename playlist_name) w1) as H.
  destruct (os.makedirs env (sanitize_filename playlist_name) w1)
    as [[[] | e |] w2] eqn:Hmk.
  - destruct H as (_ & _ & _ & _ & _ & _ & Hsame).
    rewrite (Hsame Hdir). reflexivity.
  - exfalso. unfold os.makedirs in Hmk. rewrite Ht, Hdir in Hmk.
    discriminate.
  - contradiction.
Qed.

Lemma create_playlist_folder_again_witness :
  create_playlist_folder demo_env "Mix"
    (printed ["Created folder: Mix"] demo_world_with_folder)
  = (Return (Some "Mix"),
     printed ["Created folder: Mix"]
       (printed ["Created folder: Mix"] demo_world_with_folder)).
Proof.
  apply (create_playlist_folder_again demo_env "Mix" demo_world_with_folder).
  reflexivity.
Defined.

(* ===================================================================== *)
(** * Paths: the table lands in the folder *)
(* ===================================================================== *)

Lemma contains_char (c : ascii) (s : string) :
  Py.contains (String c EmptyString) s = Py.char_in c s.
Proof.
  unfold Py.contains. induction s as [|d s IH]; [reflexivity|].
  cbn [Py.find Py.startswith Py.char_in].
  destruct (Ascii.eqb c d); cbn; [reflexivity|].
  destruct (Py.find (String c EmptyString) s); cbn in *; exact IH.
Qed.

Lemma upto_last_slash_none (s : string) :
  Py.char_in "/" s = false -> os.upto_last_slash s = EmptyString.
Proof.
  destruct s as [|c s]; [reflexivity|]. intros H.
  cbn [os.upto_last_slash]. rewrite contains_char, H. reflexivity.
Qed.

Lemma upto_last_slash_app (a b : string) :
  Py.char_in "/" b = false ->
  os.upto_last_slash (a ++ String "/" b) = a ++ "/".
Proof.
  intros Hb. induction a as [|c a IH].
  - cbn [String.append os.upto_last_slash]. rewrite contains_char.
    change (Py.char_in "/" (String "/" b)) with true. cbv iota.
    rewrite (upto_last_slash_none b Hb). reflexivity.
  - cbn [String.append os.upto_last_slash]. rewrite contains_char, IH.
    assert (Hin : Py.char_in "/" (String c (a ++ String "/" b)) = true).
    { clear. cbn [Py.char_in]. apply orb_true_iff. right.
      induction a as [|d a IHa]; cbn [String.append Py.char_in].
      - rewrite Ascii.eqb_refl. reflexivity.
      - rewrite IHa. apply orb_true_r. }
    rewrite Hin. reflexivity.
Qed.

Lemma rstrip_snoc (chars a : string) (c : ascii) :
  Py.char_in c chars = true ->
  Py.rstrip chars (a ++ String c EmptyString) = Py.rstrip chars a.
Proof.
  intros Hc. induction a as [|d a IH]; cbn [String.append Py.rstrip].
  - rewrite Hc. reflexivity.
  - rewrite IH. reflexivity.
Qed.

Lemma trailing_absent (c : ascii) (s : string) :
  Py.char_in c s = false -> trailing (String c EmptyString) s = false.
Proof.
  induction s as [|d s IH]; [reflexivity|]. intros H.
  cbn [Py.char_in] in H. apply orb_false_iff in H as [Hd Hs].
  destruct s as [|e s].
  - cbn. rewrite Ascii.eqb_sym, Hd. reflexivity.
  - exact (IH Hs).
Qed.

Lemma trailing_app (chars a b : string) :
  b <> EmptyString -> trailing chars (a ++ b) = trailing chars b.
Proof.
  intros Hb. induction a as [|c a IH]; [reflexivity|].
  cbn [String.append]. rewrite <- IH.
  destruct (a ++ b) as [|d rest] eqn:Hab; [|reflexivity].
  destruct a; [cbn in Hab; congruence | discriminate].
Qed.

Lemma slice_from_member (c : ascii) (n : nat) (s : string) :
  Py.slice_from n s = String c EmptyString -> Py.char_in c s = true.
Proof.
  revert s. induction n as [|n IH]; intros [|d s]; cbn [Py.slice_from];
    try discriminate.
  - intros H. inversion H. cbn. rewrite Ascii.eqb_refl. reflexivity.
  - intros H. cbn [Py.char_in]. rewrite (IH s H). apply orb_true_r.
Qed.

Lemma endswith_absent (c : ascii) (s : string) :
  Py.char_in c s = false -> Py.endswith (String c EmptyString) s = false.
Proof.
  intros H. unfold Py.endswith.
  destruct (String.eqb_spec
              (Py.slice_from (String.length s - String.length (String c EmptyString)) s)
              (String c EmptyString)) as [Heq|_]; [|apply andb_false_r].
  apply slice_from_member in Heq. congruence.
Qed.

(** Where a file named inside a folder lies: its directory is the folder. *)
Lemma dirname_in_folder (w : World) (folder file : string) :
  Py.truthy folder = true ->
  Py.char_in "/" folder = false ->
  leading " ." folder = false ->
  Py.truthy file = true ->
  Py.char_in "/" file = false ->
  os.path_dirname (os.resolve w (os.path_join folder file))
  = os.resolve w folder.
Proof.
  intros Hfolder Hslash Hlead Hfile Hfslash.
  assert (Hjoin : os.path_join folder file = folder ++ String "/" file).
  { unfold os.path_join. destruct file as [|c file]; [discriminate|].
    cbn [Py.startswith]. cbn [Py.char_in] in Hfslash.
    apply orb_false_iff in Hfslash as [Hc _]. rewrite Hc. cbn [andb].
    rewrite Hfolder, (endswith_absent "/" folder Hslash). reflexivity. }
  rewrite Hjoin. destruct folder as [|c folder]; [discriminate|].
  cbn [leading] in Hlead. cbn [Py.char_in] in Hslash, Hlead.
  apply orb_false_iff in Hslash as [Hc Hrest].
  apply orb_false_iff in Hlead as [_ Hdot].
  apply orb_false_iff in Hdot as [Hdot _].
  assert (Hnotdot : forall rest, String.eqb (String c rest) "." = false).
  { intros rest. cbn [String.eqb]. rewrite Hdot. reflexivity. }
  unfold os.resolve. cbn [String.append]. rewrite !Hnotdot.
  unfold os.path_join at 1 2. cbn [Py.startswith]. rewrite !Hc. cbn [andb].
  set (pre := if negb (Py.truthy (cwd w)) || Py.endswith "/" (cwd w)
              then cwd w else cwd w ++ "/").
  assert (Htarget : (if negb (Py.truthy (cwd w)) || Py.endswith "/" (cwd w)
                     then cwd w ++ String c (folder ++ String "/" file)
                     else cwd w ++ "/" ++ String c (folder ++ String "/" file))
                    = (pre ++ String c folder) ++ String "/" file).
  { unfold pre. destruct (negb (Py.truthy (cwd w)) || Py.endswith "/" (cwd w));
      rewrite !PyFacts.append_assoc; reflexivity. }
  assert (Hdir : (if negb (Py.truthy (cwd w)) || Py.endswith "/" (cwd w)
                  then cwd w ++ String c folder
                  else cwd w ++ "/" ++ String c folder)
                 = pre ++ String c folder).
  { unfold pre. destruct (negb (Py.truthy (cwd w)) || Py.endswith "/" (cwd w));
      rewrite ?PyFacts.append_assoc; reflexivity. }
  rewrite Htarget, Hdir. unfold os.path_dirname.
  rewrite (upto_last_slash_app _ _ Hfslash).
  rewrite (rstrip_snoc "/" _ "/" eq_refl).
  assert (Hclean : trailing "/" (pre ++ String c folder) = false).
  { rewrite trailing_app by discriminate. apply trailing_absent.
    cbn [Py.char_in]. rewrite Hc, Hrest. reflexivity. }
  rewrite (PyFacts.rstrip_clean "/" _ Hclean).
  destruct (pre ++ String c folder) as [|d rest] eqn:Hne; [|reflexivity].
  destruct pre; discriminate.
Qed.

(** X8: after [create_playlist_folder] has returned a folder, saving the
    table into it cannot fail for a missing directory: unless the OS
    refuses the file or the user interrupts, [save_results] returns, the
    file lies directly in the new folder and holds the whole table. *)
Theorem save_results_after_folder (env : Env) (playlist_name : string)
    (w w1 : World) (folder : string) (df : pd.DataFrame) :
  create_playlist_folder env playlist_name w = (Return (Some folder), w1) ->
  let path := os.path_join folder csv_name in
  let target := os.resolve w1 path in
  fs_fault env target = None ->
  write_interrupt env target = None ->
  save_results env df folder w1
  = (Return tt,
     printed [Py.NL ++ "Saved results to " ++ path]
       (os.write_file target (pd.csv_text df) w1))
  /\ os.path_dirname target = os.resolve w1 folder
  /\ os.read_file (snd (save_results env df folder w1)) target
     = Some (pd.csv_text df).
Proof.
  intros Hcreate path target Hfault Hinterrupt.
  pose proof (create_playlist_folder_first env playlist_name w) as H.
  rewrite Hcreate in H. destruct H as (Hname & Ht & Hdir).
  assert (Hparent : os.path_dirname target = os.resolve w1 folder).
  { unfold target, path. apply dirname_in_folder; try reflexivity.
    - exact Ht.
    - rewrite Hname. apply sanitize_filename_no_invalid_char. reflexivity.
    - rewrite Hname. apply sanitize_filename_no_leading. }
  assert (Hsave : save_results env df folder w1
                  = (Return tt,
                     printed [Py.NL ++ "Saved results to " ++ path]
                       (os.write_file target (pd.csv_text df) w1))).
  { unfold save_results, bind, to_csv. fold path. fold target.
    rewrite Hparent, Hdir, Hfault, Hinterrupt. reflexivity. }
  rewrite Hsave. repeat split; try assumption.
  cbn [snd].
  change (os.read_file (os.write_file target (pd.csv_text df) w1) target
          = Some (pd.csv_text df)).
  apply read_file_written.
Qed.

Lemma save_results_after_folder_witness :
  save_results demo_env demo_results "Mix"
    (printed ["Created folder: Mix"] demo_world_with_folder)
  = (Return tt,
     printed [Py.NL ++ "Saved results to Mix/spotify_playlist_with_youtube.csv"]
       (os.write_file "/home/u/Mix/spotify_playlist_with_youtube.csv"
          (pd.csv_text demo_results)
          (printed ["Created folder: Mix"] demo_world_with_folder)))
  /\ os.path_dirname "/home/u/Mix/spotify_playlist_with_youtube.csv"
     = "/home/u/Mix"
  /\ os.read_file
       (snd (save_results demo_env demo_results "Mix"
               (printed ["Created folder: Mix"] demo_world_with_folder)))
       "/home/u/Mix/spotify_playlist_with_youtube.csv"
     = Some (pd.csv_text demo_results).
Proof.
  apply (save_results_after_folder demo_env "Mix" demo_world_with_folder
           (printed ["Created folder: Mix"] demo_world_with_folder) "Mix"
           demo_results); reflexivity.
Defined.

(* ===================================================================== *)
(** * Steps that only print *)
(* ===================================================================== *)

Lemma only_prints_ret {A : Type} (a : A) : only_prints (ret a).
Proof. intros w. exists []. symmetry. apply printed_nil. Qed.

Lemma only_prints_raise {A : Type} (e : PyExc) : only_prints (@raise A e).
Proof. intros w. exists []. symmetry. apply printed_nil. Qed.

Lemma only_prints_diverge {A : Type} : only_prints (@diverge A).
Proof. intros w. exists []. symmetry. apply printed_nil. Qed.

Lemma only_prints_print (s : string) : only_prints (print s).
Proof. intros w. exists [s]. reflexivity. Qed.

Lemma only_prints_call {A : Type} (answer : PyExc + A) :
  only_prints (call answer).
Proof. destruct answer; [apply only_prints_raise | apply only_prints_ret]. Qed.

Lemma only_prints_bind {A B : Type} (m : M A) (k : A -> M B) :
  only_prints m -> (forall a, only_prints (k a)) -> only_prints (bind m k).
Proof.
  intros Hm Hk w. unfold bind. destruct (Hm w) as [l1 H1].
  destruct (m w) as [[a | e |] w']; simpl in *; try (exists l1; exact H1).
  destruct (Hk a w') as [l2 H2]. exists (l1 ++ l2)%list.
  rewrite H2, H1. apply printed_printed.
Qed.

Lemma only_prints_try_except {A : Type} (body : M A)
    (handler : PyExc -> option (M A)) :
  only_prints body -> (forall e h, handler e = Some h -> only_prints h) ->
  only_prints (try_except body handler).
Proof.
  intros Hb Hh w. unfold try_except. destruct (Hb w) as [l1 H1].
  destruct (body w) as [[a | e |] w']; simpl in *; try (exists l1; exact H1).
  destruct (handler e) as [h|] eqn:He; [|exists l1; exact H1].
  destruct (Hh e h He w') as [l2 H2]. exists (l1 ++ l2)%list.
  rewrite H2, H1. apply printed_printed.
Qed.

Lemma only_prints_list_index {A : Type} (xs : list A) (i : nat) :
  only_prints (list_index xs i).
Proof.
  unfold list_index. destruct (nth_error xs i);
    [apply only_prints_ret | apply only_prints_raise].
Qed.

Lemma only_prints_map_M {A B : Type} (f : A -> M B) (xs : list A) :
  (forall x, only_prints (f x)) -> only_prints (map_M f xs).
Proof.
  intros Hf. induction xs as [|x xs IH]; simpl.
  - apply only_prints_ret.
  - apply only_prints_bind; [apply Hf | intros y].
    apply only_prints_bind; [exact IH | intros ys; apply only_prints_ret].
Qed.

Lemma only_prints_for_each {A : Type} (xs : list A) (body : A -> M unit) :
  (forall x, only_prints (body x)) -> only_prints (for_each xs body).
Proof.
  intros Hb. induction xs as [|x xs IH]; simpl.
  - apply only_prints_ret.
  - apply only_prints_bind; [apply Hb | intros _; exact IH].
Qed.

Lemma only_prints_while_next (env : Env) (fuel : nat) :
  forall (results : Page) (tracks : list PlaylistItem),
    only_prints (while_next env fuel results tracks).
Proof.
  induction fuel as [|fuel IH]; intros results tracks; simpl;
    destruct (page_next results) as [c|]; try apply only_prints_ret;
    destruct (Py.truthy c); try apply only_prints_ret.
  - apply only_prints_diverge.
  - apply only_prints_bind; [apply only_prints_call | intros p; apply IH].
Qed.

Create HintDb only_prints.

#[local] Hint Resolve only_prints_ret only_prints_raise only_prints_diverge
  only_prints_print only_prints_call only_prints_list_index
  only_prints_while_next : only_prints.

Ltac only_prints_steps :=
  repeat first
    [ solve [auto with only_prints]
    | apply only_prints_bind; [|intros ?]
    | apply only_prints_map_M; intros ?
    | apply only_prints_for_each; intros ? ].

Lemma only_prints_report_error (e : PyExc)
    (h : M (option pd.DataFrame * option string)) :
  report_error e = Some h -> only_prints h.
Proof.
  unfold report_error. destruct (is_Exception e); [|discriminate].
  intros H. inversion H. only_prints_steps.
Qed.

Lemma only_prints_export (env : Env) (fuel : nat) (url : string) :
  only_prints (export_spotify_playlist env fuel url).
Proof.
  unfold export_spotify_playlist, url_id, export_album, export_playlist.
  destruct (Py.contains "album/" url); [|destruct (Py.contains "playlist/" url)].
  - only_prints_steps.
    apply only_prints_try_except; [only_prints_steps|].
    apply only_prints_report_error.
  - only_prints_steps.
    apply only_prints_try_except; [|apply only_prints_report_error].
    only_prints_steps.
  - only_prints_steps.
Qed.

(* ===================================================================== *)
(** * More about the export *)
(* ===================================================================== *)

(** X9: for a URL with the album marker and an album the service returns,
    the export takes the tracks from the one page of items that comes with
    the album ([album['tracks']['items']]): it returns the album's name and
    the frame of these items, one row per item in the order of the page.
    The number of tracks the album announces is printed and plays no
    further part, and the result is the same whatever the service would
    answer to any further request: the album branch never asks for a next
    page, so an album with more tracks than its first page holds is
    exported in part. *)
Theorem export_album_first_page_only (env : Env) (fuel : nat) (url : string)
    (album : Album) (w : World) :
  Py.contains "album/" url = true ->
  sp_album env (cut_id "album/" url) = inr album ->
  export_spotify_playlist env fuel url w
  = (Return (Some (pd.from_records (map track_info (album_items album))),
             Some (album_name album)),
     printed ["Album: " ++ album_name album;
              "Total tracks: " ++ Py.str_of_nat (album_total_tracks album)] w)
  /\ pd.rows (pd.from_records (map track_info (album_items album)))
     = map track_row (album_items album).
Proof.
  intros Hin Halbum. split.
  - unfold export_spotify_playlist. rewrite Hin.
    rewrite (bind_run_return _ _ w w (cut_id "album/" url))
      by (apply url_id_run; [discriminate | exact Hin]).
    unfold export_album, try_except, bind, call. rewrite Halbum. cbn [ret].
    rewrite !print_run, printed_printed. reflexivity.
  - apply from_records_rows.
Qed.

Lemma export_album_first_page_only_witness :
  export_spotify_playlist long_album_env 0 demo_album_url demo_world
  = (Return (Some (pd.from_records (map track_info (album_items long_album))),
             Some "Long Play"),
     printed ["Album: Long Play"; "Total tracks: 60"] demo_world)
  /\ pd.rows (pd.from_records (map track_info (album_items long_album)))
     = [[Some "One"; Some "X"]; [Some "Two"; Some "Y, Z"]].
Proof.
  apply (export_album_first_page_only long_album_env 0 demo_album_url
           long_album demo_world);
    reflexivity.
Defined.

(** X10: whatever the URL and the services do, the export changes nothing
    but the standard output; it returns a frame together with a name or
    neither of them; and no [Exception] leaves it -- what it raises, if
    anything, is an interrupt. *)
Theorem export_spotify_playlist_contained (env : Env) (fuel : nat)
    (url : string) (w : World) :
  (exists lines : list string,
     snd (export_spotify_playlist env fuel url w) = printed lines w)
  /\ match fst (export_spotify_playlist env fuel url w) with
     | Return (Some _, Some _) => True
     | Return (None, None) => True
     | Return _ => False
     | Raise e => is_Exception e = false
     | Diverge => True
     end.
Proof.
  split; [apply only_prints_export|].
  assert (Hhandler : forall e w0,
            match fst (match report_error e with
                       | Some h => h w0
                       | None => (Raise e, w0)
                       end) with
            | Return (Some _, Some _) => True
            | Return (None, None) => True
            | Return _ => False
            | Raise e0 => is_Exception e0 = false
            | Diverge => True
            end).
  { intros e w0. unfold report_error.
    destruct (is_Exception e) eqn:He; cbn; [exact I | exact He]. }
  unfold export_spotify_playlist.
  destruct (Py.contains "album/" url) eqn:Halbum;
    [|destruct (Py.contains "playlist/" url) eqn:Hplaylist].
  - rewrite (bind_run_return _ _ w w (cut_id "album/" url))
      by (apply url_id_run; [discriminate | exact Halbum]).
    unfold export_album, try_except, bind, call.
    destruct (sp_album env (cut_id "album/" url)) as [e | album]; cbn;
      [apply Hhandler | exact I].
  - rewrite (bind_run_return _ _ w w (cut_id "playlist/" url))
      by (apply url_id_run; [discriminate | exact Hplaylist]).
    unfold export_playlist, try_except, bind, call.
    destruct (sp_playlist env (cut_id "playlist/" url)) as [e | playlist];
      cbn; [apply Hhandler|].
    destruct (sp_playlist_tracks env (cut_id "playlist/" url)) as [e | first];
      cbn; [apply Hhandler|].
    destruct (while_next env fuel first (page_items first) _)
      as [[tracks | e |] w1]; cbn; [exact I | apply Hhandler | exact I].
  - cbn. exact I.
Qed.

Lemma while_next_breaks (env : Env) (e : PyExc) (p : Page) (n : nat) :
  pages_break env e p n ->
  forall (fuel : nat) (tracks : list PlaylistItem) (w : World),
    n < fuel -> while_next env fuel p tracks w = (Raise e, w).
Proof.
  induction 1 as [p c Hc Hget | p c p' n Hc Hget Hrest IH];
    intros fuel tracks w Hfuel;
    (destruct fuel as [|fuel]; [lia|]);
    unfold cursor in Hc; cbn [while_next];
    (destruct (page_next p) as [c0|]; [|discriminate]);
    (destruct (Py.truthy c0); [|discriminate]);
    injection Hc as ->; unfold bind, call; rewrite Hget; cbn.
  - reflexivity.
  - apply IH. lia.
Qed.

(** X11: when the service fails on a later page of a playlist, the export
    does not return the pages it already has: it prints the error and
    returns neither frame nor name. *)
Theorem export_playlist_drops_partial_result (env : Env) (url : string)
    (playlist : Playlist) (first : Page) (e : PyExc) (n fuel : nat)
    (w : World) :
  Py.contains "album/" url = false ->
  Py.contains "playlist/" url = true ->
  sp_playlist env (cut_id "playlist/" url) = inr playlist ->
  sp_playlist_tracks env (cut_id "playlist/" url) = inr first ->
  pages_break env e first n ->
  is_Exception e = true ->
  n < fuel ->
  export_spotify_playlist env fuel url w
  = (Return (None, None),
     printed ["Playlist: " ++ playlist_name playlist;
              "Total tracks: " ++ Py.str_of_nat (playlist_total playlist);
              "Error: " ++ exc_str e] w).
Proof.
  intros Halbum Hplaylist Hmeta Hfirst Hbreak He Hfuel.
  unfold export_spotify_playlist. rewrite Halbum, Hplaylist.
  rewrite (bind_run_return _ _ w w (cut_id "playlist/" url))
    by (apply url_id_run; [discriminate | exact Hplaylist]).
  unfold export_playlist, try_except, bind, call.
  rewrite Hmeta, Hfirst. cbn [ret]. rewrite !print_run, printed_printed.
  rewrite (while_next_breaks env e first n Hbreak) by exact Hfuel.
  unfold report_error. rewrite He. unfold bind.
  rewrite print_run, printed_printed. reflexivity.
Qed.

Lemma export_playlist_drops_partial_result_witness :
  export_spotify_playlist broken_page_env 1 demo_playlist_url demo_world
  = (Return (None, None),
     printed ["Playlist: My: Mix abc"; "Total tracks: 3";
              "Error: http status: 500"] demo_world).
Proof.
  apply (export_playlist_drops_partial_result broken_page_env
           demo_playlist_url (mkPlaylist "My: Mix abc" 3) demo_first_page
           (mkExc OtherException "http status: 500") 0 1 demo_world);
    try reflexivity.
  - apply (break_next broken_page_env _ demo_first_page "page2");
      reflexivity.
  - lia.
Defined.

(** X12: a URL with neither marker is turned away before anything else
    happens: whatever the services, [process_playlist] prints three lines
    and returns [False], and the world is otherwise as it was. *)
Theorem process_playlist_invalid_url (env : Env) (fuel : nat) (url : string)
    (w : World) :
  Py.contains "album/" url = false ->
  Py.contains "playlist/" url = false ->
  process_playlist env fuel url w
  = (Return false,
     printed
       [Py.NL ++ "Exporting Spotify playlist...";
        "Invalid URL format. Please provide a Spotify playlist or album URL.";
        "Failed to export playlist. Please check your URL and try again."] w).
Proof.
  intros Halbum Hplaylist.
  unfold process_playlist, export_spotify_playlist.
  rewrite Halbum, Hplaylist. unfold bind.
  rewrite !print_run. cbn [ret]. rewrite !print_run, !printed_printed.
  reflexivity.
Qed.

Lemma process_playlist_invalid_url_witness :
  process_playlist demo_env 0 "https://open.spotify.com/track/abc" demo_world
  = (Return false,
     printed
       [Py.NL ++ "Exporting Spotify playlist...";
        "Invalid URL format. Please provide a Spotify playlist or album URL.";
        "Failed to export playlist. Please check your URL and try again."]
       demo_world).
Proof.
  apply (process_playlist_invalid_url demo_env 0
           "https://open.spotify.com/track/abc" demo_world); reflexivity.
Defined.

Lemma while_next_endless (env : Env) (endless : Page -> Prop) :
  (forall p, endless p ->
     exists c p', cursor p = Some c /\ sp_get env c = inr p' /\ endless p') ->
  forall (fuel : nat) (p : Page) (tracks : list PlaylistItem) (w : World),
    endless p -> while_next env fuel p tracks w = (Diverge, w).
Proof.
  intros Hstep. induction fuel as [|fuel IH]; intros p tracks w Hp;
    destruct (Hstep p Hp) as (c & p' & Hc & Hget & Hp');
    unfold cursor in Hc; cbn [while_next];
    (destruct (page_next p) as [c0|]; [|discriminate]);
    (destruct (Py.truthy c0); [|discriminate]).
  - reflexivity.
  - injection Hc as ->. unfold bind, call. rewrite Hget. cbn.
    apply IH. exact Hp'.
Qed.

(** X13: the pagination has no guard against cursors that never run out.
    If the first page of a playlist belongs to a set of pages each of whose
    cursors leads to a page of the set again (a cycle, say), the export
    comes to no result, whatever the fuel. *)
Theorem export_playlist_endless_pages (env : Env) (url : string)
    (playlist : Playlist) (first : Page) (endless : Page -> Prop)
    (fuel : nat) (w : World) :
  Py.contains "album/" url = false ->
  Py.contains "playlist/" url = true ->
  sp_playlist env (cut_id "playlist/" url) = inr playlist ->
  sp_playlist_tracks env (cut_id "playlist/" url) = inr first ->
  endless first ->
  (forall p, endless p ->
     exists c p', cursor p = Some c /\ sp_get env c = inr p' /\ endless p') ->
  fst (export_spotify_playlist env fuel url w) = Diverge.
Proof.
  intros Halbum Hplaylist Hmeta Hfirst Hin Hstep.
  unfold export_spotify_playlist. rewrite Halbum, Hplaylist.
  rewrite (bind_run_return _ _ w w (cut_id "playlist/" url))
    by (apply url_id_run; [discriminate | exact Hplaylist]).
  unfold export_playlist, try_except, bind, call.
  rewrite Hmeta, Hfirst. cbn [ret]. rewrite !print_run.
  rewrite (while_next_endless env endless Hstep) by exact Hin.
  reflexivity.
Qed.

Lemma export_playlist_endless_pages_witness :
  fst (export_spotify_playlist looping_env 7 demo_playlist_url demo_world)
  = Diverge.
Proof.
  apply (export_playlist_endless_pages looping_env demo_playlist_url
           (mkPlaylist "My: Mix abc" 3) demo_first_page
           (fun p => p = demo_first_page) 7 demo_world); try reflexivity.
  intros p ->. exists "page2", demo_first_page. repeat split.
Defined.

(* ===================================================================== *)
(** * More about the download *)
(* ===================================================================== *)

(** [download_songs] in its parts. *)
Lemma download_songs_parts (env : Env) (links : list string)
    (playlist_folder : string) :
  download_songs env links playlist_folder
  = if match links with [] => true | _ => false end
       || negb (Py.truthy playlist_folder)
    then print "No YouTube links or playlist folder specified" ;; ret false
    else
      print (Py.NL ++ "Starting download of "
             ++ Py.str_of_nat (List.length links) ++ " songs...") ;;
      print ("Downloading to folder: " ++ playlist_folder) ;;
      print "This may take a while depending on the number of songs..." ;;
      original_dir <- os.getcwd ;;
      os.chdir playlist_folder ;;
      try_finally (download_attempt env links) (os.chdir original_dir).
Proof. reflexivity. Qed.

Lemma for_each_print (f : string -> string) (xs : list string) (w : World) :
  for_each xs (fun x => print (f x)) w = (Return tt, printed (map f xs) w).
Proof.
  revert w. induction xs as [|x xs IH]; intros w; cbn [for_each map].
  - rewrite printed_nil. reflexivity.
  - unfold bind. rewrite print_run, IH, printed_printed. reflexivity.
Qed.

Lemma only_prints_spawns_nothing {A : Type} (m : M A) :
  only_prints m -> spawns_nothing m.
Proof. intros H w. destruct (H w) as [lines ->]. reflexivity. Qed.

Lemma only_prints_listdir (p : string) : only_prints (os.listdir p).
Proof.
  intros w. exists []. rewrite printed_nil. unfold os.listdir.
  destruct (os.is_dir w (os.resolve w p)); reflexivity.
Qed.

Lemma only_prints_path_abspath (p : string) : only_prints (os.path_abspath p).
Proof. intros w. exists []. rewrite printed_nil. reflexivity. Qed.

#[local] Hint Resolve only_prints_listdir only_prints_path_abspath
  : only_prints.

Lemma only_prints_report_download : only_prints report_download.
Proof.
  unfold report_download. only_prints_steps.
  match goal with
  | |- context [filter ?keep ?names] => destruct (filter keep names)
  end; only_prints_steps.
Qed.

Lemma only_prints_download_failed (e : PyExc) (h : M bool) :
  download_failed e = Some h -> only_prints h.
Proof.
  unfold download_failed.
  destruct (exc_class e); intros H; inversion H; only_prints_steps.
Qed.

Lemma spawned_chdir (p : string) (w : World) :
  spawned (snd (os.chdir p w)) = spawned w.
Proof.
  unfold os.chdir.
  destruct (Py.truthy p && os.is_dir w (os.resolve w p)); reflexivity.
Qed.

Lemma spawned_try_finally_chdir {A : Type} (body : M A) (p : string)
    (w : World) :
  spawned (snd (try_finally body (os.chdir p) w)) = spawned (snd (body w)).
Proof.
  unfold try_finally. destruct (body w) as [[a | e |] w1]; cbn [snd];
    try reflexivity;
    pose proof (spawned_chdir p w1) as H;
    destruct (os.chdir p w1) as [[[] | e' |] w2]; exact H.
Qed.

(** The attempt starts the utility once, or not at all when it cannot be
    started. *)
Lemma download_attempt_spawns (env : Env) (links : list string)
    (w w' : World) (r : Outcome bool) :
  download_attempt env links w = (r, w') ->
  spawned w' = spawned w
  \/ spawned w' = (spawned w ++ [yt_dlp_command env links])%list.
Proof.
  unfold download_attempt, try_except.
  rewrite (bind_run_return _ _ _ _ _ (print_run _ w)).
  rewrite (bind_run_return _ _ _ _ _ (print_run _ _)).
  set (w1 := printed _ (printed _ w)). unfold bind.
  assert (Hrun : forall r2 w2,
            subprocess_run env (yt_dlp_command env links) w1 = (r2, w2) ->
            spawned w2 = spawned w
            \/ spawned w2 = (spawned w ++ [yt_dlp_command env links])%list).
  { unfold subprocess_run.
    destruct (run_process env (yt_dlp_command env links) w1)
      as [[[|status] | | msg] [ds fs]]; intros r2 w2 H; inversion H; auto. }
  destruct (subprocess_run env (yt_dlp_command env links) w1)
    as [[[] | e |] w2] eqn:Hsub; specialize (Hrun _ _ eq_refl).
  - pose proof (only_prints_spawns_nothing _ only_prints_report_download w2)
      as Hreport.
    destruct (report_download w2) as [[b | e |] w3]; cbn [snd] in Hreport.
    + intros H. inversion H. subst. rewrite Hreport. exact Hrun.
    + destruct (download_failed e) as [h|] eqn:Hh.
      * pose proof (only_prints_spawns_nothing h
                      (only_prints_download_failed e h Hh) w3) as Hh3.
        intros H. rewrite H in Hh3. cbn [snd] in Hh3.
        rewrite Hh3, Hreport. exact Hrun.
      * intros H. inversion H. subst. rewrite Hreport. exact Hrun.
    + intros H. inversion H. subst. rewrite Hreport. exact Hrun.
  - destruct (download_failed e) as [h|] eqn:Hh.
    + pose proof (only_prints_spawns_nothing h
                    (only_prints_download_failed e h Hh) w2) as Hh2.
      intros H. rewrite H in Hh2. cbn [snd] in Hh2. rewrite Hh2. exact Hrun.
    + intros H. inversion H. subst. exact Hrun.
  - intros H. inversion H. subst. exact Hrun.
Qed.

Lemma download_songs_spawns (env : Env) (links : list string)
    (playlist_folder : string) (w w' : World) (r : Outcome bool) :
  download_songs env links playlist_folder w = (r, w') ->
  spawned w' = spawned w
  \/ spawned w' = (spawned w ++ [yt_dlp_command env links])%list.
Proof.
  rewrite download_songs_parts.
  destruct (match links with [] => true | _ => false end
            || negb (Py.truthy playlist_folder)).
  - intros H. inversion H. left. reflexivity.
  - do 3 rewrite (bind_run_return _ _ _ _ _ (print_run _ _)).
    set (w1 := printed _ (printed _ (printed _ w))).
    rewrite (bind_run_return os.getcwd _ w1 w1 (cwd w1) eq_refl).
    unfold bind.
    pose proof (spawned_chdir playlist_folder w1) as Hcd.
    destruct (os.chdir playlist_folder w1) as [[[] | e |] w2];
      cbn [snd] in Hcd; try (intros H; inversion H; subst; left; exact Hcd).
    intros H.
    pose proof (spawned_try_finally_chdir (download_attempt env links)
                  (cwd w1) w2) as Hfin.
    rewrite H in Hfin. cbn [snd] in Hfin. rewrite Hfin.
    change (spawned w1) with (spawned w) in Hcd. rewrite <- Hcd.
    destruct (download_attempt env links w2) as [r2 w3] eqn:Hatt.
    exact (download_attempt_spawns env links w2 w3 r2 Hatt).
Qed.

(** X14: whatever happens, [download_songs] starts at most one subprocess,
    and if it starts one it is the Python interpreter running [yt_dlp] with
    the audio format, the output template and all the links, in their
    order, in that one command line. *)
Theorem download_songs_one_batch (env : Env) (links : list string)
    (playlist_folder : string) (w : World) :
  spawned (snd (download_songs env links playlist_folder w)) = spawned w
  \/ spawned (snd (download_songs env links playlist_folder w))
     = (spawned w
        ++ [[sys_executable env; "-m"; "yt_dlp"; "-f"; "bestaudio[ext=m4a]";
             "--output"; "%(title)s.%(ext)s"] ++ links])%list.
Proof.
  destruct (download_songs env links playlist_folder w) as [r w'] eqn:Hrun.
  exact (download_songs_spawns env links playlist_folder w w' r Hrun).
Qed.

Lemma ends_raising_ret {A : Type} (allowed : PyExc -> Prop) (a : A) :
  ends_raising allowed (ret a).
Proof. intros w. exact I. Qed.

Lemma ends_raising_print (allowed : PyExc -> Prop) (s : string) :
  ends_raising allowed (print s).
Proof. intros w. exact I. Qed.

Lemma ends_raising_bind {A B : Type} (allowed : PyExc -> Prop) (m : M A)
    (k : A -> M B) :
  ends_raising allowed m -> (forall a, ends_raising allowed (k a)) ->
  ends_raising allowed (bind m k).
Proof.
  intros Hm Hk w. unfold bind. specialize (Hm w).
  destruct (m w) as [[a | e |] w']; cbn [fst] in *;
    [apply Hk | exact Hm | exact Hm].
Qed.

Lemma ends_raising_weaken {A : Type} (narrow wide : PyExc -> Prop) (m : M A) :
  (forall e, narrow e -> wide e) ->
  ends_raising narrow m -> ends_raising wide m.
Proof.
  intros Hsub Hm w. specialize (Hm w).
  destruct (fst (m w)); [exact I | apply Hsub; exact Hm | exact Hm].
Qed.

Lemma ends_raising_try_except {A : Type} (inner outer : PyExc -> Prop)
    (body : M A) (handler : PyExc -> option (M A)) :
  ends_raising inner body ->
  (forall e, inner e ->
     match handler e with
     | Some h => ends_raising outer h
     | None => outer e
     end) ->
  ends_raising outer (try_except body handler).
Proof.
  intros Hb Hh w. unfold try_except. specialize (Hb w).
  destruct (body w) as [[a | e |] w']; cbn [fst] in *;
    [exact I | | exact Hb].
  specialize (Hh e Hb). destruct (handler e) as [h|]; [apply Hh | exact Hh].
Qed.

Lemma ends_raising_try_finally {A : Type} (allowed : PyExc -> Prop)
    (body : M A) (cleanup : M unit) :
  ends_raising allowed body -> ends_raising allowed cleanup ->
  ends_raising allowed (try_finally body cleanup).
Proof.
  intros Hb Hc w. unfold try_finally. specialize (Hb w).
  destruct (body w) as [[a | e |] w']; cbn [fst] in *; try contradiction;
    specialize (Hc w'); destruct (cleanup w') as [[[] | e' |] w''];
    cbn [fst] in *; try assumption; exact I.
Qed.

Lemma ends_raising_for_each {A : Type} (allowed : PyExc -> Prop)
    (xs : list A) (body : A -> M unit) :
  (forall x, ends_raising allowed (body x)) ->
  ends_raising allowed (for_each xs body).
Proof.
  intros Hb. induction xs as [|x xs IH]; simpl.
  - apply ends_raising_ret.
  - apply ends_raising_bind; [apply Hb | intros _; exact IH].
Qed.

Lemma ends_raising_chdir (p : string) : ends_raising is_OSError (os.chdir p).
Proof.
  intros w. unfold os.chdir.
  destruct (Py.truthy p && os.is_dir w (os.resolve w p)); cbn;
    [exact I | reflexivity].
Qed.

Lemma ends_raising_listdir (p : string) :
  ends_raising is_OSError (os.listdir p).
Proof.
  intros w. unfold os.listdir.
  destruct (os.is_dir w (os.resolve w p)); cbn; [exact I | reflexivity].
Qed.

Lemma ends_raising_subprocess_run (env : Env) (cmd : list string) :
  ends_raising from_subprocess (subprocess_run env cmd).
Proof.
  intros w. unfold subprocess_run, from_subprocess.
  destruct (run_process env cmd w) as [[[|status] | | msg] [ds fs]]; cbn;
    auto.
Qed.

Lemma ends_raising_report_download :
  ends_raising is_OSError report_download.
Proof.
  unfold report_download.
  repeat (apply ends_raising_bind;
          [first [apply ends_raising_print | apply ends_raising_listdir
                 | intros w; exact I] | intros ?]).
  apply ends_raising_bind; [|intros ?; apply ends_raising_ret].
  match goal with
  | |- context [filter ?keep ?names] => destruct (filter keep names)
  end; [apply ends_raising_ret|].
  apply ends_raising_bind; [apply ends_raising_print | intros _].
  apply ends_raising_for_each. intros x. apply ends_raising_print.
Qed.

Lemma ends_raising_download_attempt (env : Env) (links : list string) :
  ends_raising is_OSError (download_attempt env links).
Proof.
  unfold download_attempt.
  apply (ends_raising_try_except from_subprocess).
  - do 2 (apply ends_raising_bind; [apply ends_raising_print | intros _]).
    apply ends_raising_bind; [apply ends_raising_subprocess_run | intros _].
    apply (ends_raising_weaken is_OSError); [|apply ends_raising_report_download].
    intros e He. right. right. exact He.
  - intros e [He | [He | He]]; unfold download_failed; rewrite He.
    + apply ends_raising_bind; [apply ends_raising_print | intros _].
      apply ends_raising_ret.
    + apply ends_raising_bind; [apply ends_raising_print | intros _].
      apply ends_raising_ret.
    + exact He.
Qed.

(** X15: [download_songs] always ends, and neither a non-zero exit of the
    utility nor an interrupt of the user during the download leaves it as
    an exception: what it raises, if anything, is an [OSError] (a folder
    it cannot enter or list, a utility it cannot start). *)
Theorem download_songs_raises_only_OSError (env : Env) (links : list string)
    (playlist_folder : string) (w : World) :
  match fst (download_songs env links playlist_folder w) with
  | Return _ => True
  | Raise e => exc_class e = OSError
  | Diverge => False
  end.
Proof.
  revert w. change (ends_raising is_OSError
                      (download_songs env links playlist_folder)).
  rewrite download_songs_parts.
  destruct (match links with [] => true | _ => false end
            || negb (Py.truthy playlist_folder)).
  - apply ends_raising_bind; [apply ends_raising_print | intros _].
    apply ends_raising_ret.
  - do 3 (apply ends_raising_bind; [apply ends_raising_print | intros _]).
    apply ends_raising_bind; [intros w; exact I | intros original_dir].
    apply ends_raising_bind; [apply ends_raising_chdir | intros _].
    apply ends_raising_try_finally;
      [apply ends_raising_download_attempt | apply ends_raising_chdir].
Qed.

(** With links, a folder name and a folder that can be entered,
    [download_songs] reaches its [try] statement in the folder, having
    announced the download. *)
Lemma download_songs_enters (env : Env) (links : list string)
    (playlist_folder : string) (w : World) :
  links <> [] -> Py.truthy playlist_folder = true ->
  os.is_dir w (os.resolve w playlist_folder) = true ->
  download_songs env links playlist_folder w
  = try_finally (download_attempt env links) (os.chdir (cwd w))
      (mkWorld (os.resolve w playlist_folder) (dirs w) (files w)
         (stdout w ++ download_announcement links playlist_folder)%list
         (spawned w)).
Proof.
  intros Hlinks Hfolder Hdir. rewrite download_songs_parts.
  destruct links as [|link links]; [congruence|]. rewrite Hfolder.
  cbn [orb negb].
  do 3 rewrite (bind_run_return _ _ _ _ _ (print_run _ _)).
  rewrite !printed_printed. cbn [app].
  set (w1 := printed _ w).
  rewrite (bind_run_return os.getcwd _ w1 w1 (cwd w1) eq_refl).
  assert (Hcd : os.chdir playlist_folder w1
                = (Return tt,
                   mkWorld (os.resolve w playlist_folder) (dirs w) (files w)
                     (stdout w
                      ++ download_announcement (link :: links)
                           playlist_folder)%list
                     (spawned w))).
  { unfold os.chdir. rewrite Hfolder.
    change (os.is_dir w1 (os.resolve w1 playlist_folder))
      with (os.is_dir w (os.resolve w playlist_folder)).
    rewrite Hdir. reflexivity. }
  rewrite (bind_run_return _ _ _ _ _ Hcd). reflexivity.
Qed.

(** The attempt up to the moment the utility has ended. *)
Lemma download_attempt_starts (env : Env) (links : list string)
    (playlist_folder : string) (w : World) :
  printed (download_start_lines env links)
    (mkWorld (os.resolve w playlist_folder) (dirs w) (files w)
       (stdout w ++ download_announcement links playlist_folder)%list
       (spawned w))
  = world_at_download env links playlist_folder w.
Proof.
  unfold printed, world_at_download. cbn [cwd dirs files stdout spawned].
  rewrite <- app_assoc. reflexivity.
Qed.

(** The attempt when the utility ends without success: the handler that
    matches prints its line and the attempt returns [False]. *)
Lemma download_attempt_handled (env : Env) (links : list string)
    (w w' : World) (e : PyExc) (line : string) :
  subprocess_run env (yt_dlp_command env links)
    (printed (download_start_lines env links) w) = (Raise e, w') ->
  download_failed e = Some (print line ;; ret false) ->
  download_attempt env links w = (Return false, printed [line] w').
Proof.
  intros Hsub Hh. unfold download_attempt, try_except.
  do 2 rewrite (bind_run_return _ _ _ _ _ (print_run _ _)).
  rewrite printed_printed. cbn [app].
  change (printed _ w) with (printed (download_start_lines env links) w).
  rewrite (bind_run_raise _ _ _ _ _ Hsub). rewrite Hh. reflexivity.
Qed.

(** The way back after the attempt. *)
Lemma try_finally_back {A : Type} (body : M A) (w w1 : World) (a : A)
    (orig : string) :
  body w = (Return a, w1) ->
  Py.startswith "/" orig = true -> os.is_dir w1 orig = true ->
  try_finally body (os.chdir orig) w
  = (Return a, mkWorld orig (dirs w1) (files w1) (stdout w1) (spawned w1)).
Proof.
  intros Hbody Habs Hdir. unfold try_finally. rewrite Hbody.
  rewrite (chdir_absolute orig w1 Habs), Hdir. reflexivity.
Qed.

(** With a handler that matches what the utility ended in,
    [download_songs] returns [False] from the directory it started in. *)
Lemma download_songs_handled (env : Env) (links : list string)
    (playlist_folder : string) (w : World) (e : PyExc)
    (ds : list string) (fs : list (string * string)) (line : string) :
  links <> [] -> Py.truthy playlist_folder = true ->
  os.is_dir w (os.resolve w playlist_folder) = true ->
  Py.startswith "/" (cwd w) = true ->
  subprocess_run env (yt_dlp_command env links)
    (world_at_download env links playlist_folder w)
  = (Raise e,
     mkWorld (os.resolve w playlist_folder) ds fs
       (stdout (world_at_download env links playlist_folder w))
       (spawned w ++ [yt_dlp_command env links])%list) ->
  download_failed e = Some (print line ;; ret false) ->
  existsb (String.eqb (cwd w)) ds = true ->
  download_songs env links playlist_folder w
  = (Return false,
     mkWorld (cwd w) ds fs
       (stdout (world_at_download env links playlist_folder w) ++ [line])%list
       (spawned w ++ [yt_dlp_command env links])%list).
Proof.
  intros Hlinks Hfolder Hdir Habs Hsub Hh Hstill.
  rewrite (download_songs_enters _ _ _ _ Hlinks Hfolder Hdir).
  rewrite <- download_attempt_starts in Hsub.
  pose proof (download_attempt_handled env links _ _ e line Hsub Hh) as Hatt.
  rewrite (try_finally_back _ _ _ _ _ Hatt Habs Hstill).
  rewrite download_attempt_starts. reflexivity.
Qed.

(** X16: when the utility ends with a non-zero exit status,
    [download_songs] returns [False]: it has started that one command,
    printed one line, [Download failed with error: ...], after the
    announcement, kept every directory and file the utility left on disk,
    and is back in the directory it was called from. *)
Theorem download_songs_utility_fails (env : Env) (links : list string)
    (playlist_folder : string) (w : World) (status : nat)
    (ds : list string) (fs : list (string * string))
    (Hlinks : links <> []) (Hfolder : Py.truthy playlist_folder = true)
    (Hdir : os.is_dir w (os.resolve w playlist_folder) = true)
    (Habs : Py.startswith "/" (cwd w) = true)
    (Hexit : run_process env (yt_dlp_command env links)
               (world_at_download env links playlist_folder w)
             = (Exit (S status), (ds, fs)))
    (Hstill : existsb (String.eqb (cwd w)) ds = true) :
  exists reason : string,
    download_songs env links playlist_folder w
    = (Return false,
       mkWorld (cwd w) ds fs
         (stdout (world_at_download env links playlist_folder w)
          ++ [("Download failed with error: " ++ reason)%string])%list
         (spawned w ++ [yt_dlp_command env links])%list).
Proof.
  eexists. eapply (download_songs_handled env links playlist_folder w);
    try eassumption.
  - unfold subprocess_run. rewrite Hexit. reflexivity.
  - reflexivity.
Qed.

Lemma download_songs_utility_fails_witness :
  exists reason : string,
    download_songs (failing_env (Exit 2))
      ["https://www.youtube.com/watch?v=idA"] "Mix" demo_world_with_folder
    = (Return false,
       mkWorld "/home/u" ["/home/u/Mix"; "/home/u"]
         [("/home/u/Mix/Song A.m4a.part", "au")]
         (stdout (world_at_download (failing_env (Exit 2))
                    ["https://www.youtube.com/watch?v=idA"] "Mix"
                    demo_world_with_folder)
          ++ [("Download failed with error: " ++ reason)%string])%list
         [yt_dlp_command (failing_env (Exit 2))
            ["https://www.youtube.com/watch?v=idA"]]).
Proof.
  apply (download_songs_utility_fails (failing_env (Exit 2))
           ["https://www.youtube.com/watch?v=idA"] "Mix"
           demo_world_with_folder 1
           ["/home/u/Mix"; "/home/u"]
           [("/home/u/Mix/Song A.m4a.part", "au")]);
    first [discriminate | reflexivity].
Defined.

(** X17: when the user interrupts the utility, [download_songs] returns
    [False] as well, with its own line, [Download interrupted by user], in
    place of the line of a failure; the command, the disk and the way back
    are as for a failure. *)
Theorem download_songs_interrupted (env : Env) (links : list string)
    (playlist_folder : string) (w : World)
    (ds : list string) (fs : list (string * string))
    (Hlinks : links <> []) (Hfolder : Py.truthy playlist_folder = true)
    (Hdir : os.is_dir w (os.resolve w playlist_folder) = true)
    (Habs : Py.startswith "/" (cwd w) = true)
    (Hexit : run_process env (yt_dlp_command env links)
               (world_at_download env links playlist_folder w)
             = (UserInterrupt, (ds, fs)))
    (Hstill : existsb (String.eqb (cwd w)) ds = true) :
  download_songs env links playlist_folder w
  = (Return false,
     mkWorld (cwd w) ds fs
       (stdout (world_at_download env links playlist_folder w)
        ++ [(Py.NL ++ "Download interrupted by user")%string])%list
       (spawned w ++ [yt_dlp_command env links])%list).
Proof.
  eapply (download_songs_handled env links playlist_folder w);
    try eassumption.
  - unfold subprocess_run. rewrite Hexit. reflexivity.
  - reflexivity.
Qed.

Lemma download_songs_interrupted_witness :
  download_songs (failing_env UserInterrupt)
    ["https://www.youtube.com/watch?v=idA"] "Mix" demo_world_with_folder
  = (Return false,
     mkWorld "/home/u" ["/home/u/Mix"; "/home/u"]
       [("/home/u/Mix/Song A.m4a.part", "au")]
       (stdout (world_at_download (failing_env UserInterrupt)
                  ["https://www.youtube.com/watch?v=idA"] "Mix"
                  demo_world_with_folder)
        ++ [(Py.NL ++ "Download interrupted by user")%string])%list
       [yt_dlp_command (failing_env UserInterrupt)
          ["https://www.youtube.com/watch?v=idA"]]).
Proof.
  apply (download_songs_interrupted (failing_env UserInterrupt)
           ["https://www.youtube.com/watch?v=idA"] "Mix"
           demo_world_with_folder
           ["/home/u/Mix"; "/home/u"]
           [("/home/u/Mix/Song A.m4a.part", "au")]);
    first [discriminate | reflexivity].
Defined.

(** The report in a directory that exists. *)
Lemma report_download_run (w : World) :
  os.is_dir w (cwd w) = true ->
  report_download w
  = (Return true, printed (success_lines (cwd w) (dirs w) (files w)) w).
Proof.
  intros Hdir. unfold report_download, success_lines.
  do 2 rewrite (bind_run_return _ _ _ _ _ (print_run _ _)).
  rewrite printed_printed. cbn [app]. set (w1 := printed _ w).
  rewrite (bind_run_return (os.path_abspath ".") _ w1 w1 (cwd w) eq_refl).
  rewrite (bind_run_return _ _ _ _ _ (print_run _ _)).
  unfold w1. rewrite printed_printed. cbn [app]. clear w1.
  set (w2 := printed _ w).
  assert (Hls : os.listdir "." w2
                = (Return (listing (cwd w) (dirs w) (files w)), w2)).
  { unfold os.listdir.
    change (os.resolve w2 ".") with (cwd w).
    change (os.is_dir w2 (cwd w)) with (os.is_dir w (cwd w)).
    rewrite Hdir. reflexivity. }
  rewrite (bind_run_return _ _ _ _ _ Hls).
  unfold report_lines.
  destruct (filter (Py.endswith ".m4a") (listing (cwd w) (dirs w) (files w)))
    as [|file found] eqn:Hfound.
  - unfold bind, ret. reflexivity.
  - unfold bind at 1. unfold bind at 1. rewrite print_run.
    rewrite for_each_print, printed_printed. unfold w2.
    rewrite printed_printed. reflexivity.
Qed.

(** X18: when the utility exits with status 0, [download_songs] returns
    [True] after one command, back in the directory it was called from;
    its report names the folder and lists exactly the files that now lie
    directly in the folder and whose names end in [.m4a], in the order of
    the directory listing, whether or not this run produced them. *)
Theorem download_songs_success (env : Env) (links : list string)
    (playlist_folder : string) (w : World)
    (ds : list string) (fs : list (string * string))
    (Hlinks : links <> []) (Hfolder : Py.truthy playlist_folder = true)
    (Hdir : os.is_dir w (os.resolve w playlist_folder) = true)
    (Habs : Py.startswith "/" (cwd w) = true)
    (Hexit : run_process env (yt_dlp_command env links)
               (world_at_download env links playlist_folder w)
             = (Exit 0, (ds, fs)))
    (Hthere : existsb (String.eqb (os.resolve w playlist_folder)) ds = true)
    (Hstill : existsb (String.eqb (cwd w)) ds = true) :
  download_songs env links playlist_folder w
  = (Return true,
     mkWorld (cwd w) ds fs
       (stdout (world_at_download env links playlist_folder w)
        ++ success_lines (os.resolve w playlist_folder) ds fs)%list
       (spawned w ++ [yt_dlp_command env links])%list).
Proof.
  rewrite (download_songs_enters _ _ _ _ Hlinks Hfolder Hdir).
  assert (Hatt :
    download_attempt env links
      (mkWorld (os.resolve w playlist_folder) (dirs w) (files w)
         (stdout w ++ download_announcement links playlist_folder)%list
         (spawned w))
    = (Return true,
       printed (success_lines (os.resolve w playlist_folder) ds fs)
         (mkWorld (os.resolve w playlist_folder) ds fs
            (stdout (world_at_download env links playlist_folder w))
            (spawned w ++ [yt_dlp_command env links])%list))).
  { unfold download_attempt, try_except.
    do 2 rewrite (bind_run_return _ _ _ _ _ (print_run _ _)).
    rewrite printed_printed. cbn [app].
    match goal with
    | |- context [printed ?lines ?w0] =>
        change (printed lines w0)
          with (printed (download_start_lines env links) w0)
    end.
    rewrite download_attempt_starts.
    assert (Hsub :
      subprocess_run env (yt_dlp_command env links)
        (world_at_download env links playlist_folder w)
      = (Return tt,
         mkWorld (os.resolve w playlist_folder) ds fs
           (stdout (world_at_download env links playlist_folder w))
           (spawned w ++ [yt_dlp_command env links])%list)).
    { unfold subprocess_run. rewrite Hexit. reflexivity. }
    rewrite (bind_run_return _ _ _ _ _ Hsub).
    rewrite report_download_run; [reflexivity | exact Hthere]. }
  rewrite (try_finally_back _ _ _ _ _ Hatt Habs Hstill). reflexivity.
Qed.

Lemma download_songs_success_witness :
  download_songs demo_env ["https://www.youtube.com/watch?v=idA"] "Mix"
    demo_world_with_folder
  = (Return true,
     mkWorld "/home/u" ["/home/u/Mix"; "/home/u"]
       [("/home/u/Mix/Song A.m4a", "audio")]
       (stdout (world_at_download demo_env
                  ["https://www.youtube.com/watch?v=idA"] "Mix"
                  demo_world_with_folder)
        ++ success_lines "/home/u/Mix" ["/home/u/Mix"; "/home/u"]
             [("/home/u/Mix/Song A.m4a", "audio")])%list
       [yt_dlp_command demo_env ["https://www.youtube.com/watch?v=idA"]]).
Proof.
  apply (download_songs_success demo_env
           ["https://www.youtube.com/watch?v=idA"] "Mix"
           demo_world_with_folder
           ["/home/u/Mix"; "/home/u"]
           [("/home/u/Mix/Song A.m4a", "audio")]);
    first [discriminate | reflexivity].
Defined.

(* ===================================================================== *)
(** * From the table to the download *)
(* ===================================================================== *)

Lemma map_snd_combine_same {A B : Type} (xs : list A) (ys : list B) :
  List.length ys = List.length xs -> map snd (combine xs ys) = ys.
Proof.
  revert ys. induction xs as [|x xs IH]; intros [|y ys] H; simpl in *;
    try discriminate; [reflexivity|].
  rewrite IH by lia. reflexivity.
Qed.

Lemma present_count (cells : list pd.Cell) :
  List.length (filter pd.notna cells) = List.length (pd.present cells).
Proof.
  induction cells as [|[s|] cells IH]; simpl; [reflexivity | | exact IH].
  rewrite IH. reflexivity.
Qed.

Lemma link_column_of_found (tracks : list Track)
    (found : list (pd.Cell * pd.Cell)) (w : World) :
  List.length found = List.length tracks ->
  pd.column (results_frame tracks found) "YouTube Link" w
  = (Return (map fst found), w).
Proof.
  intros Hlen. unfold results_frame. rewrite link_column_of_results.
  rewrite map_map. cbn [result_row nth].
  rewrite <- (map_snd_combine_same tracks found Hlen) at 2.
  rewrite map_map. reflexivity.
Qed.

Lemma download_stage_run (env : Env) (tracks : list Track)
    (found : list (pd.Cell * pd.Cell)) (playlist_folder : string) (w : World) :
  List.length found = List.length tracks ->
  exists lines : list string,
    download_stage env (results_frame tracks found) playlist_folder w
    = match pd.present (map fst found) with
      | [] =>
          (Return false,
           printed (rate_line env 0 (List.length tracks) :: lines) w)
      | links =>
          download_songs env links playlist_folder
            (printed (rate_line env (List.length links) (List.length tracks)
                        :: lines) w)
      end.
Proof.
  intros Hlen. unfold download_stage.
  rewrite (bind_run_return _ _ w w _ (link_column_of_found tracks found w Hlen)).
  cbv beta. rewrite present_count, length_map, Hlen.
  rewrite (bind_run_return _ _ _ _ _ (print_run _ _)).
  destruct (pd.present (map fst found)) as [|link links].
  - exists [no_links_message].
    rewrite (bind_run_return _ _ _ _ _ (print_run _ _)).
    rewrite printed_printed. reflexivity.
  - eexists.
    do 7 rewrite (bind_run_return _ _ _ _ _ (print_run _ _)).
    rewrite !printed_printed. cbn [app]. reflexivity.
Qed.

(** X19: on the frame of results, the last stage prints the success rate
    as the number of links found over the number of tracks, and then
    either ends with [False] (no link) or calls [download_songs] with
    exactly the links found, in the order of the tracks, the rows without
    a link left out; before that call it has done nothing but print. *)
Theorem download_stage_uses_found_links (env : Env) (tracks : list Track)
    (found : list (pd.Cell * pd.Cell)) (playlist_folder : string) (w : World)
    (Hlen : List.length found = List.length tracks) :
  exists lines : list string,
    download_stage env (results_frame tracks found) playlist_folder w
    = match pd.present (map fst found) with
      | [] =>
          (Return false,
           printed (rate_line env 0 (List.length tracks) :: lines) w)
      | links =>
          download_songs env links playlist_folder
            (printed (rate_line env (List.length links) (List.length tracks)
                        :: lines) w)
      end.
Proof.
  exact (download_stage_run env tracks found playlist_folder w Hlen).
Qed.

Lemma download_stage_uses_found_links_witness :
  exists lines : list string,
    download_stage demo_env
      (results_frame demo_tracks
         [(Some "https://www.youtube.com/watch?v=idA",
           Some "Song A (Lyrics)"); (None, None); (None, None)])
      "Mix" demo_world_with_folder
    = download_songs demo_env ["https://www.youtube.com/watch?v=idA"] "Mix"
        (printed (rate_line demo_env 1 3 :: lines) demo_world_with_folder).
Proof.
  apply (download_stage_uses_found_links demo_env demo_tracks
           [(Some "https://www.youtube.com/watch?v=idA",
             Some "Song A (Lyrics)"); (None, None); (None, None)]
           "Mix" demo_world_with_folder).
  reflexivity.
Defined.

(** The attempt returns [True] only after the utility has run. *)
Lemma download_attempt_true (env : Env) (links : list string)
    (w w' : World) :
  download_attempt env links w = (Return true, w') ->
  spawned w' = (spawned w ++ [yt_dlp_command env links])%list.
Proof.
  unfold download_attempt, try_except.
  rewrite (bind_run_return _ _ _ _ _ (print_run _ w)).
  rewrite (bind_run_return _ _ _ _ _ (print_run _ _)).
  set (w1 := printed _ (printed _ w)). unfold bind.
  assert (Hfailed : forall e w0 w2,
            match download_failed e with
            | Some h => h w0
            | None => (Raise e, w0)
            end <> (Return true, w2)).
  { intros e w0 w2. unfold download_failed.
    destruct (exc_class e); cbn; discriminate. }
  assert (Hrun : forall w2,
            subprocess_run env (yt_dlp_command env links) w1
            = (Return tt, w2) ->
            spawned w2 = (spawned w ++ [yt_dlp_command env links])%list).
  { unfold subprocess_run.
    destruct (run_process env (yt_dlp_command env links) w1)
      as [[[|status] | | msg] [ds fs]]; intros w2 H; inversion H.
    reflexivity. }
  destruct (subprocess_run env (yt_dlp_command env links) w1)
    as [[[] | e |] w2] eqn:Hsub.
  - specialize (Hrun w2 eq_refl).
    pose proof (only_prints_spawns_nothing _ only_prints_report_download w2)
      as Hreport.
    destruct (report_download w2) as [[b | e |] w3]; cbn [snd] in Hreport.
    + intros H. inversion H. subst. rewrite Hreport. exact Hrun.
    + intros H. exfalso. exact (Hfailed e w3 w' H).
    + discriminate.
  - intros H. exfalso. exact (Hfailed e w2 w' H).
  - discriminate.
Qed.

Lemma download_songs_true (env : Env) (links : list string)
    (playlist_folder : string) (w w' : World) :
  download_songs env links playlist_folder w = (Return true, w') ->
  links <> []
  /\ spawned w' = (spawned w ++ [yt_dlp_command env links])%list.
Proof.
  rewrite download_songs_parts.
  destruct links as [|link links]; [discriminate|].
  cbn [orb]. destruct (negb (Py.truthy playlist_folder)); [discriminate|].
  intros H. split; [discriminate|]. revert H.
  do 3 rewrite (bind_run_return _ _ _ _ _ (print_run _ _)).
  set (w1 := printed _ (printed _ (printed _ w))).
  rewrite (bind_run_return os.getcwd _ w1 w1 (cwd w1) eq_refl).
  unfold bind.
  pose proof (spawned_chdir playlist_folder w1) as Hcd.
  destruct (os.chdir playlist_folder w1) as [[[] | e |] w2];
    cbn [snd] in Hcd; try discriminate.
  intros H.
  pose proof (spawned_try_finally_chdir
                (download_attempt env (link :: links)) (cwd w1) w2) as Hfin.
  rewrite H in Hfin. cbn [snd] in Hfin. rewrite Hfin.
  change (spawned w1) with (spawned w) in Hcd. rewrite <- Hcd.
  unfold try_finally in H.
  destruct (download_attempt env (link :: links) w2) as [[b | e |] w3]
    eqn:Hatt; cbn [snd].
  - destruct (os.chdir (cwd w1) w3) as [[[] | e |] w4]; try discriminate.
    inversion H. subst. exact (download_attempt_true env _ w2 w3 Hatt).
  - destruct (os.chdir (cwd w1) w3) as [[[] | e' |] w4]; discriminate.
  - discriminate.
Qed.


(** ** The search for every track *)

Lemma resolve_track_first_hit (env : Env) (track : Track) (w w' : World)
    (result : pd.Cell * pd.Cell) :
  resolve_track env track w = (Return result, w') ->
  result = first_hit env track /\ exists lines, w' = printed lines w.
Proof.
  unfold resolve_track, first_hit.
  destruct (youtube_search env
              (search_query (track_name track) (Some (artists_cell track))))
    as [e | [|hit more]] eqn:Hanswer.
  - destruct (is_Exception e) eqn:He.
    + rewrite (get_youtube_link_error env _ _ e w Hanswer He).
      intros H. inversion H. split; [reflexivity|]. eexists. reflexivity.
    + unfold get_youtube_link, try_except, bind, call. rewrite Hanswer.
      cbn [raise]. rewrite He. discriminate.
  - rewrite (get_youtube_link_no_hit env _ _ w Hanswer).
    intros H. inversion H. split; [reflexivity|]. exists [].
    rewrite printed_nil. reflexivity.
  - rewrite (get_youtube_link_hit env _ _ hit more w Hanswer).
    intros H. inversion H. split; [reflexivity|]. exists [].
    rewrite printed_nil. reflexivity.
Qed.

Lemma resolve_track_returns (env : Env) (track : Track) (w : World) :
  uninterrupted env ->
  exists lines : list string,
    resolve_track env track w
    = (Return (first_hit env track), printed lines w).
Proof.
  intros Hexc.
  destruct (get_youtube_link_returns env (track_name track)
              (Some (artists_cell track)) w (fun e => Hexc _ e))
    as (r & w0 & Hr & _).
  change (resolve_track env track w = (Return r, w0)) in Hr.
  destruct (resolve_track_first_hit env track w w0 r Hr) as (-> & lines & ->).
  exists lines. exact Hr.
Qed.

(** Whenever the searches for all the tracks return, they return the first
    hit of each track, and have printed only. *)
Lemma map_M_resolve_track (env : Env) (tracks : list Track) (w w' : World)
    (found : list (pd.Cell * pd.Cell)) :
  map_M (resolve_track env) tracks w = (Return found, w') ->
  found = map (first_hit env) tracks /\ exists lines, w' = printed lines w.
Proof.
  revert w found. induction tracks as [|t tracks IH]; intros w found;
    cbn [map_M map].
  - intros H. inversion H. split; [reflexivity|]. exists [].
    rewrite printed_nil. reflexivity.
  - unfold bind.
    destruct (resolve_track env t w) as [[r | e |] w1] eqn:Hr;
      try discriminate.
    destruct (map_M (resolve_track env) tracks w1) as [[rs | e |] w2] eqn:Hrs;
      try discriminate.
    intros H. inversion H. subst.
    destruct (resolve_track_first_hit env t w w1 r Hr) as (-> & l1 & ->).
    destruct (IH _ _ Hrs) as (-> & l2 & ->).
    split; [reflexivity|]. exists (l1 ++ l2)%list.
    rewrite printed_printed. reflexivity.
Qed.

Lemma map_M_resolve_track_returns (env : Env) (tracks : list Track)
    (w : World) :
  uninterrupted env ->
  exists lines : list string,
    map_M (resolve_track env) tracks w
    = (Return (map (first_hit env) tracks), printed lines w).
Proof.
  intros Hexc. revert w. induction tracks as [|t tracks IH]; intros w;
    cbn [map_M map].
  - exists []. rewrite printed_nil. reflexivity.
  - destruct (resolve_track_returns env t w Hexc) as (l1 & Hr).
    destruct (IH (printed l1 w)) as (l2 & Hrs).
    exists (l1 ++ l2)%list. unfold bind. rewrite Hr, Hrs.
    rewrite printed_printed. reflexivity.
Qed.

(** X20: for a collection with at least one track, and searches that are
    not interrupted, the search step always returns: its frame has the
    four columns and one row per track, in the order of the tracks, each
    with the name and the artists of the track and the watch URL and the
    title of the first hit of its search (both missing without a hit or
    after an error); the step does nothing but print. *)
Theorem add_youtube_columns_first_hits (env : Env) (tracks : list Track)
    (w : World)
    (Htracks : tracks <> []) (Hsearch : uninterrupted env) :
  exists lines : list string,
    add_youtube_columns env (pd.from_records (map track_info tracks)) w
    = (Return (results_frame tracks (map (first_hit env) tracks)),
       printed lines w).
Proof.
  rewrite (add_youtube_columns_steps env tracks w Htracks).
  destruct (map_M_resolve_track_returns env tracks w Hsearch) as (lines & ->).
  exists lines. reflexivity.
Qed.

Lemma add_youtube_columns_first_hits_witness :
  exists lines : list string,
    add_youtube_columns demo_env
      (pd.from_records (map track_info demo_tracks)) demo_world
    = (Return demo_results, printed lines demo_world).
Proof.
  apply (add_youtube_columns_first_hits demo_env demo_tracks demo_world).
  - discriminate.
  - intros query e. unfold demo_env, make_env, demo_search.
    cbn [youtube_search].
    destruct (Py.contains "Song A" query); [discriminate|].
    destruct (Py.contains "Song C" query); [|discriminate].
    intros H. inversion H. reflexivity.
Defined.

(** ** A whole run that succeeds *)

Lemma bind_true {A : Type} (m : M A) (k : A -> M bool) (w w' : World) :
  bind m k w = (Return true, w') ->
  exists (a : A) (w1 : World),
    m w = (Return a, w1) /\ k a w1 = (Return true, w').
Proof.
  unfold bind. destruct (m w) as [[a | e |] w1]; try discriminate.
  intros H. exists a, w1. split; [reflexivity | exact H].
Qed.

Lemma stays_spawned {A : Type} (m : M A) (w w' : World) (r : Outcome A) :
  stays m -> m w = (r, w') -> spawned w' = spawned w.
Proof.
  intros Hm Hrun. destruct (Hm w) as [_ Hs]. rewrite Hrun in Hs. exact Hs.
Qed.

Ltac stage H a w1 Hstep :=
  apply bind_true in H; destruct H as (a & w1 & Hstep & H).

Lemma process_playlist_true (env : Env) (fuel : nat) (url : string)
    (w w' : World) :
  process_playlist env fuel url w = (Return true, w') ->
  exists (tracks : list Track) (name : string) (w1 : World),
    export_spotify_playlist env fuel url
      (printed [Py.NL ++ "Exporting Spotify playlist..."] w)
    = (Return (Some (pd.from_records (map track_info tracks)), Some name), w1)
    /\ found_links env tracks <> []
    /\ spawned w'
       = (spawned w ++ [yt_dlp_command env (found_links env tracks)])%list.
Proof.
  unfold process_playlist. intros H.
  stage H u0 w1 H0. rewrite print_run in H0. inversion H0. subst u0 w1.
  stage H exported w2 Hexport.
  destruct exported as [[df0|] [name|]]; try discriminate H.
  destruct (export_returns_track_frame _ _ _ _ _ _ _ Hexport) as [tracks ->].
  exists tracks, name, w2. split; [exact Hexport|].
  pose proof (stays_spawned _ _ _ _
                (stays_export_spotify_playlist env fuel url) Hexport) as S2.
  cbn [spawned printed] in S2.
  stage H folder w3 Hfolder.
  pose proof (stays_spawned _ _ _ _
                (stays_create_playlist_folder env name) Hfolder) as S3.
  destruct (truthy_folder folder) as [playlist_folder|]; [|discriminate H].
  stage H u4 w4 H4. rewrite print_run in H4. inversion H4. subst u4 w4.
  stage H u5 w5 H5. rewrite print_run in H5. inversion H5. subst u5 w5.
  stage H u6 w6 H6. rewrite print_run in H6. inversion H6. subst u6 w6.
  stage H u7 w7 H7. rewrite print_run in H7. inversion H7. subst u7 w7.
  stage H df w8 Hsearch.
  destruct (add_youtube_columns_run env tracks _ w8 df Hsearch)
    as (found & Hfound & Hlen & _ & ->).
  destruct (map_M_resolve_track env tracks _ w8 found Hfound)
    as (-> & lines & ->).
  stage H u9 w9 H9. rewrite print_run in H9. inversion H9. subst u9 w9.
  stage H shown w10 Hshown.
  pose proof (stays_spawned _ _ _ _ (stays_select _ _) Hshown) as S10.
  stage H u11 w11 H11. rewrite print_run in H11. inversion H11. subst u11 w11.
  stage H u12 w12 Hsave.
  pose proof (stays_spawned _ _ _ _ (stays_save_results env _ _) Hsave) as S12.
  change (pd.mkFrame result_columns
            (map (fun tm => result_row (fst tm) (snd tm))
               (combine tracks (map (first_hit env) tracks))))
    with (results_frame tracks (map (first_hit env) tracks)) in H.
  destruct (download_stage_run env tracks (map (first_hit env) tracks)
              playlist_folder w12 Hlen) as (more & Hstage).
  rewrite Hstage in H. clear Hstage. rewrite map_map in H.
  change (pd.present (map (fun x => fst (first_hit env x)) tracks))
    with (found_links env tracks) in H.
  destruct (found_links env tracks) as [|link links] eqn:Hlinks;
    [discriminate H|].
  split; [discriminate|].
  destruct (download_songs_true env _ _ _ _ H) as [_ ->].
  cbn [spawned printed] in *. rewrite S12. cbn [spawned printed].
  rewrite S10. cbn [spawned printed]. rewrite S3, S2. reflexivity.
Qed.

(** X21: a run of [process_playlist] returns [True] only if the export
    gave the tracks of a collection and its name, at least one track has a
    search hit, and exactly one subprocess was started in the whole run:
    the download utility, on the watch URLs of the first hits of the
    tracks, in the order of the tracks, the tracks without a hit left
    out. *)
Theorem process_playlist_success_needs_download (env : Env) (fuel : nat)
    (url : string) (w : World)
    (Hsuccess : fst (process_playlist env fuel url w) = Return true) :
  exists (tracks : list Track) (name : string) (w1 : World),
    export_spotify_playlist env fuel url
      (printed [Py.NL ++ "Exporting Spotify playlist..."] w)
    = (Return (Some (pd.from_records (map track_info tracks)), Some name), w1)
    /\ found_links env tracks <> []
    /\ spawned (snd (process_playlist env fuel url w))
       = (spawned w ++ [yt_dlp_command env (found_links env tracks)])%list.
Proof.
  destruct (process_playlist env fuel url w) as [r w'] eqn:Hrun.
  cbn [fst snd] in *. subst r.
  exact (process_playlist_true env fuel url w w' Hrun).
Qed.

Lemma process_playlist_success_needs_download_witness :
  exists (tracks : list Track) (name : string) (w1 : World),
    export_spotify_playlist demo_env 1 demo_playlist_url
      (printed [Py.NL ++ "Exporting Spotify playlist..."] demo_world)
    = (Return (Some (pd.from_records (map track_info tracks)), Some name), w1)
    /\ found_links demo_env tracks <> []
    /\ spawned (snd (process_playlist demo_env 1 demo_playlist_url demo_world))
       = ([] ++ [yt_dlp_command demo_env (found_links demo_env tracks)])%list.
Proof.
  apply (process_playlist_success_needs_download demo_env 1
           demo_playlist_url demo_world).
  vm_compute. reflexivity.
Defined.

(** ** A whole run without hits *)

(** X28: when the search has no hit for any query (it answers with no
    item, or fails with an [Exception]), a whole run of
    [process_playlist], however far it gets, leaves the working directory
    where it was, starts no subprocess and does not return [True]. *)
Theorem process_playlist_no_hits (env : Env) (fuel : nat) (url : string)
    (w : World) (Hnone : finds_nothing env) :
  cwd (snd (process_playlist env fuel url w)) = cwd w
  /\ spawned (snd (process_playlist env fuel url w)) = spawned w
  /\ fst (process_playlist env fuel url w) <> Return true.
Proof. exact (process_playlist_without_hits env fuel url w Hnone). Qed.

Lemma process_playlist_no_hits_witness :
  cwd (snd (process_playlist silent_env 1 demo_playlist_url demo_world))
  = "/home/u"
  /\ spawned (snd (process_playlist silent_env 1 demo_playlist_url demo_world))
     = []
  /\ fst (process_playlist silent_env 1 demo_playlist_url demo_world)
     <> Return true.
Proof.
  apply (process_playlist_no_hits silent_env 1 demo_playlist_url demo_world).
  intros query. left. reflexivity.
Defined.

(** ** A search that is interrupted *)

Lemma resolve_track_interrupted (env : Env) (track : Track) (e : PyExc)
    (w : World) :
  youtube_search env
    (search_query (track_name track) (Some (artists_cell track))) = inl e ->
  is_Exception e = false ->
  resolve_track env track w = (Raise e, w).
Proof.
  intros Hanswer He.
  unfold resolve_track, get_youtube_link, try_except, bind, call.
  rewrite Hanswer. cbn [raise]. rewrite He. reflexivity.
Qed.

Lemma resolve_track_outcome (env : Env) (track : Track) (w : World) :
  (exists lines : list string,
     resolve_track env track w
     = (Return (first_hit env track), printed lines w))
  \/ (exists e : PyExc,
        resolve_track env track w = (Raise e, w) /\ is_Exception e = false).
Proof.
  destruct (youtube_search env
              (search_query (track_name track) (Some (artists_cell track))))
    as [e | items] eqn:Hanswer.
  - destruct (is_Exception e) eqn:He.
    + left. eexists. unfold first_hit. rewrite Hanswer.
      exact (get_youtube_link_error env _ _ e w Hanswer He).
    + right. exists e. split; [|exact He].
      exact (resolve_track_interrupted env track e w Hanswer He).
  - left. exists []. rewrite printed_nil. unfold first_hit. rewrite Hanswer.
    destruct items as [|hit more].
    + exact (get_youtube_link_no_hit env _ _ w Hanswer).
    + exact (get_youtube_link_hit env _ _ hit more w Hanswer).
Qed.

Lemma map_M_resolve_track_interrupted (env : Env) (tracks : list Track)
    (track : Track) (e : PyExc) (w : World) :
  In track tracks ->
  youtube_search env
    (search_query (track_name track) (Some (artists_cell track))) = inl e ->
  is_Exception e = false ->
  exists (e' : PyExc) (lines : list string),
    map_M (resolve_track env) tracks w = (Raise e', printed lines w)
    /\ is_Exception e' = false.
Proof.
  intros Hin Hanswer He. revert w.
  induction tracks as [|t tracks IH]; intros w; [destruct Hin|].
  cbn [map_M]. unfold bind at 1.
  destruct (resolve_track_outcome env t w) as [(l1 & Hr) | (e0 & Hr & He0)].
  - rewrite Hr. destruct Hin as [-> | Hin].
    + rewrite (resolve_track_interrupted env track e w Hanswer He) in Hr.
      discriminate Hr.
    + destruct (IH Hin (printed l1 w)) as (e' & l2 & Hrest & He').
      exists e', (l1 ++ l2)%list. unfold bind. rewrite Hrest.
      rewrite printed_printed. split; [reflexivity | exact He'].
  - rewrite Hr. exists e0, []. rewrite printed_nil.
    split; [reflexivity | exact He0].
Qed.

(** X29: an interrupt is not taken for a search without result.  When the
    search for one of the tracks raises something that is no [Exception]
    (the user's interrupt, an exit), the search step raises such an
    exception too, after the searches for the tracks before it, and hands
    back no frame; up to then it has done nothing but print. *)
Theorem add_youtube_columns_interrupt (env : Env) (tracks : list Track)
    (track : Track) (e : PyExc) (w : World)
    (Htrack : In track tracks)
    (Hanswer : youtube_search env
                 (search_query (track_name track) (Some (artists_cell track)))
               = inl e)
    (Hclass : is_Exception e = false) :
  exists (e' : PyExc) (lines : list string),
    add_youtube_columns env (pd.from_records (map track_info tracks)) w
    = (Raise e', printed lines w)
    /\ is_Exception e' = false.
Proof.
  assert (Hne : tracks <> []) by (destruct tracks; [destruct Htrack | discriminate]).
  rewrite (add_youtube_columns_steps env tracks w Hne).
  destruct (map_M_resolve_track_interrupted env tracks track e w
              Htrack Hanswer Hclass) as (e' & lines & -> & He').
  exists e', lines. split; [reflexivity | exact He'].
Qed.


(* ===================================================================== *)
(** * The start of the program *)
(* ===================================================================== *)

(** ** The environment variables *)

Lemma filter_nil_forallb {A : Type} (f : A -> bool) (xs : list A) :
  match filter f xs with [] => true | _ => false end
  = forallb (fun x => negb (f x)) xs.
Proof.
  induction xs as [|x xs IH]; [reflexivity|]. simpl.
  destruct (f x); [reflexivity | exact IH].
Qed.

Lemma append_injective (p a b : string) : p ++ a = p ++ b -> a = b.
Proof.
  induction p as [|c p IH]; simpl; intros H; [exact H|].
  apply IH. congruence.
Qed.

Lemma check_environment_run (host : Host) (w : World) :
  exists lines : list string,
    check_environment host w
    = (Return (forallb (fun var => negb (unset host var)) required_vars),
       printed lines w)
    /\ forall var : string,
         In ("  - " ++ var) lines
         <-> In var required_vars /\ unset host var = true.
Proof.
  unfold check_environment.
  rewrite <- (filter_nil_forallb (unset host) required_vars).
  assert (Hin : forall var,
            In var (filter (unset host) required_vars)
            <-> In var required_vars /\ unset host var = true)
    by (intros var; apply filter_In).
  destruct (filter (unset host) required_vars) as [|v missing].
  - exists []. rewrite printed_nil. split; [reflexivity|].
    intros var. rewrite <- Hin. reflexivity.
  - eexists. split.
    + rewrite (bind_run_return _ _ _ _ _ (print_run _ _)).
      rewrite (bind_run_return _ _ _ _ _ (for_each_print _ _ _)).
      do 4 rewrite (bind_run_return _ _ _ _ _ (print_run _ _)).
      rewrite !printed_printed. reflexivity.
    + intros var. rewrite <- Hin. cbn [app In map]. split.
      * intros [H | [H | H]]; [discriminate H | |].
        -- left. exact (append_injective _ _ _ H).
        -- apply in_app_or in H as [H | H].
           ++ right. apply in_map_iff in H as (x & Hx & Hmem).
              rewrite <- (append_injective _ _ _ Hx). exact Hmem.
           ++ cbn [In] in H.
              destruct H as [H | [H | [H | [H | []]]]]; discriminate H.
      * intros [-> | H]; [right; left; reflexivity|].
        right. right. apply in_or_app. left.
        apply in_map_iff. exists var. split; [reflexivity | exact H].
Qed.

(** X22: [check_environment] returns [True] exactly when each of the three
    variables is set to a value that is not empty; otherwise it returns
    [False], and the names it lists are the names of the variables that
    are unset or empty, and no others.  It does nothing but print. *)
Theorem check_environment_reports_missing (host : Host) (w : World) :
  exists lines : list string,
    check_environment host w
    = (Return (forallb (fun var => negb (unset host var)) required_vars),
       printed lines w)
    /\ forall var : string,
         In ("  - " ++ var) lines
         <-> In var required_vars /\ unset host var = true.
Proof. exact (check_environment_run host w). Qed.

(** ** The packages *)

(** A step that ends in [Return a] without starting a process. *)
Lemma bind_spawned {A B : Type} (m : M A) (k : A -> M B) (w w1 : World)
    (a : A) :
  m w = (Return a, w1) -> bind m k w = k a w1.
Proof. apply bind_run_return. Qed.

Lemma find_missing_run (host : Host) (packages : list (string * string))
    (w : World) :
  imports_settle host ->
  exists lines : list string,
    find_missing host packages w
    = (Return (flat_map
                 (fun p => match import_module host (fst p) with
                           | ImportMissing => [snd p]
                           | _ => []
                           end) packages),
       printed lines w).
Proof.
  intros Hsettle. revert w.
  induction packages as [|[import_name package_name] rest IH]; intros w.
  - exists []. rewrite printed_nil. reflexivity.
  - cbn [find_missing flat_map fst snd].
    destruct (import_module host import_name) as [| |e] eqn:Himport.
    + destruct (IH (printed [package_name ++ " is already installed"] w))
        as (lines & Hrest).
      eexists. unfold bind at 1 2. rewrite print_run. cbn [ret].
      unfold bind. rewrite Hrest. rewrite printed_printed. reflexivity.
    + destruct (IH (printed [package_name ++ " is missing"] w))
        as (lines & Hrest).
      eexists. unfold bind at 1 2. rewrite print_run. cbn [ret].
      unfold bind. rewrite Hrest. rewrite printed_printed. reflexivity.
    + exfalso. exact (Hsettle import_name e Himport).
Qed.

(** One installation, when the process runs to an exit status. *)
Lemma install_package_run (env : Env) (status : list string -> nat)
    (package : string) (w : World) :
  exits_with env status ->
  exists w' : World,
    install_package env package w
    = (Return (succeeds status (pip_install env package)), w')
    /\ spawned w' = (spawned w ++ [pip_install env package])%list.
Proof.
  intros Hexit. unfold install_package, try_except.
  rewrite (bind_run_return _ _ _ _ _ (print_run _ _)).
  set (w1 := printed _ w).
  pose proof (Hexit (pip_install env package) w1) as Hrun.
  unfold bind, subprocess_run, succeeds.
  destruct (run_process env (pip_install env package) w1)
    as [result [ds fs]]. cbn [fst] in Hrun. subst result.
  destruct (status (pip_install env package)) as [|n]; cbn.
  - eexists. split; reflexivity.
  - eexists. split; reflexivity.
Qed.

Lemma install_each_run (env : Env) (status : list string -> nat)
    (packages : list string) (n : nat) (w : World) :
  exits_with env status ->
  exists w' : World,
    install_each env packages n w
    = (Return (n + List.length
                     (filter (fun p => succeeds status (pip_install env p))
                        packages)), w')
    /\ spawned w' = (spawned w ++ map (pip_install env) packages)%list.
Proof.
  intros Hexit. revert n w.
  induction packages as [|package rest IH]; intros n w.
  - exists w. cbn. rewrite Nat.add_0_r, app_nil_r. split; reflexivity.
  - cbn [install_each filter map].
    destruct (install_package_run env status package w Hexit)
      as (w1 & Hone & Hs1).
    rewrite (bind_run_return _ _ _ _ _ Hone).
    destruct (succeeds status (pip_install env package)).
    + destruct (IH (S n) w1) as (w2 & Hrest & Hs2).
      exists w2. rewrite Hrest, Hs2, Hs1, <- app_assoc. cbn [length app].
      split; [|reflexivity]. cbn [Datatypes.length].
      rewrite Nat.add_succ_r. reflexivity.
    + destruct (IH n w1) as (w2 & Hrest & Hs2).
      exists w2. rewrite Hrest, Hs2, Hs1, <- app_assoc.
      split; reflexivity.
Qed.

Lemma filter_all_length {A : Type} (f : A -> bool) (xs : list A) :
  Nat.ltb (List.length (filter f xs)) (List.length xs) = negb (forallb f xs).
Proof.
  induction xs as [|x xs IH]; [reflexivity|].
  cbn [filter forallb Datatypes.length].
  destruct (f x); cbn [Datatypes.length andb negb].
  - exact IH.
  - pose proof (filter_length_le f xs) as Hle.
    apply Nat.ltb_lt. lia.
Qed.

Lemma check_and_install_packages_run (env : Env) (host : Host)
    (status : list string -> nat) (w : World) :
  imports_settle host -> exits_with env status ->
  exists w' : World,
    check_and_install_packages env host w
    = (Return (forallb (fun p => succeeds status (pip_install env p))
                 (missing_on host)), w')
    /\ spawned w'
       = (spawned w ++ map (pip_install env) (missing_on host))%list.
Proof.
  intros Hsettle Hexit. unfold check_and_install_packages.
  do 2 rewrite (bind_run_return _ _ _ _ _ (print_run _ _)).
  destruct (find_missing_run host required_packages
              (printed [str_repeat "=" 50]
                 (printed ["Checking and installing required packages..."] w))
              Hsettle) as (lines & Hmissing).
  rewrite (bind_run_return _ _ _ _ _ Hmissing).
  fold (missing_on host). destruct (missing_on host) as [|p ps] eqn:Hlist.
  - eexists. rewrite (bind_run_return _ _ _ _ _ (print_run _ _)).
    split; [reflexivity|]. cbn. rewrite app_nil_r. reflexivity.
  - rewrite (bind_run_return _ _ _ _ _ (print_run _ _)).
    match goal with
    | |- exists _, bind _ _ ?w0 = _ /\ _ =>
        destruct (install_each_run env status (p :: ps) 0 w0 Hexit)
          as (w1 & Heach & Hs1)
    end.
    rewrite (bind_run_return _ _ _ _ _ Heach).
    do 3 rewrite (bind_run_return _ _ _ _ _ (print_run _ _)).
    cbn [Nat.add]. rewrite filter_all_length.
    destruct (forallb (fun p0 => succeeds status (pip_install env p0))
                (p :: ps)); cbn [negb].
    + rewrite (bind_run_return _ _ _ _ _ (print_run _ _)).
      eexists. split; [reflexivity|]. cbn [spawned printed].
      rewrite Hs1. reflexivity.
    + rewrite (bind_run_return _ _ _ _ _ (print_run _ _)).
      rewrite (bind_run_return _ _ _ _ _ (for_each_print _ _ _)).
      eexists. split; [reflexivity|]. cbn [spawned printed].
      rewrite Hs1. reflexivity.
Qed.

(** X23: when no import raises anything but [ImportError] and every [pip]
    process runs to an exit status, [check_and_install_packages] starts
    one [pip install] for each missing package, in the order of the dict,
    and for nothing else; a failed installation does not stop the ones
    after it; and the function returns [True] exactly when every one of
    these installations exits with status 0 (so also when nothing is
    missing, in which case no process is started). *)
Theorem check_and_install_packages_installs_missing (env : Env)
    (host : Host) (status : list string -> nat) (w : World)
    (Himports : imports_settle host) (Hexits : exits_with env status) :
  fst (check_and_install_packages env host w)
  = Return (forallb (fun p => succeeds status (pip_install env p))
              (missing_on host))
  /\ spawned (snd (check_and_install_packages env host w))
     = (spawned w ++ map (pip_install env) (missing_on host))%list.
Proof.
  destruct (check_and_install_packages_run env host status w Himports Hexits)
    as (w' & -> & Hs).
  split; [reflexivity | exact Hs].
Qed.

Lemma check_and_install_packages_installs_missing_witness :
  fst (check_and_install_packages picky_env fresh_host demo_world)
  = Return false
  /\ spawned (snd (check_and_install_packages picky_env fresh_host demo_world))
     = [["/usr/bin/python3"; "-m"; "pip"; "install"; "pandas"];
        ["/usr/bin/python3"; "-m"; "pip"; "install"; "tqdm"]].
Proof.
  apply (check_and_install_packages_installs_missing picky_env fresh_host
           picky_status demo_world).
  - intros name e. cbn [import_module fresh_host].
    destruct (String.eqb name "pandas" || String.eqb name "tqdm");
      discriminate.
  - intros cmd w. reflexivity.
Defined.

(** ** The installer script *)

Lemma installer_install_package_run (env : Env) (package : string)
    (w : World) :
  always_exits env ->
  exists (installed : bool) (w' : World),
    install_requirements.install_package env package w
    = (Return installed, w')
    /\ spawned w' = (spawned w ++ [pip_install env package])%list.
Proof.
  intros Hexit. unfold install_requirements.install_package, try_except.
  destruct (Hexit (pip_install env package) w) as (status & Hrun).
  unfold bind, subprocess_run.
  destruct (run_process env (pip_install env package) w)
    as [result [ds fs]]. cbn [fst] in Hrun. subst result.
  destruct status as [|n]; cbn; eexists _, _; split; reflexivity.
Qed.

Lemma installer_install_each_run (env : Env) (todo : list string) (n : nat)
    (w : World) :
  always_exits env ->
  exists (success_count : nat) (w' : World),
    install_requirements.install_each env todo n w
    = (Return success_count, w')
    /\ spawned w' = (spawned w ++ map (pip_install env) todo)%list.
Proof.
  intros Hexit. revert n w. induction todo as [|package rest IH]; intros n w.
  - exists n, w. cbn. rewrite app_nil_r. split; reflexivity.
  - cbn [install_requirements.install_each map].
    destruct (installer_install_package_run env package w Hexit)
      as (installed & w1 & Hone & Hs1).
    rewrite (bind_run_return _ _ _ _ _ Hone).
    destruct (IH (if installed then S n else n) w1)
      as (success_count & w2 & Hrest & Hs2).
    exists success_count, w2. rewrite Hrest, Hs2, Hs1, <- app_assoc.
    split; reflexivity.
Qed.

(** X24: when every [pip] process runs to an exit status, the installer
    script tries all six packages, in the order of its list, whatever the
    exit status of each: a failed installation does not keep it from
    trying the rest, and it ends without an exception. *)
Theorem installer_tries_every_package (env : Env) (w : World)
    (Hexits : always_exits env) :
  fst (install_requirements.main env w) = Return tt
  /\ spawned (snd (install_requirements.main env w))
     = (spawned w
        ++ map (pip_install env)
             ["spotipy"; "pandas"; "google-api-python-client"; "tqdm";
              "python-dotenv"; "yt-dlp"])%list.
Proof.
  unfold install_requirements.main.
  do 2 rewrite (bind_run_return _ _ _ _ _ (print_run _ _)).
  match goal with
  | |- fst (bind _ _ ?w0) = _ /\ _ =>
      destruct (installer_install_each_run env
                  install_requirements.packages 0 w0 Hexits)
        as (success_count & w1 & Heach & Hs1)
  end.
  rewrite (bind_run_return _ _ _ _ _ Heach).
  rewrite (bind_run_return _ _ _ _ _ (print_run _ _)).
  destruct (Nat.eqb success_count
              (Datatypes.length install_requirements.packages)).
  - do 5 rewrite (bind_run_return _ _ _ _ _ (print_run _ _)).
    rewrite print_run. cbn [fst snd spawned printed]. rewrite Hs1.
    split; reflexivity.
  - do 2 rewrite (bind_run_return _ _ _ _ _ (print_run _ _)).
    rewrite for_each_print. cbn [fst snd spawned printed]. rewrite Hs1.
    split; reflexivity.
Qed.

Lemma installer_tries_every_package_witness :
  fst (install_requirements.main picky_env demo_world) = Return tt
  /\ spawned (snd (install_requirements.main picky_env demo_world))
     = ([]
        ++ map (pip_install picky_env)
             ["spotipy"; "pandas"; "google-api-python-client"; "tqdm";
              "python-dotenv"; "yt-dlp"])%list.
Proof.
  apply (installer_tries_every_package picky_env demo_world).
  intros cmd w. eexists. reflexivity.
Defined.

(** ** The download utility at the start *)

Lemma check_yt_dlp_parts (env : Env) (host : Host) :
  check_yt_dlp env host
  = (version <- run_probe host ["yt-dlp"; "--version"] ;;
     match version with
     | Some out =>
         print ("yt-dlp is installed (version: "
                ++ Py.strip whitespace out ++ ")") ;;
         ret true
     | None =>
         print "yt-dlp is not installed" ;;
         print "Installing yt-dlp..." ;;
         install_yt_dlp env
     end).
Proof. reflexivity. Qed.

Lemma install_yt_dlp_run (env : Env) (w w' : World) (r : Outcome bool) :
  install_yt_dlp env w = (r, w') ->
  r <> Diverge
  /\ (r = Return false ->
      exists status : nat,
        fst (run_process env (pip_install env "yt-dlp") w) = Exit (S status)
        /\ spawned w' = (spawned w ++ [pip_install env "yt-dlp"])%list).
Proof.
  unfold install_yt_dlp, try_except, bind, subprocess_run.
  destruct (run_process env (pip_install env "yt-dlp") w)
    as [[[|status] | | msg] [ds fs]]; cbn; intros H; inversion H;
    (split; [discriminate|]); try discriminate.
  intros _. exists status. split; reflexivity.
Qed.

(** The probe that answers. *)
Lemma check_yt_dlp_run (env : Env) (host : Host) (out : string) (w : World) :
  run_captured host ["yt-dlp"; "--version"] w
  = (Finished 0 out, (dirs w, files w)) ->
  check_yt_dlp env host w
  = (Return true,
     mkWorld (cwd w) (dirs w) (files w)
       (stdout w
        ++ [("yt-dlp is installed (version: "
             ++ Py.strip whitespace out ++ ")")%string])%list
       (spawned w ++ [["yt-dlp"; "--version"]])%list).
Proof.
  intros Hprobe. unfold check_yt_dlp, bind at 1, run_probe.
  rewrite Hprobe. reflexivity.
Qed.

Lemma check_yt_dlp_cases (env : Env) (host : Host) (w w' : World)
    (r : Outcome bool) :
  check_yt_dlp env host w = (r, w') ->
  r <> Diverge
  /\ (forall (out : string) (ds : list string) (fs : list (string * string)),
        run_captured host ["yt-dlp"; "--version"] w = (Finished 0 out, (ds, fs)) ->
        (r, w')
        = (Return true,
           mkWorld (cwd w) ds fs
             (stdout w
              ++ [("yt-dlp is installed (version: "
                   ++ Py.strip whitespace out ++ ")")%string])%list
             (spawned w ++ [["yt-dlp"; "--version"]])%list))
  /\ (r = Return false ->
      exists (w1 : World) (status : nat),
        fst (run_process env (pip_install env "yt-dlp") w1) = Exit (S status)
        /\ spawned w' = (spawned w1 ++ [pip_install env "yt-dlp"])%list).
Proof.
  rewrite check_yt_dlp_parts. unfold bind at 1, run_probe.
  destruct (run_captured host ["yt-dlp"; "--version"] w)
    as [[[|n] out | | e] [ds fs]].
  - rewrite (bind_run_return _ _ _ _ _ (print_run _ _)). cbn [ret].
    intros H. inversion H. subst. split; [discriminate|].
    split; [|discriminate].
    intros out' ds' fs' H'. inversion H'. reflexivity.
  - do 2 rewrite (bind_run_return _ _ _ _ _ (print_run _ _)).
    intros Hrun.
    destruct (install_yt_dlp_run env _ w' r Hrun) as [Hends Hfalse].
    split; [exact Hends|]. split; [discriminate|].
    intros Hr. destruct (Hfalse Hr) as (status & Hexit & Hs).
    eexists _, status. split; [exact Hexit | exact Hs].
  - do 2 rewrite (bind_run_return _ _ _ _ _ (print_run _ _)).
    intros Hrun.
    destruct (install_yt_dlp_run env _ w' r Hrun) as [Hends Hfalse].
    split; [exact Hends|]. split; [discriminate|].
    intros Hr. destruct (Hfalse Hr) as (status & Hexit & Hs).
    eexists _, status. split; [exact Hexit | exact Hs].
  - intros H. inversion H. split; [discriminate|]. split; discriminate.
Qed.

(** X25: [check_yt_dlp] always ends.  When [yt-dlp --version] exits with
    status 0 it returns [True] after that one process and one line with
    the version, its surrounding white space taken off, and installs
    nothing.  It returns [False] only when the last process it started is
    [pip install yt-dlp] and that process ended with a non-zero status. *)
Theorem check_yt_dlp_outcomes (env : Env) (host : Host) (w : World) :
  fst (check_yt_dlp env host w) <> Diverge
  /\ (forall (out : string) (ds : list string) (fs : list (string * string)),
        run_captured host ["yt-dlp"; "--version"] w = (Finished 0 out, (ds, fs)) ->
        check_yt_dlp env host w
        = (Return true,
           mkWorld (cwd w) ds fs
             (stdout w
              ++ [("yt-dlp is installed (version: "
                   ++ Py.strip whitespace out ++ ")")%string])%list
             (spawned w ++ [["yt-dlp"; "--version"]])%list))
  /\ (fst (check_yt_dlp env host w) = Return false ->
      exists (w1 : World) (status : nat),
        fst (run_process env (pip_install env "yt-dlp") w1) = Exit (S status)
        /\ spawned (snd (check_yt_dlp env host w))
           = (spawned w1 ++ [pip_install env "yt-dlp"])%list).
Proof.
  destruct (check_yt_dlp env host w) as [r w'] eqn:Hrun. cbn [fst snd].
  exact (check_yt_dlp_cases env host w w' r Hrun).
Qed.

(** ** The main function *)

Lemma packages_in_place_run :
  exists lines : list string,
    forall (host : Host) (env : Env) (w : World),
      packages_in_place host ->
      check_and_install_packages env host w = (Return true, printed lines w).
Proof.
  eexists. intros host env w Hplace.
  unfold check_and_install_packages, required_packages.
  cbn [find_missing].
  assert (Himport : forall p, In p required_packages ->
                              import_module host (fst p) = Imported)
    by exact Hplace.
  unfold required_packages in Himport.
  pose proof (Himport ("spotipy", "spotipy")) as H1.
  pose proof (Himport ("pandas", "pandas")) as H2.
  pose proof (Himport ("googleapiclient", "google-api-python-client")) as H3.
  pose proof (Himport ("tqdm", "tqdm")) as H4.
  pose proof (Himport ("dotenv", "python-dotenv")) as H5.
  cbn [fst In] in H1, H2, H3, H4, H5.
  rewrite H1, H2, H3, H4, H5 by tauto.
  unfold bind, ret. rewrite !print_run, !printed_printed. cbn [app].
  reflexivity.
Qed.

(** X26: with the packages in place and one of the three variables unset
    or empty, [main] ends after the diagnosis, which names the variable.
    It has done nothing but print, and its outcome is the same whatever
    the services, the question for the version of [yt-dlp] and the user at
    the prompt would answer: none of them is asked. *)
Theorem main_stops_without_variable (host : Host) (w : World) (var : string)
    (Hpackages : packages_in_place host)
    (Hvar : In var required_vars) (Hunset : unset host var = true) :
  exists lines : list string,
    In ("  - " ++ var) lines
    /\ forall (env : Env) (fuel : nat)
         (probe : list string -> World ->
                  Captured * (list string * list (string * string)))
         (answer : PyExc + string),
         main env (mkHost (getenv host) (import_module host) probe answer)
           fuel w
         = (Return tt, printed lines w).
Proof.
  destruct packages_in_place_run as (l1 & Hcheck).
  destruct (check_environment_run host
              (printed l1
                 (printed [str_repeat "=" 50]
                    (printed ["Spotify Playlist to YouTube Downloader"] w))))
    as (l2 & Henv & Hlisted).
  assert (Hfalse : forallb (fun v => negb (unset host v)) required_vars
                   = false).
  { destruct (forallb (fun v => negb (unset host v)) required_vars) eqn:Hall;
      [|reflexivity].
    rewrite forallb_forall in Hall. specialize (Hall var Hvar).
    rewrite Hunset in Hall. discriminate Hall. }
  rewrite Hfalse in Henv.
  exists (["Spotify Playlist to YouTube Downloader"; str_repeat "=" 50]
          ++ l1 ++ l2)%list.
  split.
  - apply in_or_app. right. apply in_or_app. right.
    apply Hlisted. split; assumption.
  - intros env fuel probe answer. unfold main.
    do 2 rewrite (bind_run_return _ _ _ _ _ (print_run _ _)).
    rewrite (bind_run_return _ _ _ _ _
               (Hcheck (mkHost (getenv host) (import_module host) probe answer)
                  env _ Hpackages)).
    cbn [negb].
    change (check_environment
              (mkHost (getenv host) (import_module host) probe answer))
      with (check_environment host).
    rewrite (bind_run_return _ _ _ _ _ Henv). cbn [negb ret].
    rewrite !printed_printed. reflexivity.
Qed.

Lemma main_stops_without_variable_witness :
  exists lines : list string,
    In ("  - " ++ "YOUTUBE_API_KEY") lines
    /\ forall (env : Env) (fuel : nat)
         (probe : list string -> World ->
                  Captured * (list string * list (string * string)))
         (answer : PyExc + string),
         main env
           (mkHost (getenv bare_host) (import_module bare_host) probe answer)
           fuel demo_world
         = (Return tt, printed lines demo_world).
Proof.
  apply (main_stops_without_variable bare_host demo_world "YOUTUBE_API_KEY").
  - intros p _. reflexivity.
  - cbn. tauto.
  - reflexivity.
Defined.

(** X27: with the packages in place, the variables set and a [yt-dlp]
    that answers, a line of nothing but white space at the prompt ends
    [main] with [No URL provided!]: the playlist is not processed, nothing
    is asked of the services, and the only process started is the
    question for the version. *)
Theorem main_without_url (host : Host) (w : World) (typed out : string)
    (Hpackages : packages_in_place host)
    (Hvars : forall var, In var required_vars -> unset host var = false)
    (Hprobe : forall w0 : World,
                run_captured host ["yt-dlp"; "--version"] w0
                = (Finished 0 out, (dirs w0, files w0)))
    (Htyped : input_line host = inr typed)
    (Hblank : Py.strip whitespace typed = EmptyString) :
  exists lines : list string,
    forall (env : Env) (fuel : nat),
      main env host fuel w
      = (Return tt,
         mkWorld (cwd w) (dirs w) (files w)
           (stdout w ++ lines ++ ["No URL provided!"])%list
           (spawned w ++ [["yt-dlp"; "--version"]])%list).
Proof.
  destruct packages_in_place_run as (l1 & Hcheck).
  assert (Henv : forall w0, check_environment host w0 = (Return true, w0)).
  { intros w0. unfold check_environment, required_vars. cbn [filter].
    rewrite !Hvars by (cbn; tauto). reflexivity. }
  exists (["Spotify Playlist to YouTube Downloader"; str_repeat "=" 50]
          ++ l1
          ++ [("yt-dlp is installed (version: "
               ++ Py.strip whitespace out ++ ")")%string;
              "Paste your Spotify playlist URL: "])%list.
  intros env fuel. unfold main.
  do 2 rewrite (bind_run_return _ _ _ _ _ (print_run _ _)).
  rewrite (bind_run_return _ _ _ _ _ (Hcheck host env _ Hpackages)).
  cbn [negb].
  rewrite (bind_run_return _ _ _ _ _ (Henv _)). cbn [negb].
  rewrite (bind_run_return _ _ _ _ _
             (check_yt_dlp_run env host out _ (Hprobe _))). cbn [negb].
  unfold input. unfold bind at 1. unfold bind at 1. rewrite print_run.
  rewrite Htyped. cbn [call]. unfold ret. cbv beta iota.
  rewrite Hblank. cbn [Py.truthy negb].
  rewrite print_run. unfold printed. cbn [cwd dirs files stdout spawned].
  rewrite <- !app_assoc. cbn [app]. reflexivity.
Qed.

Lemma main_without_url_witness :
  exists lines : list string,
    forall (env : Env) (fuel : nat),
      main env (demo_host "   ") fuel demo_world
      = (Return tt,
         mkWorld "/home/u" ["/home/u"] []
           ([] ++ lines ++ ["No URL provided!"])%list
           ([] ++ [["yt-dlp"; "--version"]])%list).
Proof.
  apply (main_without_url (demo_host "   ") demo_world "   "
           ("2024.08.06" ++ Py.NL)).
  - intros p _. reflexivity.
  - intros var _. reflexivity.
  - intros w0. reflexivity.
  - reflexivity.
  - reflexivity.
Defined.

Lemma add_youtube_columns_interrupt_witness :
  exists (e' : PyExc) (lines : list string),
    add_youtube_columns interrupted_search_env
      (pd.from_records (map track_info demo_tracks)) demo_world
    = (Raise e', printed lines demo_world)
    /\ is_Exception e' = false.
Proof.
  apply (add_youtube_columns_interrupt interrupted_search_env demo_tracks
           (mkTrack "Song, B" [mkArtist "Z"])
           (mkExc KeyboardInterrupt EmptyString) demo_world).
  - cbn. tauto.
  - reflexivity.
  - reflexivity.
Defined.

(* ===================================================================== *)
(** * Reading the table back *)
(* ===================================================================== *)

Lemma append_empty (s : string) : s ++ EmptyString = s.
Proof. induction s; simpl; congruence. Qed.

Lemma append_not_empty (a b : string) : b <> EmptyString -> a ++ b <> EmptyString.
Proof. destruct a; [intros H; exact H | discriminate]. Qed.

Lemma bare_tail (c : ascii) (field : string) :
  bare (String c field) ->
  Ascii.eqb c "," = false /\ Ascii.eqb c Py.dquote = false
  /\ Ascii.eqb c Py.newline = false
  /\ Ascii.eqb c Py.carriage_return = false /\ bare field.
Proof.
  unfold bare. simpl. intros (H1 & H2 & H3 & H4).
  apply orb_false_iff in H1 as [H1 H1'].
  apply orb_false_iff in H2 as [H2 H2'].
  apply orb_false_iff in H3 as [H3 H3'].
  apply orb_false_iff in H4 as [H4 H4'].
  rewrite (Ascii.eqb_sym c), (Ascii.eqb_sym c Py.dquote),
    (Ascii.eqb_sym c Py.newline), (Ascii.eqb_sym c Py.carriage_return).
  repeat split; assumption.
Qed.

(** Inside a line: behind a character that is no line break, with text to
    follow, the line goes on. *)
Lemma ends_line_inside (c : ascii) (rest : string) :
  Ascii.eqb c Py.newline = false ->
  Ascii.eqb c Py.carriage_return = false ->
  rest <> EmptyString ->
  csv.ends_line c rest = false.
Proof.
  intros Hn Hr Hrest. unfold csv.ends_line. rewrite Hn, Hr.
  destruct rest; [congruence | reflexivity].
Qed.

(** The characters of a bare field behind its first one. *)
Lemma read_bare_rest (field rest acc : string) (record : list string) :
  bare field -> rest <> EmptyString ->
  csv.read_from (field ++ rest) (csv.mkReader csv.InField acc record)
  = csv.read_from rest (csv.mkReader csv.InField (acc ++ field) record).
Proof.
  intros Hbare Hrest. revert acc Hbare.
  induction field as [|c field IH]; intros acc Hbare.
  - rewrite append_empty. reflexivity.
  - apply bare_tail in Hbare as (H1 & H2 & H3 & H4 & Hbare).
    cbn [String.append csv.read_from]. unfold csv.feed, csv.line_break.
    cbn [csv.state]. rewrite H3, H4, H1. cbn [orb].
    rewrite (ends_line_inside c (field ++ rest) H3 H4
               (append_not_empty field rest Hrest)).
    unfold csv.add_char. cbn [csv.field csv.fields].
    rewrite (IH _ Hbare), PyFacts.append_assoc. reflexivity.
Qed.

(** The character behind a field. *)
Lemma read_separator (sep : ascii) (rest : string) (s : csv.State)
    (field : string) (record : list string) :
  separates sep rest ->
  s = csv.InField \/ s = csv.QuoteInQuotedField
  \/ (s = csv.StartField /\ field = EmptyString)
  \/ (s = csv.StartRecord /\ field = EmptyString /\ sep = ","%char) ->
  csv.read_from (String sep rest) (csv.mkReader s field record)
  = after_field sep rest field record.
Proof.
  intros Hsep Hstate. unfold after_field.
  assert (Hcomma : sep = ","%char -> csv.ends_line sep rest = false).
  { intros ->. destruct Hsep as [[_ Hrest] | Hnl]; [|discriminate Hnl].
    apply ends_line_inside; [reflexivity | reflexivity | exact Hrest]. }
  destruct Hsep as [[-> Hrest] | ->].
  - specialize (Hcomma eq_refl).
    destruct Hstate as [-> | [-> | [[-> ->] | (-> & -> & _)]]];
      cbn [csv.read_from]; unfold csv.feed; cbn [csv.state];
      cbv [csv.line_break csv.feed_start_field Ascii.eqb Bool.eqb
             Py.newline Py.carriage_return Py.dquote orb andb];
      rewrite Hcomma; reflexivity.
  - destruct Hstate as [-> | [-> | [[-> ->] | (_ & _ & Hno)]]];
      [| | |discriminate Hno]; reflexivity.
Qed.

(** The characters of a quoted field up to the character behind it. *)
Lemma read_quoted_rest (sep : ascii) (field rest acc : string)
    (record : list string) :
  separates sep rest ->
  csv.read_from
    (pd.double_quotes field ++ String Py.dquote (String sep rest))
    (csv.mkReader csv.InQuotedField acc record)
  = after_field sep rest (acc ++ field) record.
Proof.
  intros Hsep. revert acc. induction field as [|c field IH]; intros acc.
  - rewrite append_empty.
    cbn [pd.double_quotes String.append csv.read_from].
    unfold csv.feed. cbn [csv.state]. rewrite Ascii.eqb_refl.
    change (csv.ends_line Py.dquote (String sep rest)) with false.
    cbv iota. unfold csv.enter. cbn [csv.field csv.fields].
    apply (read_separator sep rest); [exact Hsep | right; left; reflexivity].
  - cbn [pd.double_quotes]. destruct (Ascii.eqb c Py.dquote) eqn:Hc.
    + apply Ascii.eqb_eq in Hc. subst c.
      cbn [String.append csv.read_from]. unfold csv.feed at 1.
      cbn [csv.state]. rewrite Ascii.eqb_refl.
      change (csv.ends_line Py.dquote (String Py.dquote ?x)) with false.
      cbv iota. unfold csv.enter. cbn [csv.field csv.fields].
      cbn [csv.read_from]. unfold csv.feed at 1. cbn [csv.state].
      rewrite Ascii.eqb_refl.
      rewrite (ends_line_inside Py.dquote _ eq_refl eq_refl)
        by (apply append_not_empty; discriminate).
      unfold csv.add_char. cbn [csv.field csv.fields].
      rewrite IH, PyFacts.append_assoc. reflexivity.
    + cbn [String.append csv.read_from]. unfold csv.feed at 1.
      cbn [csv.state]. rewrite Hc.
      unfold csv.add_char. cbn [csv.field csv.fields].
      assert (Hgo : forall text r,
                csv.state r = csv.InQuotedField ->
                (if csv.ends_line c text
                 then match csv.state (csv.end_of_line r) with
                      | csv.StartRecord =>
                          option_map
                            (cons (rev (csv.fields (csv.end_of_line r))))
                            (csv.read_from text csv.fresh)
                      | _ => csv.read_from text (csv.end_of_line r)
                      end
                 else csv.read_from text r)
                = csv.read_from text r).
      { intros text r Hr. destruct (csv.ends_line c text); [|reflexivity].
        unfold csv.end_of_line. rewrite Hr. cbv iota. rewrite Hr.
        reflexivity. }
      rewrite Hgo by reflexivity.
      rewrite IH, PyFacts.append_assoc. reflexivity.
Qed.

Lemma survives_bare (field : string) :
  survives field = true -> pd.needs_quotes field = false -> bare field.
Proof.
  unfold survives, bare. intros Hs Hq. rewrite Hq, orb_false_r in Hs.
  apply negb_true_iff in Hs. unfold pd.needs_quotes in Hq.
  apply orb_false_iff in Hq as [Hq H3].
  apply orb_false_iff in Hq as [H1 H2].
  repeat split; assumption.
Qed.

(** Reading one written field and the character behind it gives the field
    back. *)
Lemma read_field (sep : ascii) (field rest : string) (s : csv.State)
    (record : list string) :
  survives field = true -> separates sep rest -> at_start s ->
  (s = csv.StartRecord -> field = EmptyString -> sep = ","%char) ->
  csv.read_from (pd.csv_field field ++ String sep rest)
    (csv.mkReader s EmptyString record)
  = after_field sep rest field record.
Proof.
  intros Hs Hsep Hstart Hlone. unfold pd.csv_field.
  destruct (pd.needs_quotes field) eqn:Hq.
  - pose proof (read_quoted_rest sep field rest EmptyString record Hsep)
      as Hquoted.
    cbn [String.append] in Hquoted. rewrite <- Hquoted.
    cbn [String.append]. rewrite PyFacts.append_assoc. cbn [String.append].
    cbn [csv.read_from].
    rewrite (ends_line_inside Py.dquote _ eq_refl eq_refl)
      by (apply append_not_empty; discriminate).
    destruct Hstart as [-> | ->]; reflexivity.
  - pose proof (survives_bare field Hs Hq) as Hbare.
    destruct field as [|c field].
    + cbn [String.append]. apply (read_separator sep rest s); [exact Hsep|].
      destruct Hstart as [-> | ->].
      * right. right. right. repeat split. apply Hlone; reflexivity.
      * right. right. left. split; reflexivity.
    + apply bare_tail in Hbare as (H1 & H2 & H3 & H4 & Hbare).
      cbn [String.append csv.read_from].
      assert (Hfeed : csv.feed c (csv.mkReader s EmptyString record)
                      = Some (csv.mkReader csv.InField (String c EmptyString)
                                record)).
      { unfold csv.feed, csv.feed_start_field, csv.line_break.
        destruct Hstart as [-> | ->]; cbn [csv.state];
          rewrite H3, H4, H2, H1; reflexivity. }
      rewrite Hfeed.
      rewrite (ends_line_inside c _ H3 H4)
        by (apply append_not_empty; discriminate).
      rewrite (read_bare_rest field (String sep rest) _ record Hbare)
        by discriminate.
      apply (read_separator sep rest csv.InField); [exact Hsep|].
      left. reflexivity.
Qed.

(** Reading the written fields of a record and its newline gives the
    record. *)
Lemma read_fields (fields : list string) (rest : string) (s : csv.State)
    (record : list string) :
  fields <> [] ->
  Forall (fun field => survives field = true) fields ->
  at_start s ->
  (s = csv.StartRecord -> pd.lone_empty fields = false) ->
  csv.read_from (Py.join "," (map pd.csv_field fields) ++ Py.NL ++ rest)
    (csv.mkReader s EmptyString record)
  = option_map (cons (rev record ++ fields)%list)
      (csv.read_from rest csv.fresh).
Proof.
  revert s record.
  induction fields as [|f fields IH]; intros s record Hne Hall Hstart Hlone;
    [congruence|].
  inversion Hall as [|? ? Hf Hrest]; subst.
  destruct fields as [|g fields].
  - cbn [map Py.join]. unfold Py.NL. cbn [String.append].
    rewrite (read_field Py.newline f rest s record Hf
               (or_intror eq_refl) Hstart).
    + unfold after_field. cbn [Ascii.eqb Bool.eqb Py.newline].
      reflexivity.
    + intros -> ->. specialize (Hlone eq_refl). discriminate Hlone.
  - set (others := Py.join "," (map pd.csv_field (g :: fields))) in *.
    assert (Htext : Py.join "," (map pd.csv_field (f :: g :: fields))
                    ++ Py.NL ++ rest
                    = pd.csv_field f ++ String "," (others ++ Py.NL ++ rest)).
    { change (Py.join "," (map pd.csv_field (f :: g :: fields)))
        with (pd.csv_field f ++ "," ++ others).
      rewrite !PyFacts.append_assoc. reflexivity. }
    rewrite Htext.
    rewrite (read_field "," f _ s record Hf).
    + unfold after_field. cbn [Ascii.eqb Bool.eqb].
      rewrite (IH csv.StartField (f :: record)).
      * cbn [rev]. rewrite <- app_assoc. reflexivity.
      * discriminate.
      * exact Hrest.
      * right. reflexivity.
      * discriminate.
    + left. split; [reflexivity|]. apply append_not_empty. discriminate.
    + exact Hstart.
    + reflexivity.
Qed.

(** Reading one written line gives its fields back as one record. *)
Lemma read_line (fields : list string) (rest : string) :
  Forall (fun field => survives field = true) fields ->
  csv.read_from (pd.csv_line fields ++ rest) csv.fresh
  = option_map (cons fields) (csv.read_from rest csv.fresh).
Proof.
  intros Hall. unfold pd.csv_line.
  destruct (pd.lone_empty fields) eqn:Hlone.
  - destruct fields as [|f [|g fields]]; try discriminate Hlone.
    destruct f; [|discriminate Hlone]. reflexivity.
  - destruct fields as [|f fields]; [reflexivity|].
    rewrite PyFacts.append_assoc.
    apply (read_fields (f :: fields) rest csv.StartRecord []);
      [discriminate | exact Hall | left; reflexivity | intros _; exact Hlone].
Qed.

Lemma concat_lines (line : string) (lines : list string) :
  String.concat EmptyString (line :: lines)
  = line ++ String.concat EmptyString lines.
Proof.
  destruct lines as [|l ls]; [|reflexivity].
  cbn. rewrite append_empty. reflexivity.
Qed.

(** Reading back the written lines of records whose fields survive gives
    the records back. *)
Lemma read_lines (records : list (list string)) :
  Forall (Forall (fun field => survives field = true)) records ->
  csv.read (String.concat EmptyString (map pd.csv_line records))
  = Some records.
Proof.
  unfold csv.read.
  induction 1 as [|fields records Hfields Hrest IH]; [reflexivity|].
  cbn [map]. rewrite concat_lines, (read_line fields _ Hfields), IH.
  reflexivity.
Qed.

(** The reader at its edges, as Python's [csv.reader] answers them: a
    carriage return and a newline end a record alike, also as a pair; an
    empty line is a record without fields; inside quotes line breaks are
    characters of the field; quotes left open are closed by the end of the
    file. *)
Example read_line_breaks :
  csv.read ("a,b" ++ String Py.carriage_return Py.NL ++ "c,d"
            ++ String Py.carriage_return "e" ++ Py.NL ++ Py.NL ++ "f")
  = Some [["a"; "b"]; ["c"; "d"]; ["e"]; []; ["f"]].
Proof. reflexivity. Qed.

Example read_quoted_line_breaks :
  csv.read (String Py.dquote ("a" ++ String Py.carriage_return Py.NL ++ "b"
                              ++ String Py.dquote (",c" ++ Py.NL))
            ++ String Py.dquote "open,")
  = Some [["a" ++ String Py.carriage_return Py.NL ++ "b"; "c"]; ["open,"]].
Proof. reflexivity. Qed.

(** The writer at its edges: a carriage return alone does not ask for
    quotes, and a record of one empty field is a pair of quotes. *)
Example write_edges :
  pd.csv_line ["a,b"; "g" ++ String Py.carriage_return "h"; EmptyString]
  = String Py.dquote ("a,b" ++ String Py.dquote
      (",g" ++ String Py.carriage_return "h," ++ Py.NL))
  /\ pd.csv_line [EmptyString] = String Py.dquote (String Py.dquote Py.NL)
  /\ pd.csv_line [] = Py.NL.
Proof. repeat split; reflexivity. Qed.

(* ===================================================================== *)
(** * The table on disk *)
(* ===================================================================== *)

Lemma combine_map_same {A B : Type} (f : A -> B) (xs : list A) :
  combine xs (map f xs) = map (fun x => (x, f x)) xs.
Proof.
  induction xs as [|x xs IH]; [reflexivity|]. cbn. rewrite IH. reflexivity.
Qed.

(** The records of the frame of results. *)
Lemma csv_records_of_first_hits (env : Env) (tracks : list Track) :
  pd.csv_records (results_frame tracks (map (first_hit env) tracks))
  = result_columns :: map (written_row env) tracks.
Proof.
  unfold results_frame. rewrite csv_records_of_results.
  rewrite combine_map_same, map_map. reflexivity.
Qed.

Lemma save_results_returned (env : Env) (df : pd.DataFrame)
    (playlist_folder : string) (w w' : World) :
  save_results env df playlist_folder w = (Return tt, w') ->
  os.read_file w' (os.resolve w (os.path_join playlist_folder csv_name))
  = Some (pd.csv_text df).
Proof.
  unfold save_results, bind.
  destruct (to_csv env df (os.path_join playlist_folder csv_name) w)
    as [[[] | e |] w1] eqn:Hwrite; try discriminate.
  rewrite print_run. intros H. inversion H.
  rewrite (to_csv_returned _ _ _ _ _ Hwrite).
  apply (read_file_written _ _ w).
Qed.

(** C2, amended: take a collection with at least one track, searches that
    are not interrupted, and let every cell of the table -- the names, the
    artists, the links and the titles found -- survive, that is, hold no
    carriage return unless it is written in quotes anyway.  Then the
    search step returns the frame of results; its records are the header
    [Track Name], [Artist Name(s)], [YouTube Link], [YouTube Video Title]
    and under it one record per track in the order of the collection, an
    absent link or title being the empty field; whenever the table is
    saved the file holds its text; and Python's reader reads exactly these
    records back from that text. *)
Theorem csv_holds_one_row_per_track (env : Env) (tracks : list Track)
    (w : World) (playlist_folder : string)
    (Htracks : tracks <> [])
    (Hsearch : uninterrupted env)
    (Hcells : forall (track : Track) (cell : string),
                In track tracks -> In cell (written_row env track) ->
                survives cell = true) :
  exists lines : list string,
    add_youtube_columns env (pd.from_records (map track_info tracks)) w
    = (Return (results_frame tracks (map (first_hit env) tracks)),
       printed lines w)
    /\ pd.csv_records (results_frame tracks (map (first_hit env) tracks))
       = result_columns :: map (written_row env) tracks
    /\ (forall w2 w3 : World,
          save_results env (results_frame tracks (map (first_hit env) tracks))
            playlist_folder w2 = (Return tt, w3) ->
          os.read_file w3
            (os.resolve w2 (os.path_join playlist_folder csv_name))
          = Some (pd.csv_text
                    (results_frame tracks (map (first_hit env) tracks))))
    /\ csv.read
         (pd.csv_text (results_frame tracks (map (first_hit env) tracks)))
       = Some (result_columns :: map (written_row env) tracks).
Proof.
  rewrite (add_youtube_columns_steps env tracks w Htracks).
  destruct (map_M_resolve_track_returns env tracks w Hsearch) as (lines & ->).
  exists lines. split; [reflexivity|].
  split; [apply csv_records_of_first_hits|].
  split; [intros w2 w3; apply save_results_returned|].
  unfold pd.csv_text. rewrite csv_records_of_first_hits.
  apply read_lines. constructor.
  - repeat constructor.
  - apply Forall_forall. intros fields Hfields.
    apply in_map_iff in Hfields as (track & <- & Htrack).
    apply Forall_forall. intros cell Hcell.
    exact (Hcells track cell Htrack Hcell).
Qed.

Lemma csv_holds_one_row_per_track_witness :
  exists lines : list string,
    add_youtube_columns demo_env
      (pd.from_records (map track_info demo_tracks)) demo_world
    = (Return (results_frame demo_tracks (map (first_hit demo_env) demo_tracks)),
       printed lines demo_world)
    /\ pd.csv_records
         (results_frame demo_tracks (map (first_hit demo_env) demo_tracks))
       = result_columns :: map (written_row demo_env) demo_tracks
    /\ (forall w2 w3 : World,
          save_results demo_env
            (results_frame demo_tracks (map (first_hit demo_env) demo_tracks))
            "Mix" w2 = (Return tt, w3) ->
          os.read_file w3 (os.resolve w2 (os.path_join "Mix" csv_name))
          = Some (pd.csv_text
                    (results_frame demo_tracks
                       (map (first_hit demo_env) demo_tracks))))
    /\ csv.read
         (pd.csv_text
            (results_frame demo_tracks (map (first_hit demo_env) demo_tracks)))
       = Some (result_columns :: map (written_row demo_env) demo_tracks).
Proof.
  apply (csv_holds_one_row_per_track demo_env demo_tracks demo_world "Mix").
  - discriminate.
  - intros query e. unfold demo_env, make_env, demo_search.
    cbn [youtube_search].
    destruct (Py.contains "Song A" query); [discriminate|].
    destruct (Py.contains "Song C" query); [|discriminate].
    intros H. inversion H. reflexivity.
  - intros track cell Htrack Hcell.
    destruct Htrack as [<- | [<- | [<- | []]]];
      vm_compute in Hcell;
      repeat (destruct Hcell as [<- | Hcell]; [reflexivity|]);
      destruct Hcell.
Defined.

(** The records of the demo table as Python's reader gives them: the
    quoted cells come back without their quotes, the cells of the tracks
    without a match are empty. *)
Example demo_csv_read :
  csv.read (pd.csv_text demo_results)
  = Some [["Track Name"; "Artist Name(s)"; "YouTube Link";
           "YouTube Video Title"];
          ["Song A"; "X, Y"; "https://www.youtube.com/watch?v=idA";
           "Song A (Lyrics)"];
          ["Song, B"; "Z"; EmptyString; EmptyString];
          ["Song C"; EmptyString; EmptyString; EmptyString]].
Proof. vm_compute. reflexivity. Qed.

(** C2, as the claim words it, fails for a track whose name holds a
    carriage return: the search step returns the frame of the one track,
    the table is saved, the name is written without quotes, and the
    reader ends the record at the carriage return, so that the file holds
    two records for the one track, neither of them the track's. *)
Lemma csv_bare_carriage_return_splits_row :
  fst (add_youtube_columns silent_env
         (pd.from_records (map track_info cr_tracks)) demo_world)
  = Return (results_frame cr_tracks (map (first_hit silent_env) cr_tracks))
  /\ fst (save_results silent_env
            (results_frame cr_tracks (map (first_hit silent_env) cr_tracks))
            "Mix" demo_world_with_folder)
     = Return tt
  /\ os.read_file
       (snd (save_results silent_env
               (results_frame cr_tracks (map (first_hit silent_env) cr_tracks))
               "Mix" demo_world_with_folder))
       "/home/u/Mix/spotify_playlist_with_youtube.csv"
     = Some (header_line ++ "Line" ++ String Py.carriage_return "Break,X,,"
             ++ Py.NL)
  /\ csv.read
       (header_line ++ "Line" ++ String Py.carriage_return "Break,X,,"
        ++ Py.NL)
     = Some [result_columns; ["Line"];
             ["Break"; "X"; EmptyString; EmptyString]]
  /\ List.length cr_tracks = 1.
Proof. vm_compute. repeat split; reflexivity. Qed.

(* ===================================================================== *)
(** * A write that is cut short *)
(* ===================================================================== *)

Lemma header_line_text :
  header_line
  = "Track Name,Artist Name(s),YouTube Link,YouTube Video Title" ++ Py.NL.
Proof. reflexivity. Qed.

(** C6, as the claim words it, fails: the script writes straight into the
    final file and removes nothing.  When the user interrupts the write of
    the demo table once the header line is on disk, the whole run of
    [process_playlist] ends with [KeyboardInterrupt], which is no
    [OSError], and the file of the table is left on disk holding the
    header line and no row. *)
Lemma save_results_interrupted_leaves_header :
  fst (process_playlist interrupted_env 1 demo_playlist_url demo_world)
  = Raise (mkExc KeyboardInterrupt EmptyString)
  /\ os.read_file
       (snd (process_playlist interrupted_env 1 demo_playlist_url demo_world))
       "/home/u/My_ Mix abc/spotify_playlist_with_youtube.csv"
     = Some header_line
  /\ fst (save_results interrupted_env demo_results "Mix"
            demo_world_with_folder)
     = Raise (mkExc KeyboardInterrupt EmptyString)
  /\ os.read_file
       (snd (save_results interrupted_env demo_results "Mix"
               demo_world_with_folder))
       "/home/u/Mix/spotify_playlist_with_youtube.csv"
     = Some header_line
  /\ Some header_line <> Some (pd.csv_text demo_results).
Proof. vm_compute. repeat split; try reflexivity. discriminate. Qed.

(** C6, amended: the driver saves the table by writing straight into the
    final file, from a frame that is complete in memory, and has no step
    that removes or repairs the file.  When [save_results] returns, the
    file holds the whole table and the line that reports it is printed.
    When it raises, nothing is printed and either the world is as it was
    (an [OSError]: the directory is missing or the OS refuses to open the
    file), or the write was cut short by the user's interrupt or by a
    fault of the OS and the file is left holding a prefix of the table's
    text, possibly the empty one.  The step always ends. *)
Theorem save_results_is_whole_or_prefix (env : Env) (df : pd.DataFrame)
    (playlist_folder : string) (w : World) :
  match save_results env df playlist_folder w with
  | (Return _, w') =>
      w' = printed [Py.NL ++ "Saved results to "
                    ++ os.path_join playlist_folder csv_name]
             (os.write_file
                (os.resolve w (os.path_join playlist_folder csv_name))
                (pd.csv_text df) w)
      /\ os.read_file w'
           (os.resolve w (os.path_join playlist_folder csv_name))
         = Some (pd.csv_text df)
  | (Raise e, w') =>
      (exc_class e = OSError /\ w' = w)
      \/ ((exc_class e = KeyboardInterrupt \/ exc_class e = OSError)
          /\ exists n : nat,
               w' = os.write_file
                      (os.resolve w (os.path_join playlist_folder csv_name))
                      (Py.slice_to n (pd.csv_text df)) w
               /\ os.read_file w'
                    (os.resolve w (os.path_join playlist_folder csv_name))
                  = Some (Py.slice_to n (pd.csv_text df)))
  | (Diverge, _) => False
  end.
Proof.
  unfold save_results, bind, to_csv.
  set (target := os.resolve w (os.path_join playlist_folder csv_name)).
  destruct (negb (os.is_dir w (os.path_dirname target))).
  - left. split; reflexivity.
  - destruct (fs_fault env target) as [msg|].
    + left. split; reflexivity.
    + destruct (write_interrupt env target) as [[n | n msg]|].
      * right. split; [left; reflexivity|]. exists n.
        split; [reflexivity | apply read_file_written].
      * right. split; [right; reflexivity|]. exists n.
        split; [reflexivity | apply read_file_written].
      * rewrite print_run. split; [reflexivity|].
        apply (read_file_written target (pd.csv_text df) w).
Qed.

(* ===================================================================== *)
(** * A collection without tracks *)
(* ===================================================================== *)

(** Whenever the export gives a frame without any track and the folder is
    made, the run ends in the search step with [ZeroDivisionError], four
    lines after the folder: it does not reach the table, the success rate
    or the branch for a result without links. *)
Lemma process_playlist_without_tracks (env : Env) (fuel : nat) (url : string)
    (w w1 w2 : World) (name folder : string) :
  export_spotify_playlist env fuel url
    (printed [Py.NL ++ "Exporting Spotify playlist..."] w)
  = (Return (Some (pd.from_records []), Some name), w1) ->
  create_playlist_folder env name w1 = (Return (Some folder), w2) ->
  exists e : PyExc,
    process_playlist env fuel url w
    = (Raise e,
       printed ["Successfully exported 0 tracks!";
                Py.NL ++ "First few tracks:";
                repr_frame env (pd.head (pd.from_records []));
                Py.NL ++ "Starting YouTube search..."] w2)
    /\ exc_class e = ZeroDivisionError.
Proof.
  intros Hexport Hfolder.
  pose proof (create_playlist_folder_first env name w1) as Hfirst.
  rewrite Hfolder in Hfirst. destruct Hfirst as (_ & Htruthy & _).
  exists (mkExc ZeroDivisionError "integer division or modulo by zero").
  split; [|reflexivity].
  unfold process_playlist.
  rewrite (bind_run_return _ _ _ _ _ (print_run _ _)).
  rewrite (bind_run_return _ _ _ _ _ Hexport).
  rewrite (bind_run_return _ _ _ _ _ Hfolder).
  unfold truthy_folder. rewrite Htruthy.
  do 4 rewrite (bind_run_return _ _ _ _ _ (print_run _ _)).
  rewrite !printed_printed. cbn [app].
  match goal with
  | |- bind _ _ ?w0 = _ =>
      rewrite (bind_run_raise _ _ w0 w0
                 (mkExc ZeroDivisionError
                    "integer division or modulo by zero"))
        by reflexivity
  end.
  reflexivity.
Qed.

(** C9 at a playlist whose only entry has lost its track: the export
    succeeds with a frame of no track, so the result holds no match with a
    link; the run does not end in the outcome for a result without links
    but raises [ZeroDivisionError] in the search step, before the message
    for that outcome is printed and before any table is written. *)
Theorem process_playlist_empty_collection_crashes :
  fst (export_spotify_playlist empty_env 1 demo_playlist_url
         (printed [Py.NL ++ "Exporting Spotify playlist..."] demo_world))
  = Return (Some (pd.from_records []), Some "My: Mix abc")
  /\ fst (process_playlist empty_env 1 demo_playlist_url demo_world)
     = Raise (mkExc ZeroDivisionError "integer division or modulo by zero")
  /\ ~ In no_links_message
         (stdout (snd (process_playlist empty_env 1 demo_playlist_url
                         demo_world)))
  /\ files (snd (process_playlist empty_env 1 demo_playlist_url demo_world))
     = []
  /\ spawned (snd (process_playlist empty_env 1 demo_playlist_url demo_world))
     = [].
Proof.
  vm_compute. repeat split; try reflexivity.
  intros H. repeat (destruct H as [H | H]; [discriminate H|]). exact H.
Qed.

(* ===================================================================== *)
(** * A search without a hit *)
(* ===================================================================== *)

(** C3, as the claim words it, fails where it has the failure logged on
    zero hits: the search for the second demo track has no hit, and
    [get_youtube_link] returns no URL and no title without printing a
    line. *)
Lemma get_youtube_link_no_hit_prints_nothing :
  youtube_search demo_env (search_query "Song, B" (Some "Z")) = inr []
  /\ fst (get_youtube_link demo_env "Song, B" (Some "Z") demo_world)
     = Return (None, None)
  /\ stdout (snd (get_youtube_link demo_env "Song, B" (Some "Z") demo_world))
     = stdout demo_world.
Proof. vm_compute. repeat split; reflexivity. Qed.
